(** * uridiag: the USB radio-interface diagnostic, embedded in Rocq

    A shallow embedding of [uridiag.c]: the HID control transport, the GPIO
    encoder/decoder, the EEPROM word protocol with the user-segment checksum,
    the digital loopback test, the tone synthesiser's sample function and the
    band-energy part of the spectral analyser.

    Conventions.
    - C integers are [Z]; every conversion to [unsigned char] or
      [unsigned short] that the C code performs is written out with [u8] and
      [u16].
    - [float] and [double] are IEEE-754 binary32 and binary64 values of
      [SpecFloat], rounded to nearest-even, each C operation in the format the
      usual arithmetic conversions give it.
    - Code that talks to the adapter runs in the monad [M]: a state monad over
      [world] in which an access outside an array is a fault that stops the
      run and keeps the state reached so far. *)

From Stdlib Require Import ZArith QArith Qabs Lia List String Ascii Bool.
From Stdlib Require Import Floats.SpecFloat.
From stdpp Require Import base option list list_numbers.

Local Open Scope Z_scope.

(** ** Machine integers *)

Definition u8 (z : Z) : Z := z mod 256.
Definition u16 (z : Z) : Z := z mod 65536.

(** ** Constants of the source *)

Definition C108_PRODUCT_ID : Z := 0x000c.
Definition C108B_PRODUCT_ID : Z := 0x0012.
Definition C108AH_PRODUCT_ID : Z := 0x013c.
Definition C119_PRODUCT_ID : Z := 0x0008.
Definition C119A_PRODUCT_ID : Z := 0x013a.
Definition C119B_PRODUCT_ID : Z := 0x0013.

Definition HID_REPORT_GET : Z := 0x01.
Definition HID_REPORT_SET : Z := 0x09.

Definition NFFT : Z := 1024.

Definition EEPROM_START_ADDR : Z := 51.
Definition EEPROM_PHYSICAL_LEN : Z := 64.
Definition EEPROM_USER_LEN : Z := 13.
Definition EEPROM_MAGIC : Z := 34329.
Definition EEPROM_USER_MAGIC_ADDR : Z := 0.
Definition EEPROM_USER_SPARE : Z := 11.
Definition EEPROM_USER_CS_ADDR : Z := 12.

Definition cm119b_manufacturer_data : list Z :=
  [ 0x670d; 0x0d8c; 0x0013; 0x0000; 0x0000;
    0x0000; 0x0000; 0x0000; 0x0000; 0x0000; 0x5522; 0x4253; 0x4120; 0x6475; 0x6f69;
    0x4420; 0x7665; 0x6369; 0x0065; 0x0000; 0x0000; 0x0000; 0x0000; 0x0000; 0x0000;
    0x0000; 0x4332; 0x4d2d; 0x6465; 0x6169; 0x4520; 0x656c; 0x7463; 0x6f72; 0x696e;
    0x7363; 0x4920; 0x636e; 0x002e; 0x0000; 0x0000; 0x0000; 0x14c8; 0xf21a; 0x0000;
    0x0000; 0x0000; 0x0000; 0x0000; 0x0000; 0x0000 ].

(** [sizeof(cm119b_manufacturer_data)]: 51 objects of type [unsigned short],
    two bytes each. *)
Definition sizeof_cm119b_manufacturer_data : Z :=
  Z.of_nat (length cm119b_manufacturer_data) * 2.

(** [enum { DEV_C108, DEV_C108AH, DEV_C119 }] *)
Inductive devtype_t := DEV_C108 | DEV_C108AH | DEV_C119.

Definition all_devtypes : list devtype_t := [DEV_C108; DEV_C108AH; DEV_C119].

Definition devtype_eqb (a b : devtype_t) : bool :=
  match a, b with
  | DEV_C108, DEV_C108 | DEV_C108AH, DEV_C108AH | DEV_C119, DEV_C119 => true
  | _, _ => false
  end.

(** ** The adapter and the host side of the control pipe *)

(** [unsigned char buf[4]]: one HID report. *)
Record report := Report { byte0 : Z; byte1 : Z; byte2 : Z; byte3 : Z }.

Definition report_u8 (r : report) : report :=
  Report (u8 (byte0 r)) (u8 (byte1 r)) (u8 (byte2 r)) (u8 (byte3 r)).

(** One control transfer as the host issued it, with its outcome. *)
Inductive transfer :=
| SET_REPORT (outs : report) (completed : bool)
| GET_REPORT (ins : option report).

(** Everything the program acts on.
    - [eeprom]: the words of the AT93C46 behind the sound chip;
    - [input_report]: what the chip answers to the next input-report request;
    - [pins]: the board and whatever is plugged into it, as the input report
      it presents for given GPIO output levels and output-enable mask;
    - [faults]: the outcomes of the coming control transfers, [true] for a
      transfer that fails; past its end every transfer completes;
    - [transfers]: the control transfers issued so far, oldest first;
    - [clock]: microseconds slept so far;
    - [stdout]: what has been printed, oldest first. *)
Record world := World {
  eeprom : list Z;
  input_report : report;
  pins : Z -> Z -> report;
  faults : list bool;
  transfers : list transfer;
  clock : Z;
  stdout : list string
}.

Definition with_eeprom (e : list Z) (w : world) : world :=
  World e (input_report w) (pins w) (faults w) (transfers w) (clock w) (stdout w).
Definition with_input_report (r : report) (w : world) : world :=
  World (eeprom w) r (pins w) (faults w) (transfers w) (clock w) (stdout w).
Definition with_faults (f : list bool) (w : world) : world :=
  World (eeprom w) (input_report w) (pins w) f (transfers w) (clock w) (stdout w).
Definition with_transfers (t : list transfer) (w : world) : world :=
  World (eeprom w) (input_report w) (pins w) (faults w) t (clock w) (stdout w).
Definition with_clock (c : Z) (w : world) : world :=
  World (eeprom w) (input_report w) (pins w) (faults w) (transfers w) c (stdout w).
Definition with_stdout (s : list string) (w : world) : world :=
  World (eeprom w) (input_report w) (pins w) (faults w) (transfers w) (clock w) s.

(** What the chip does with an output report that reached it, after the
    comments of [read_eeprom] and [write_eeprom]: with bit 7 of byte 0 set the
    report is an EEPROM command, byte 3 carrying the request bit (0x80), the
    write bit (0x40) and the six address bits, bytes 1 and 2 the data, low byte
    first; a read command latches the addressed word into bytes 1 and 2 of the
    input report.  Any other report drives the GPIO lines, byte 1 the levels
    and byte 2 the output-enable mask, and the input report follows the pins.
    A cell that does not exist reads as 0 and cannot be written. *)
Definition chip_set_report (r : report) (w : world) : world :=
  if Z.testbit (byte0 r) 7 then
    if Z.testbit (byte3 r) 7 then
      let a := Z.to_nat (Z.land (byte3 r) 0x3f) in
      if Z.testbit (byte3 r) 6 then
        with_eeprom (<[a := byte1 r + byte2 r * 256]> (eeprom w)) w
      else
        let x := default 0 (eeprom w !! a) in
        with_input_report
          (Report (byte0 (input_report w)) (u8 x) (u8 (x / 256)) (byte3 (input_report w))) w
    else w
  else with_input_report (pins w (byte1 r) (byte2 r)) w.

(** ** The monad of the program *)

Definition M (A : Type) : Type := world -> world * option A.

Definition ret {A} (a : A) : M A := fun w => (w, Some a).

Definition bind {A B} (m : M A) (k : A -> M B) : M B :=
  fun w => match m w with
           | (w', Some a) => k a w'
           | (w', None) => (w', None)
           end.

Definition fault {A} : M A := fun w => (w, None).

Notation "x <- c ;; k" := (bind c (fun x => k))
  (at level 100, c at next level, right associativity).
Notation "c ;; k" := (bind c (fun _ => k))
  (at level 100, right associativity).

(** [a[i]] and [a[i] = x] on an array of known extent. *)
Definition load (a : list Z) (i : Z) : M Z :=
  if i <? 0 then fault
  else match a !! Z.to_nat i with
       | Some x => ret x
       | None => fault
       end.

Definition store (a : list Z) (i : Z) (x : Z) : M (list Z) :=
  if (0 <=? i) && (i <? Z.of_nat (length a)) then ret (<[Z.to_nat i := x]> a)
  else fault.

(** [for (i = lo; i < hi; i++) body]: the locals the body updates are threaded
    through; the value of [i] after the loop is returned with them. *)
Fixpoint iterate {S} (n : nat) (i : Z) (body : Z -> S -> M S) (s : S) : M (Z * S) :=
  match n with
  | O => ret (i, s)
  | Datatypes.S n' => s' <- body i s ;; iterate n' (i + 1) body s'
  end.

Definition for_lt {S} (lo hi : Z) (body : Z -> S -> M S) (s : S) : M (Z * S) :=
  iterate (Z.to_nat (hi - lo)) lo body s.

Definition usleep (us : Z) : M unit :=
  fun w => (with_clock (clock w + us) w, Some tt).

Definition printf (line : string) : M unit :=
  fun w => (with_stdout (stdout w ++ [line]) w, Some tt).

(** [usb_control_msg] of libusb-0.1 on interface 3, by request: the number
    of bytes moved, or a negative value when the transfer failed, together
    with the caller's buffer afterwards. *)
Definition usb_control_msg (request : Z) (bytes : report) : M (Z * report) :=
  fun w =>
    let failed := hd false (faults w) in
    let w := with_faults (tl (faults w)) w in
    if request =? HID_REPORT_SET then
      let w := with_transfers (transfers w ++ [SET_REPORT bytes (negb failed)]) w in
      if failed then (w, Some (-1, bytes))
      else (chip_set_report bytes w, Some (4, bytes))
    else if request =? HID_REPORT_GET then
      if failed then
        (with_transfers (transfers w ++ [GET_REPORT None]) w, Some (-1, bytes))
      else
        let r := report_u8 (input_report w) in
        (with_transfers (transfers w ++ [GET_REPORT (Some r)]) w, Some (4, r))
    else (w, Some (-1, bytes)).

(** ** Transport and GPIO *)

Definition set_outputs (outputs : report) : M unit :=
  usleep 1500 ;;
  usb_control_msg HID_REPORT_SET outputs ;;
  ret tt.

Definition setout (devtype : devtype_t) (c : Z) : M unit :=
  let buf :=
    Report 0 (u8 c) (if devtype_eqb devtype DEV_C119 then 0x3d else 0xd) 0 in
  set_outputs buf ;;
  usleep 100000.

(** The buffer is the caller's; it comes back as the call left it. *)
Definition get_inputs (inputs : report) : M report :=
  usleep 1500 ;;
  res <- usb_control_msg HID_REPORT_GET inputs ;;
  ret (snd res).

(** [buf[2]] and [buf[3]] are not initialised by [getin] and never read. *)
Definition getin (devtype : devtype_t) : M Z :=
  buf <- get_inputs (Report 0 0 0 0) ;;
  let c := u16 (Z.land (byte1 buf) 0xf) in
  let c := u16 (c + Z.shiftl (Z.land (byte0 buf) 3) 4) in
  let c := if devtype_eqb devtype DEV_C119
           then u16 (c + Z.land (byte1 buf) 0xc0) else c in
  let c := if devtype_eqb devtype DEV_C108AH
           then let c := u16 (Z.land c 0xfd) in
                if Z.land (byte0 buf) 0x10 =? 0 then u16 (c + 2) else c
           else c in
  ret (u8 c).

(** ** EEPROM protocol *)

Definition read_eeprom (addr : Z) : M Z :=
  let buf := Report 0x80 0 0 (u8 (Z.lor 0x80 (Z.land addr 0x3f))) in
  usleep 500 ;;
  set_outputs buf ;;
  let buf := Report 0 0 0 0 in
  usleep 500 ;;
  buf <- get_inputs buf ;;
  ret (u16 (byte1 buf + Z.shiftl (byte2 buf) 8)).

(** [buf] has the caller's extent; the checksum and the buffer come back. *)
Definition get_eeprom (buf : list Z) : M (Z * list Z) :=
  let cs := 0xffff in
  r <- for_lt EEPROM_START_ADDR (EEPROM_START_ADDR + EEPROM_USER_CS_ADDR + 1)
         (fun i st =>
            let '(cs, buf) := st in
            x <- read_eeprom i ;;
            buf <- store buf (i - EEPROM_START_ADDR) x ;;
            ret (u16 (cs + x), buf))
         (cs, buf) ;;
  ret (snd r).

Definition write_eeprom (addr data : Z) : M unit :=
  let data := u16 data in
  let buf := Report 0x80 (u8 (Z.land data 0xff)) (u8 (Z.shiftr data 8))
                    (u8 (Z.lor 0xc0 (Z.land addr 0x3f))) in
  usleep 2000 ;;
  set_outputs buf.

Definition put_eeprom (buf : list Z) : M (list Z) :=
  let cs := 0xffff in
  buf <- store buf EEPROM_USER_MAGIC_ADDR EEPROM_MAGIC ;;
  r <- for_lt EEPROM_START_ADDR (EEPROM_START_ADDR + EEPROM_USER_CS_ADDR)
         (fun i cs =>
            x <- load buf (i - EEPROM_START_ADDR) ;;
            write_eeprom i x ;;
            y <- load buf i ;;
            ret (u16 (cs + y)))
         cs ;;
  let '(i, cs) := r in
  buf <- store buf EEPROM_USER_CS_ADDR (u16 ((65535 - cs) + 1)) ;;
  usleep 2000 ;;
  x <- load buf EEPROM_USER_CS_ADDR ;;
  write_eeprom i x ;;
  ret buf.

Definition nl : string := String "010"%char EmptyString.

(** The loop of [put_eeprom_mfg_data], reading through the pointer
    [cm119b_manufacturer_data] in an object of the given contents. *)
Definition put_eeprom_mfg_data_from (object : list Z) : M unit :=
  for_lt 0 sizeof_cm119b_manufacturer_data
    (fun i _ => x <- load object i ;; write_eeprom i x) tt ;;
  printf ("CM-119B Manufacturer data updated." ++ nl)%string.

Definition put_eeprom_mfg_data : M unit :=
  put_eeprom_mfg_data_from cm119b_manufacturer_data.

(** [unsigned short sbuf[64]], zeroed. *)
Definition eeprom_init : M unit :=
  let sbuf := replicate 64 0 in
  put_eeprom sbuf ;;
  ret tt.

(** [%04x] for a value that fits four digits. *)
Definition hex_digit (d : Z) : ascii :=
  ascii_of_nat (Z.to_nat (if d <? 10 then 48 + d else 87 + d)).

Fixpoint hex_digits (n : nat) (v : Z) (acc : string) : string :=
  match n with
  | O => acc
  | Datatypes.S n' => hex_digits n' (v / 16) (String (hex_digit (v mod 16)) acc)
  end.

Definition hex04 (v : Z) : string := hex_digits 4 v EmptyString.

(** [%d] for a value that is not negative. *)
Fixpoint dec_digits (n : nat) (v : Z) (acc : string) : string :=
  match n with
  | O => acc
  | Datatypes.S n' =>
      let acc := String (ascii_of_nat (Z.to_nat (48 + v mod 10))) acc in
      if v / 10 =? 0 then acc else dec_digits n' (v / 10) acc
  end.

Definition dec (v : Z) : string := dec_digits (Datatypes.S (Z.to_nat v)) v EmptyString.

Definition eeprom_test : M Z :=
  let nerror := 0 in
  write_eeprom (EEPROM_START_ADDR + EEPROM_USER_SPARE) 0x6942 ;;
  i <- read_eeprom (EEPROM_START_ADDR + EEPROM_USER_SPARE) ;;
  if negb (i =? 0x6942) then
    printf ("Error!! EEPROM wrote 6942 hex, read " ++ hex04 i ++ " hex" ++ nl)%string ;;
    ret (nerror + 1)
  else
    printf ("Success - EEPROM wrote 6942 hex, read " ++ hex04 i ++ " hex" ++ nl)%string ;;
    ret nerror.

(** ** Digital loopback test *)

Definition baboons (v : Z) : string :=
  if v =? 0 then "0"%string else "1"%string.

Definition dioerror (got should : Z) : M Z :=
  let got := u8 got in
  let should := u8 should in
  let err := u8 (Z.lxor got should) in
  let n := 0 in
  n <- (if negb (Z.land err 0x2 =? 0) then
          printf ("Error on GPIO1/GPIO2, got " ++ baboons (Z.land got 2)
                  ++ ", should be " ++ baboons (Z.land should 2) ++ nl)%string ;;
          ret (n + 1)
        else ret n) ;;
  n <- (if negb (Z.land err 0x10 =? 0) then
          printf ("Error on GPIO3/PTT/COR IN, got " ++ baboons (Z.land got 0x10)
                  ++ ", should be " ++ baboons (Z.land should 0x10) ++ nl)%string ;;
          ret (n + 1)
        else ret n) ;;
  n <- (if negb (Z.land err 0x40 =? 0) then
          printf ("Error on GPIO5/GPIO7, got " ++ baboons (Z.land got 0x40)
                  ++ ", should be " ++ baboons (Z.land should 0x40) ++ nl)%string ;;
          ret (n + 1)
        else ret n) ;;
  n <- (if negb (Z.land err 0x80 =? 0) then
          printf ("Error on GPIO5/GPIO7, got " ++ baboons (Z.land got 0x80)
                  ++ ", should be " ++ baboons (Z.land should 0x80) ++ nl)%string ;;
          ret (n + 1)
        else ret n) ;;
  ret n.

Definition testio (devtype : devtype_t) (toout toexpect : Z) : M Z :=
  setout devtype toout ;;
  c <- getin devtype ;;
  let c := u8 (Z.land c 0xf2) in
  dioerror c toexpect.

Definition digital_test (devtype : devtype_t) : M Z :=
  let nerror := 0 in
  printf ("Testing digital I/O (PTT,COR,TONE and GPIO)...." ++ nl)%string ;;
  e <- testio devtype 8 0 ;;
  let nerror := nerror + e in
  e <- testio devtype 9 2 ;;
  let nerror := nerror + e in
  e <- testio devtype 0xc 0x10 ;;
  let nerror := nerror + e in
  e <- testio devtype 0 0x20 ;;
  let nerror := nerror + e in
  nerror <- (if devtype_eqb devtype DEV_C119 then
               e <- testio devtype 0x18 0x40 ;;
               let nerror := nerror + e in
               e <- testio devtype 0x28 0x80 ;;
               ret (nerror + e)
             else ret nerror) ;;
  e <- testio devtype 8 0 ;;
  let nerror := nerror + e in
  (if nerror =? 0 then printf ("Digital I/O passed!!" ++ nl)%string
   else printf ("Digital I/O had " ++ dec nerror ++ " errors!!" ++ nl)%string) ;;
  ret nerror.

(** ** Floating point *)

(** C's [float] and [double].  Both are [spec_float]; a value is kept in the
    canonical form of its own format, which the comparisons rely on. *)
Module F32.
Definition prec : Z := 24.
Definition emax : Z := 128.
Definition of_Z (z : Z) : spec_float := binary_normalize prec emax z 0 false.
(** Conversion from [double]. *)
Definition of_double (x : spec_float) : spec_float :=
  match x with
  | S754_finite s m e => binary_round prec emax s m e
  | _ => x
  end.
Definition add := SFadd prec emax.
Definition sub := SFsub prec emax.
Definition mul := SFmul prec emax.
End F32.

Module F64.
Definition prec : Z := 53.
Definition emax : Z := 1024.
Definition of_Z (z : Z) : spec_float := binary_normalize prec emax z 0 false.
(** Conversion from [float]; it is exact. *)
Definition of_float (x : spec_float) : spec_float :=
  match x with
  | S754_finite s m e => binary_round prec emax s m e
  | _ => x
  end.
Definition add := SFadd prec emax.
Definition sub := SFsub prec emax.
Definition mul := SFmul prec emax.
Definition div := SFdiv prec emax.
Definition sqrt := SFsqrt prec emax.
Definition fabs := SFabs.
(** A decimal literal [num/den] with both parts exact in [double]: the
    correctly rounded quotient is the nearest [double] to the literal. *)
Definition literal (num den : Z) : spec_float := div (of_Z num) (of_Z den).
End F64.

(** The integral part of a finite value, towards zero. *)
Definition trunc (x : spec_float) : option Z :=
  match x with
  | S754_zero _ => Some 0
  | S754_finite s m e =>
      let a := if 0 <=? e then Z.pos m * 2 ^ e else Z.pos m / 2 ^ (- e) in
      Some (if s then - a else a)
  | _ => None
  end.

(** [(unsigned short) x] for a [float] sample.  The C standard defines it
    only when the integral part lies in 0..65535; outside, the value here is
    the one the x86-64 code computes: the integral part as a 32-bit [int], of
    which the low 16 bits are kept. *)
Definition float_to_u16 (x : spec_float) : Z :=
  match trunc x with
  | Some z => if (- 2 ^ 31 <=? z) && (z <? 2 ^ 31) then u16 z else 0
  | None => 0
  end.

(** ** Tone synthesiser *)

Record tonevars := Tonevars { mycr : spec_float; myci : spec_float }.

Definition get_tonesample (devtype : devtype_t) (tvars : tonevars)
    (ddr ddi : spec_float) : tonevars * spec_float :=
  let t := F32.sub (F32.mul (mycr tvars) ddr) (F32.mul (myci tvars) ddi) in
  let tvars :=
    Tonevars (mycr tvars)
             (F32.add (F32.mul (mycr tvars) ddi) (F32.mul (myci tvars) ddr)) in
  let tvars := Tonevars t (myci tvars) in
  let t :=
    F32.of_double
      (F64.sub (F64.of_Z 2)
         (F64.of_float
            (F32.add (F32.mul (mycr tvars) (mycr tvars))
                     (F32.mul (myci tvars) (myci tvars))))) in
  let tvars := Tonevars (F32.mul (mycr tvars) t) (myci tvars) in
  let tvars := Tonevars (mycr tvars) (F32.mul (myci tvars) t) in
  if devtype_eqb devtype DEV_C108AH || devtype_eqb devtype DEV_C119 then
    (tvars, mycr tvars)
  else
    (tvars,
     F32.of_double (F64.mul (F64.of_float (mycr tvars)) (F64.literal 9092 10000))).

Definition AUDIO_BLOCKSIZE : Z := 4096.
Definition AUDIO_SAMPLES_PER_BLOCK : Z := AUDIO_BLOCKSIZE / 4.

(** One channel's share of one turn of the loop of [outaudio]: the word
    stored in [buf] and the oscillator afterwards. *)
Definition outaudio_word (devtype : devtype_t) (freq : spec_float)
    (t : tonevars) (ddr ddi : spec_float) : tonevars * Z :=
  if SFltb (F64.of_Z 0) (F64.of_float freq) then
    let '(t, f) := get_tonesample devtype t ddr ddi in
    (t, float_to_u16 (F32.mul f (F32.of_Z 32765)))
  else (t, 0).

(** The block [outaudio] writes and the two oscillators afterwards.  The
    phase steps [cos] and [sin] of libm give are taken as arguments, one pair
    per channel; they are used only for a frequency above zero. *)
Fixpoint outaudio_loop (devtype : devtype_t) (n : nat) (freq1 freq2 : spec_float)
    (step1 step2 : spec_float * spec_float) (t1 t2 : tonevars)
    : list Z * (tonevars * tonevars) :=
  match n with
  | O => ([], (t1, t2))
  | Datatypes.S n' =>
      let '(t1, w1) := outaudio_word devtype freq1 t1 (fst step1) (snd step1) in
      let '(t2, w2) := outaudio_word devtype freq2 t2 (fst step2) (snd step2) in
      let '(rest, ts) := outaudio_loop devtype n' freq1 freq2 step1 step2 t1 t2 in
      (w1 :: w2 :: rest, ts)
  end.

Definition outaudio (devtype : devtype_t) (freq1 freq2 : spec_float)
    (step1 step2 : spec_float * spec_float) (t1 t2 : tonevars)
    : list Z * (tonevars * tonevars) :=
  let one := F32.of_Z 1 in
  let zero := S754_zero false in
  let t1 := if SFltb (F64.of_Z 0) (F64.of_float freq1) then t1 else Tonevars one zero in
  let t2 := if SFltb (F64.of_Z 0) (F64.of_float freq2) then t2 else Tonevars one zero in
  outaudio_loop devtype (Z.to_nat AUDIO_SAMPLES_PER_BLOCK) freq1 freq2 step1 step2 t1 t2.

(** ** Spectral analyser: the band energies of [soundthread] *)

(** [afft[i]], for [afft] of the extent the source declares. *)
Definition afft_at (afft : list spec_float) (i : Z) : spec_float :=
  default (S754_zero false) (afft !! Z.to_nat i).

Definition pure_for {S} (lo hi : Z) (body : Z -> S -> S) (s : S) : S :=
  fold_left (fun s i => body i s) (seqZ lo (hi - lo)) s.

(** The statements of [soundthread] from the clearing of [mylev] to the
    assignment of [lev2], for the spectrum [cdft] left in [afft] and the
    targets [myfreq1] and [myfreq2]; the result is [(lev, lev1, lev2)]. *)
Definition soundthread_levels (afft : list spec_float) (myfreq1 myfreq2 : spec_float)
    : spec_float * spec_float * spec_float :=
  let zero := S754_zero false in
  let '(mylev, mylev1, mylev2) :=
    pure_for 1 (NFFT / 2)
      (fun i st =>
         let '(mylev, mylev1, mylev2) := st in
         let ftmp :=
           F32.of_double
             (F64.add (F64.mul (afft_at afft (i * 2)) (afft_at afft (i * 2)))
                      (F64.mul (afft_at afft (i * 2 + 1)) (afft_at afft (i * 2 + 1)))) in
         let mylev := F32.add mylev ftmp in
         let buck :=
           F32.of_double (F64.mul (F64.of_float (F32.of_Z i)) (F64.literal 46875 1000)) in
         let mylev1 :=
           if SFltb (F64.of_Z 0) (F64.of_float myfreq1) then
             if SFltb (F64.fabs (F64.of_float (F32.sub buck myfreq1)))
                      (F64.mul (F64.literal 15 10) (F64.literal 46875 1000))
             then F32.add mylev1 ftmp else mylev1
           else mylev1 in
         let mylev2 :=
           if SFltb (F64.of_Z 0) (F64.of_float myfreq2) then
             if SFltb (F64.fabs (F64.of_float (F32.sub buck myfreq2)))
                      (F64.mul (F64.literal 15 10) (F64.literal 46875 1000))
             then F32.add mylev2 ftmp else mylev2
           else mylev2 in
         (mylev, mylev1, mylev2))
      (zero, zero, zero) in
  let level x :=
    F32.of_double
      (F64.mul (F64.div (F64.sqrt (F64.of_float x)) (F64.of_float (F32.of_Z (NFFT / 2))))
               (F64.of_Z 4096)) in
  (level mylev, level mylev1, level mylev2).

(** ** Where the targets and the commands come from *)

Definition PASSBAND_LEVEL : Z := 550.
Definition STOPBAND_LEVEL : Z := 117.


(** What one turn of the menu loop of [main] goes on to do. *)
Inductive command :=
| Quit
| Tone (myfreq : Z)
| DigitalTest
| FullTest (verbose : bool)
| EepromInit
| EepromTest
| EepromList
| EepromDump
| ManufacturerList
| ManufacturerRefused
| ManufacturerWrite
| Pinout
| Ignored.

Definition chr (a : ascii) : Z := Z.of_nat (nat_of_ascii a).

(** [isupper] and [tolower] in the C locale. *)
Definition isupper (c : Z) : bool := (chr "A" <=? c) && (c <=? chr "Z").
Definition tolower (c : Z) : Z := if isupper c then c + 32 else c.

(** The [switch] of [main] on the first character [str0] of the line read. *)
Definition main_switch (devproductid : Z) (str0 : Z) : command :=
  let c := str0 in
  let c := if isupper c then tolower str0 else c in
  if (c =? chr "x") || (c =? chr "q") then Quit
  else if c =? chr "1" then Tone 1004
  else if c =? chr "2" then Tone 204
  else if c =? chr "3" then Tone 300
  else if c =? chr "4" then Tone 404
  else if c =? chr "5" then Tone 502
  else if c =? chr "6" then Tone 1502
  else if c =? chr "7" then Tone 2004
  else if c =? chr "8" then Tone 3004
  else if c =? chr "9" then Tone 5004
  else if (c =? 0) || (c =? 10) || (c =? 13) then Tone 0
  else if c =? chr "i" then DigitalTest
  else if (c =? chr "t") || (c =? chr "T") then FullTest (str0 =? chr "T")
  else if (c =? chr "e") || (c =? chr "E") then
    if str0 =? chr "E" then EepromInit else EepromTest
  else if c =? chr "l" then EepromList
  else if c =? chr "d" then EepromDump
  else if c =? chr "m" then ManufacturerList
  else if c =? chr "M" then
    if negb (devproductid =? C119B_PRODUCT_ID) then ManufacturerRefused
    else ManufacturerWrite
  else if c =? chr "c" then Pinout
  else Ignored.


(** ** Example worlds *)

(** The test plug of the program's pinout screen, as [digital_test] expects
    it to answer: GPIO1 to GPIO2, GPIO3 to the CTCSS input, GPIO4 inverted to
    the COR input, GPIO5 to GPIO7 and GPIO6 to GPIO8. *)
Definition loopback_plug (levels enable : Z) : report :=
  let out := Z.land levels enable in
  Report (Z.b2z (Z.testbit out 2) + 2 * Z.b2z (negb (Z.testbit out 3)))
         (2 * Z.b2z (Z.testbit out 0) + 64 * Z.b2z (Z.testbit out 4)
          + 128 * Z.b2z (Z.testbit out 5))
         0 0.

(** An adapter with an erased EEPROM and the test plug fitted. *)
Definition erased_world : world :=
  World (replicate 64 0xffff) (Report 0 0 0 0) loopback_plug [] [] 0 [].

(** A CM-119B adapter as shipped and set up: the vendor's table in the
    manufacturer segment and a valid user segment of zero settings behind it. *)
Definition programmed_world : world :=
  World (cm119b_manufacturer_data ++ [34329; 0; 0; 0; 0; 0; 0; 0; 0; 0; 0; 0; 31208])
        (Report 0 0 0 0) loopback_plug [] [] 0 [].

(** ** More of the EEPROM code *)

(** [buf] has the caller's extent; it comes back filled. *)
Definition get_eeprom_dump (buf : list Z) : M (list Z) :=
  r <- for_lt 0 64
         (fun i buf => x <- read_eeprom i ;; store buf i x)
         buf ;;
  ret (snd r).

(** ** The input side of [soundthread] *)

(** Storing an [int] in a [short]: outside the range of [short] the result
    is implementation-defined, and gcc reduces modulo 2^16. *)
Definition s16 (z : Z) : Z := (z + 32768) mod 65536 - 32768.

(** [(int) x] for a [float] sample: the integral part.  Outside the range of
    [int] the C standard leaves the conversion undefined; the value here is
    the one the x86-64 code computes. *)
Definition float_to_int (x : spec_float) : Z :=
  match trunc x with
  | Some z => if (- 2 ^ 31 <=? z) && (z <? 2 ^ 31) then z else - 2 ^ 31
  | None => - 2 ^ 31
  end.

(** [gfac]: the literals are of type [double] and stored in a [float]. *)
Definition gfac (devtype : devtype_t) : spec_float :=
  if devtype_eqb devtype DEV_C108AH || devtype_eqb devtype DEV_C119
  then F32.of_double (F64.literal 7499 10000)
  else F32.of_double (F64.of_Z 1).

(** [(int) (((float) sbuf[i] + 32768) * gfac) - 32768], stored in [sbuf[i]]. *)
Definition gain_sample (devtype : devtype_t) (s : Z) : Z :=
  s16 (float_to_int (F32.mul (F32.add (F32.of_Z s) (F32.of_Z 32768)) (gfac devtype))
       - 32768).

(** [(double) (sbuf[i] + 32768) / (double) 65536.0] *)
Definition afft_sample (s : Z) : spec_float :=
  F64.div (F64.of_Z (s + 32768)) (F64.of_Z 65536).

(** The statements of [soundthread] from the [memset] to the call of [cdft],
    for a full block of [AUDIO_BLOCKSIZE] bytes read into [sbuf]: the result
    is [sbuf] and [afft] as [cdft] receives them.  [afft] is static and comes
    in as the turn before left it; the second loop, which steps [i] by two, is
    run over [i / 2]. *)
Definition soundthread_afft (devtype : devtype_t) (sbuf : list Z)
    (afft : list spec_float) : list Z * list spec_float :=
  let afft :=
    replicate (Z.to_nat (2 * (NFFT + 1))) (S754_zero false)
    ++ drop (Z.to_nat (2 * (NFFT + 1))) afft in
  let sbuf :=
    pure_for 0 (AUDIO_BLOCKSIZE / 2)
      (fun i sbuf =>
         <[Z.to_nat i := gain_sample devtype (default 0 (sbuf !! Z.to_nat i))]> sbuf)
      sbuf in
  let afft :=
    pure_for 0 NFFT
      (fun k afft =>
         let i := 2 * k in
         <[Z.to_nat i := afft_sample (default 0 (sbuf !! Z.to_nat i))]> afft)
      afft in
  (sbuf, afft).

(** ** The verdict of [analog_test_one] *)

(** [fabs(lev - dlev) > (dlev * 0.2)] for the level [lev] the analyser
    reported and the level [dlev] wanted, both of type [float]. *)
Definition out_of_range (lev dlev : spec_float) : bool :=
  SFltb (F64.mul (F64.of_float dlev) (F64.literal 2 10))
        (F64.fabs (F64.of_float (F32.sub lev dlev))).

(** The value [analog_test_one] returns: the globals [lev1] and [lev2], which
    the sound thread sets, come in as the function finds them after its sleep;
    the wanted levels are its parameters [dlev1] and [dlev2]. *)
Definition analog_test_one (lev1 lev2 dlev1 dlev2 : spec_float) : Z :=
  let nerror := 0 in
  let nerror := if out_of_range lev1 dlev1 then nerror + 1 else nerror in
  let nerror := if out_of_range lev2 dlev2 then nerror + 1 else nerror in
  nerror.

(** ** The dump *)

(** [%02i] for a value that is not negative. *)
Definition dec02 (v : Z) : string :=
  if v <? 10 then String "0"%char (dec v) else dec v.

(** [sbuf] is uninitialised in the source; its contents come in as an
    argument. *)
Definition eeprom_dump (sbuf : list Z) : M Z :=
  sbuf <- get_eeprom_dump sbuf ;;
  printf ("EEPROM dump" ++ nl)%string ;;
  for_lt 0 64
    (fun i _ =>
       x <- load sbuf i ;;
       printf (dec02 i ++ " - " ++ hex04 x ++ " - " ++ dec x ++ nl)%string) tt ;;
  printf nl ;;
  ret 0.

(** ** Vocabulary of the statements *)

(** The address of the EEPROM write command a transfer carries, as the chip
    decodes it. *)
Definition written_address (t : transfer) : option Z :=
  match t with
  | SET_REPORT r _ =>
      if Z.testbit (byte0 r) 7 && Z.testbit (byte3 r) 7 && Z.testbit (byte3 r) 6
      then Some (Z.land (byte3 r) 0x3f) else None
  | GET_REPORT _ => None
  end.

(** The word a read of address [a] returns from EEPROM contents [e]. *)
Definition eeprom_word (e : list Z) (a : Z) : Z :=
  u16 (default 0 (e !! Z.to_nat a)).

(** The sum of the [n] words from address [a] on. *)
Fixpoint word_sum (e : list Z) (a : Z) (n : nat) : Z :=
  match n with
  | O => 0
  | Datatypes.S n' => eeprom_word e a + word_sum e (a + 1) n'
  end.

(** The checksum of the user segment: 0xFFFF plus its 13 words, modulo 2^16. *)
Definition user_checksum (e : list Z) : Z :=
  u16 (0xffff + word_sum e EEPROM_START_ADDR (Z.to_nat EEPROM_USER_LEN)).

(** A world in which every control transfer completes and the EEPROM has its
    64 sixteen-bit words. *)
Definition healthy (w : world) : Prop :=
  faults w = [] /\ length (eeprom w) = Z.to_nat EEPROM_PHYSICAL_LEN /\
  Forall (fun x => 0 <= x < 65536) (eeprom w).

(** [m] moves every world along [R] and, when it returns, returns a value
    in [Q]. *)
Definition triple (R : world -> world -> Prop) {A} (m : M A) (Q : A -> Prop) : Prop :=
  forall w, R w (fst (m w)) /\ forall a, snd (m w) = Some a -> Q a.

(** The next control transfer fails. *)
Definition next_transfer_fails (w : world) : Prop := hd false (faults w) = true.

(** The claim that a failed transfer reaches the caller: what [set_outputs]
    and [get_inputs] hand back differs between a world in which the transfer
    fails and one in which it completes. *)
Definition failure_is_surfaced : Prop :=
  forall (w_fail w_ok : world) (r : report),
    next_transfer_fails w_fail -> ~ next_transfer_fails w_ok ->
    snd (set_outputs r w_fail) <> snd (set_outputs r w_ok) /\
    snd (get_inputs r w_fail) <> snd (get_inputs r w_ok).

(** The world after one output report has been issued, and after one input
    report has been requested: the next entry of [faults] is used up, the
    transfer is recorded, and the chip acts only when the transfer completes. *)
Definition after_set_report (r : report) (w : world) : world :=
  let failed := hd false (faults w) in
  let w1 := with_transfers (transfers w ++ [SET_REPORT r (negb failed)])
              (with_faults (tl (faults w)) w) in
  if failed then w1 else chip_set_report r w1.

Definition answer (w : world) : option report :=
  if hd false (faults w) then None else Some (report_u8 (input_report w)).

Definition after_get_report (w : world) : world :=
  with_transfers (transfers w ++ [GET_REPORT (answer w)])
    (with_faults (tl (faults w)) w).

(** The step relation of the user-segment writer: the transfers added are all
    EEPROM write commands for addresses 51..63, and the words below address
    51 are as they were. *)
Definition user_segment_only (w w' : world) : Prop :=
  (exists new,
     transfers w' = transfers w ++ new /\
     Forall (fun t => exists a, written_address t = Some a /\ 51 <= a <= 63) new) /\
  forall a : nat, (a < 51)%nat -> eeprom w' !! a = eeprom w !! a.

(** Bit [i] of the value [getin] is to return for the input report [buf],
    in the words of the specification: bits 0-3 are those of byte 1, bits 4-5
    are bits 0-1 of byte 0, bits 6-7 are those of byte 1 on the CM119 only,
    and on the CM108AH bit 1 is the inverse of bit 4 of byte 0 instead. *)
Definition decoded_bit (devtype : devtype_t) (buf : report) (i : Z) : bool :=
  if (i =? 1) && devtype_eqb devtype DEV_C108AH then negb (Z.testbit (byte0 buf) 4)
  else if (0 <=? i) && (i <? 4) then Z.testbit (byte1 buf) i
  else if (4 <=? i) && (i <? 6) then Z.testbit (byte0 buf) (i - 4)
  else if (6 <=? i) && (i <? 8) then
    devtype_eqb devtype DEV_C119 && Z.testbit (byte1 buf) i
  else false.

(** The number of bits set in the low eight bits of [z]. *)
Definition popcount8 (z : Z) : Z :=
  fold_right (fun i n => Z.b2z (Z.testbit z i) + n) 0 (seqZ 0 8).

(** The number of bits of [mask] in which [got] and [should] differ. *)
Definition mismatches (mask got should : Z) : Z :=
  popcount8 (Z.land (Z.lxor (u8 got) (u8 should)) mask).

(** A board whose COR input never responds, otherwise wired as the test
    plug. *)
Definition dead_cor_plug (levels enable : Z) : report :=
  let r := loopback_plug levels enable in
  Report (Z.land (byte0 r) 1) (byte1 r) (byte2 r) (byte3 r).

Definition dead_cor_world : world :=
  World (replicate 64 0xffff) (Report 0 0 0 0) dead_cor_plug [] [] 0 [].

(** The sample [get_tonesample] returns is smaller in magnitude than the real
    component of the rotor it leaves. *)
Definition reduced (devtype : devtype_t) (tvars : tonevars) (ddr ddi : spec_float) : bool :=
  let '(tvars', f) := get_tonesample devtype tvars ddr ddi in
  SFltb (SFabs f) (SFabs (mycr tvars')).

(** The variant's samples are reduced: some sample is. *)
Definition reduces (devtype : devtype_t) : Prop :=
  exists tvars ddr ddi, reduced devtype tvars ddr ddi = true.

(** The claim on the amplitude factor: two of the three variants reduce. *)
Definition two_variants_reduce : Prop :=
  exists d1 d2, d1 <> d2 /\ reduces d1 /\ reduces d2.

(** The exact value of a finite float. *)
Definition SF2Q (x : spec_float) : Q :=
  match x with
  | S754_finite s m e =>
      ((if s then -1 else 1) * inject_Z (Z.pos m) * Qpower 2 e)%Q
  | _ => 0%Q
  end.

(** The bins the analyser looks at: 1 up to, not including, half the
    transform length. *)
Definition bins : list Z := seqZ 1 (NFFT / 2 - 1).



(** Bin [i] as the code tests it against the target [myfreq]. *)
Definition selected (myfreq : spec_float) (i : Z) : bool :=
  SFltb (F64.of_Z 0) (F64.of_float myfreq)
  && SFltb (F64.fabs (F64.of_float
              (F32.sub (F32.of_double (F64.mul (F64.of_float (F32.of_Z i))
                                               (F64.literal 46875 1000)))
                       myfreq)))
           (F64.mul (F64.literal 15 10) (F64.literal 46875 1000)).



(** [sqrt(sum) / 512 * 4096], 512 being half the transform length, computed
    in [double] and stored in a [float]. *)
Definition level (sum : spec_float) : spec_float :=
  F32.of_double
    (F64.mul (F64.div (F64.sqrt (F64.of_float sum)) (F64.of_Z 512)) (F64.of_Z 4096)).




(** ** Vocabulary of the further statements *)

(** The step relation of code that only reads the adapter: the EEPROM is as
    it was, and the transfers added carry no EEPROM write command. *)
Definition reads_only (w w' : world) : Prop :=
  eeprom w' = eeprom w /\
  exists new,
    transfers w' = transfers w ++ new /\
    Forall (fun t => written_address t = None) new.

(** One channel of [outaudio] on its own: [n] turns of [outaudio_word]. *)
Fixpoint channel_run (devtype : devtype_t) (n : nat) (freq : spec_float)
    (step : spec_float * spec_float) (t : tonevars) : list Z * tonevars :=
  match n with
  | O => ([], t)
  | Datatypes.S n' =>
      let '(t, x) := outaudio_word devtype freq t (fst step) (snd step) in
      let '(rest, t') := channel_run devtype n' freq step t in
      (x :: rest, t')
  end.

(** The stereo stream of two channels: left word, right word, and so on. *)
Fixpoint interleave (l r : list Z) : list Z :=
  match l, r with
  | a :: l', b :: r' => a :: b :: interleave l' r'
  | _, _ => []
  end.

(** The rotor a channel starts a block with: the one kept from the block
    before while a tone is on, the unit rotor otherwise. *)
Definition block_start (freq : spec_float) (t : tonevars) : tonevars :=
  if SFltb (F64.of_Z 0) (F64.of_float freq) then t
  else Tonevars (F32.of_Z 1) (S754_zero false).

(** [P] holds of every [n]-bit number behind the prefix [acc]. *)
Fixpoint forall_bits (n : nat) (P : Z -> bool) (acc : Z) : bool :=
  match n with
  | O => P acc
  | Datatypes.S n' => forall_bits n' P (2 * acc) && forall_bits n' P (2 * acc + 1)
  end.

(** A value of type [short]. *)
Definition is_short (s : Z) : Prop := -32768 <= s < 32768.

(** The transfers of a run of GPIO steps under the output-enable mask
    [mask]: for each step, one output report that drives the step's pattern,
    byte 0 and byte 3 being zero, then one request for the input report.  A
    step is its pattern, whether the output report completed, and the answer
    to the request. *)
Definition gpio_trace (mask : Z) (steps : list (Z * bool * option report))
    : list transfer :=
  flat_map (fun s => let '(pattern, completed, ins) := s in
                     [SET_REPORT (Report 0 pattern mask 0) completed; GET_REPORT ins])
           steps.

(** * Properties *)

(** ** Bytes and words *)

Lemma seqZ_forallb (P : Z -> bool) (n : Z) :
  forallb P (seqZ 0 n) = true -> forall x, 0 <= x < n -> P x = true.
Proof.
  intros H x Hx. rewrite forallb_forall in H. apply H.
  apply list_elem_of_In, elem_of_seqZ. lia.
Qed.

Lemma u8_range z : 0 <= u8 z < 256.
Proof. unfold u8. apply Z.mod_pos_bound. lia. Qed.

Lemma u16_range z : 0 <= u16 z < 65536.
Proof. unfold u16. apply Z.mod_pos_bound. lia. Qed.

Lemma u16_small z : 0 <= z < 65536 -> u16 z = z.
Proof. intros H. unfold u16. apply Z.mod_small, H. Qed.

Lemma u16_add_l a b : u16 (u16 a + b) = u16 (a + b).
Proof. unfold u16. apply Zplus_mod_idemp_l. Qed.

Lemma land_3f z : Z.land z 0x3f = z mod 64.
Proof. change 0x3f with (Z.ones 6). rewrite Z.land_ones by lia. reflexivity. Qed.

Lemma land_3f_range z : 0 <= Z.land z 0x3f < 64.
Proof. rewrite land_3f. apply Z.mod_pos_bound. lia. Qed.

Lemma command_byte (base a : Z) :
  In base [0x80; 0xc0] -> 0 <= a < 64 ->
  u8 (Z.lor base a) = Z.lor base a /\
  Z.testbit (Z.lor base a) 7 = true /\
  Z.testbit (Z.lor base a) 6 = Z.testbit base 6 /\
  Z.land (Z.lor base a) 0x3f = a.
Proof.
  intros Hb Ha.
  assert (forallb (fun b => forallb (fun a =>
            (u8 (Z.lor b a) =? Z.lor b a) && Z.testbit (Z.lor b a) 7
            && Bool.eqb (Z.testbit (Z.lor b a) 6) (Z.testbit b 6)
            && (Z.land (Z.lor b a) 0x3f =? a)) (seqZ 0 64)) [0x80; 0xc0] = true) as H
    by (vm_compute; reflexivity).
  rewrite forallb_forall in H. specialize (H base Hb).
  pose proof (seqZ_forallb _ _ H a Ha) as H1. cbv beta in H1.
  rewrite !andb_true_iff in H1. destruct H1 as [[[H1 H2] H3] H4].
  apply Z.eqb_eq in H1, H4. apply eqb_prop in H3. auto.
Qed.

(** The two data bytes of a write frame carry the word, low byte first. *)
Lemma data_bytes d :
  u8 (Z.land (u16 d) 0xff) = u16 d mod 256 /\
  u8 (Z.shiftr (u16 d) 8) = u16 d / 256 /\
  u16 d mod 256 + u16 d / 256 * 256 = u16 d.
Proof.
  pose proof (u16_range d) as Hd. unfold u8.
  change 0xff with (Z.ones 8). rewrite Z.land_ones by lia.
  rewrite Z.shiftr_div_pow2 by lia. change (2 ^ 8) with 256.
  repeat split.
  - apply Z.mod_small. apply Z.mod_pos_bound. lia.
  - apply Z.mod_small. split.
    + apply Z.div_pos; lia.
    + apply Z.div_lt_upper_bound; lia.
  - pose proof (Z.div_mod (u16 d) 256). lia.
Qed.

Lemma data_bytes_fit d :
  u8 (Z.land (u16 d) 0xff) = Z.land (u16 d) 0xff /\
  u8 (Z.shiftr (u16 d) 8) = Z.shiftr (u16 d) 8.
Proof.
  destruct (data_bytes d) as (H1 & H2 & _). rewrite H1, H2.
  change 0xff with (Z.ones 8). rewrite Z.land_ones by lia.
  rewrite Z.shiftr_div_pow2 by lia. split; reflexivity.
Qed.

(** Bytes 1 and 2 of a read answer give the word back. *)
Lemma word_of_bytes x :
  u16 (u8 (u8 x) + Z.shiftl (u8 (u8 (x / 256))) 8) = u16 x.
Proof.
  rewrite Z.shiftl_mul_pow2 by lia. change (2 ^ 8) with 256.
  unfold u8, u16. rewrite !Z.mod_mod by lia.
  Z.div_mod_to_equations. lia.
Qed.

(** ** The monad and the transport, step by step *)

Lemma bind_ret {A B} (a : A) (k : A -> M B) w : bind (ret a) k w = k a w.
Proof. reflexivity. Qed.

Lemma bind_fault {A B} (k : A -> M B) w : bind fault k w = (w, None).
Proof. reflexivity. Qed.

Lemma bind_bind {A B C} (m : M A) (k : A -> M B) (k' : B -> M C) w :
  bind (bind m k) k' w = bind m (fun a => bind (k a) k') w.
Proof. unfold bind. destruct (m w) as [w1 [a|]]; reflexivity. Qed.

Lemma bind_some {A B} (m : M A) (k : A -> M B) (a : A) w :
  snd (m w) = Some a -> bind m k w = k a (fst (m w)).
Proof. unfold bind. destruct (m w) as [w1 r]. cbn. intros ->. reflexivity. Qed.

Lemma bind_none {A B} (m : M A) (k : A -> M B) w :
  snd (m w) = None -> snd (bind m k w) = None.
Proof. unfold bind. destruct (m w) as [w1 [a|]]; cbn; [discriminate | reflexivity]. Qed.

Lemma bind_usleep {B} us (k : unit -> M B) w :
  bind (usleep us) k w = k tt (with_clock (clock w + us) w).
Proof. reflexivity. Qed.

Lemma bind_printf {B} s (k : unit -> M B) w :
  bind (printf s) k w = k tt (with_stdout (stdout w ++ [s]) w).
Proof. reflexivity. Qed.

Lemma set_outputs_eq r w :
  set_outputs r w = (after_set_report r (with_clock (clock w + 1500) w), Some tt).
Proof.
  unfold set_outputs. rewrite bind_usleep.
  unfold bind, usb_control_msg, after_set_report. cbn.
  destruct (hd false (faults w)); reflexivity.
Qed.

Lemma get_inputs_eq r w :
  get_inputs r w =
  (after_get_report (with_clock (clock w + 1500) w), Some (default r (answer w))).
Proof.
  unfold get_inputs. rewrite bind_usleep.
  unfold bind, usb_control_msg, after_get_report, answer. cbn.
  destruct (hd false (faults w)); reflexivity.
Qed.

Lemma bind_set_outputs {B} r (k : unit -> M B) w :
  bind (set_outputs r) k w = k tt (after_set_report r (with_clock (clock w + 1500) w)).
Proof. unfold bind at 1. rewrite set_outputs_eq. reflexivity. Qed.

Lemma bind_get_inputs {B} r (k : report -> M B) w :
  bind (get_inputs r) k w =
  k (default r (answer w)) (after_get_report (with_clock (clock w + 1500) w)).
Proof. unfold bind at 1. rewrite get_inputs_eq. reflexivity. Qed.

(** What each step leaves alone. *)
Lemma chip_transfers r w : transfers (chip_set_report r w) = transfers w.
Proof. unfold chip_set_report. repeat case_match; reflexivity. Qed.

Lemma chip_faults r w : faults (chip_set_report r w) = faults w.
Proof. unfold chip_set_report. repeat case_match; reflexivity. Qed.

Lemma after_set_transfers r w :
  transfers (after_set_report r w)
  = transfers w ++ [SET_REPORT r (negb (hd false (faults w)))].
Proof.
  unfold after_set_report. destruct (hd false (faults w)); [reflexivity|].
  rewrite chip_transfers. reflexivity.
Qed.

Lemma after_set_faults r w : faults (after_set_report r w) = tl (faults w).
Proof.
  unfold after_set_report. destruct (hd false (faults w)); [reflexivity|].
  rewrite chip_faults. reflexivity.
Qed.

Lemma after_set_failed r w :
  next_transfer_fails w ->
  eeprom (after_set_report r w) = eeprom w /\
  input_report (after_set_report r w) = input_report w.
Proof. unfold next_transfer_fails, after_set_report. intros ->. split; reflexivity. Qed.

Lemma answer_with_clock c w : answer (with_clock c w) = answer w.
Proof. reflexivity. Qed.

Lemma answer_bytes w r :
  answer w = Some r ->
  0 <= byte0 r < 256 /\ 0 <= byte1 r < 256 /\ 0 <= byte2 r < 256 /\ 0 <= byte3 r < 256.
Proof.
  unfold answer. destruct (hd false (faults w)); [discriminate|].
  intros [= <-]. cbn. auto using u8_range.
Qed.

Create Rewrite HintDb step.
Create Rewrite HintDb world.
#[local] Hint Rewrite @bind_ret @bind_usleep @bind_printf @bind_set_outputs
  @bind_get_inputs : step.
#[local] Hint Rewrite after_set_transfers after_set_faults chip_transfers
  chip_faults : world.

(** ** Transport failures (C4) *)

(** C4, as the code has it: [set_outputs] and [get_inputs] issue exactly one
    control transfer each, whatever its outcome, and hand back nothing that
    depends on the outcome itself: [set_outputs] always returns the same
    value, [get_inputs] returns the answer when there is one and otherwise the
    caller's buffer as it was; a failed transfer changes neither the EEPROM
    nor the chip's input report. *)
Theorem transfer_outcome_dropped (r : report) (w : world) :
  snd (set_outputs r w) = Some tt /\
  transfers (fst (set_outputs r w))
    = transfers w ++ [SET_REPORT r (negb (hd false (faults w)))] /\
  faults (fst (set_outputs r w)) = tl (faults w) /\
  snd (get_inputs r w) = Some (default r (answer w)) /\
  transfers (fst (get_inputs r w)) = transfers w ++ [GET_REPORT (answer w)] /\
  faults (fst (get_inputs r w)) = tl (faults w) /\
  (answer w = None <-> next_transfer_fails w) /\
  (next_transfer_fails w ->
   eeprom (fst (set_outputs r w)) = eeprom w /\
   input_report (fst (set_outputs r w)) = input_report w /\
   snd (get_inputs r w) = Some r).
Proof.
  rewrite set_outputs_eq, get_inputs_eq. cbn [fst snd].
  rewrite after_set_transfers, after_set_faults.
  repeat split; try reflexivity.
  - unfold answer, next_transfer_fails. destruct (hd false (faults w)); easy.
  - unfold answer, next_transfer_fails. destruct (hd false (faults w)); easy.
  - apply (after_set_failed r (with_clock (clock w + 1500) w)), H.
  - apply (after_set_failed r (with_clock (clock w + 1500) w)), H.
  - unfold answer. unfold next_transfer_fails in H. rewrite H. reflexivity.
Qed.

(** C4 fails as stated: with the test plug idle, a request that fails and a
    request that completes hand the caller the same values. *)
Lemma failure_is_not_surfaced :
  let w_fail := with_faults [true] erased_world in
  let r := Report 0 0 0 0 in
  next_transfer_fails w_fail /\ ~ next_transfer_fails erased_world /\
  snd (set_outputs r w_fail) = snd (set_outputs r erased_world) /\
  snd (get_inputs r w_fail) = snd (get_inputs r erased_world) /\
  ~ failure_is_surfaced.
Proof.
  cbv zeta.
  assert (next_transfer_fails (with_faults [true] erased_world)) as Hf by reflexivity.
  assert (~ next_transfer_fails erased_world) as Hok by (cbv; discriminate).
  repeat split; try assumption; try reflexivity.
  intros H. destruct (H _ _ (Report 0 0 0 0) Hf Hok) as [H1 _].
  apply H1. reflexivity.
Qed.

(** ** The wire format of single words *)

Lemma read_eeprom_transfers (addr : Z) (w : world) :
  exists ok ins,
    transfers (fst (read_eeprom addr w))
    = transfers w ++ [SET_REPORT (Report 0x80 0 0 (Z.lor 0x80 (Z.land addr 0x3f))) ok;
                      GET_REPORT ins] /\
    snd (read_eeprom addr w)
    = Some (match ins with
            | Some r => byte1 r + Z.shiftl (byte2 r) 8
            | None => 0
            end).
Proof.
  pose proof (land_3f_range addr) as Ha.
  destruct (command_byte 0x80 (Z.land addr 0x3f)) as (Hb & _); [cbn; auto | lia |].
  unfold read_eeprom. rewrite Hb.
  autorewrite with step. cbn [fst snd ret].
  rewrite answer_with_clock.
  set (w1 := after_set_report _ _).
  eexists _, (answer w1). split.
  - unfold after_get_report. cbn [transfers with_transfers with_faults with_clock].
    subst w1. rewrite after_set_transfers. cbn [transfers with_clock].
    rewrite <- app_assoc. reflexivity.
  - f_equal. destruct (answer w1) as [r|] eqn:Hr; [|reflexivity].
    cbn [default]. apply answer_bytes in Hr.
    apply u16_small. rewrite Z.shiftl_mul_pow2 by lia. lia.
Qed.

Lemma write_eeprom_transfers (addr data : Z) (w : world) :
  exists ok,
    transfers (fst (write_eeprom addr data w))
    = transfers w
      ++ [SET_REPORT (Report 0x80 (Z.land (u16 data) 0xff) (Z.shiftr (u16 data) 8)
                             (Z.lor 0xc0 (Z.land addr 0x3f))) ok].
Proof.
  pose proof (land_3f_range addr) as Ha.
  destruct (command_byte 0xc0 (Z.land addr 0x3f)) as (Hb & _); [cbn; auto | lia |].
  destruct (data_bytes_fit data) as (H1 & H2).
  unfold write_eeprom. rewrite Hb, H1, H2.
  autorewrite with step. rewrite set_outputs_eq. cbn [fst].
  rewrite after_set_transfers. eexists. reflexivity.
Qed.

(** C8: [read_eeprom] sends the frame [0x80, 0, 0, 0x80 | (addr & 0x3f)],
    requests one input report and returns byte 1 of the answer plus byte 2
    shifted left by eight (0 when no answer came); [write_eeprom] sends
    [0x80, low byte, high byte, 0xC0 | (addr & 0x3f)] for the word [data] and
    requests nothing; the address sent lies in 0..63 whatever [addr] is. *)
Theorem eeprom_wire_encoding (addr data : Z) (w : world) :
  let a := Z.land addr 0x3f in
  0 <= a <= 63 /\
  (exists ok ins,
     transfers (fst (read_eeprom addr w))
     = transfers w ++ [SET_REPORT (Report 0x80 0 0 (Z.lor 0x80 a)) ok; GET_REPORT ins] /\
     snd (read_eeprom addr w)
     = Some (match ins with
             | Some r => byte1 r + Z.shiftl (byte2 r) 8
             | None => 0
             end)) /\
  (exists ok,
     transfers (fst (write_eeprom addr data w))
     = transfers w
       ++ [SET_REPORT (Report 0x80 (Z.land (u16 data) 0xff) (Z.shiftr (u16 data) 8)
                              (Z.lor 0xc0 a)) ok]).
Proof.
  intros a. pose proof (land_3f_range addr) as Ha. fold a in Ha.
  split; [lia|]. split.
  - apply read_eeprom_transfers.
  - apply write_eeprom_transfers.
Qed.

(** ** Triples over a step relation *)

Section Triples.
Variable R : world -> world -> Prop.
Hypothesis R_refl : forall w, R w w.
Hypothesis R_trans : forall a b c, R a b -> R b c -> R a c.

Lemma triple_ret {A} (a : A) (Q : A -> Prop) : Q a -> triple R (ret a) Q.
Proof. intros HQ w. cbn. split; [apply R_refl|]. intros ? [= <-]. exact HQ. Qed.

Lemma triple_fault {A} (Q : A -> Prop) : triple R fault Q.
Proof. intros w. cbn. split; [apply R_refl|]. discriminate. Qed.

Lemma triple_weaken {A} (m : M A) (P Q : A -> Prop) :
  triple R m P -> (forall a, P a -> Q a) -> triple R m Q.
Proof. intros H HPQ w. destruct (H w) as [H1 H2]. split; auto. Qed.

Lemma triple_bind {A B} (m : M A) (k : A -> M B) (P : A -> Prop) (Q : B -> Prop) :
  triple R m P -> (forall a, P a -> triple R (k a) Q) -> triple R (bind m k) Q.
Proof.
  intros Hm Hk w. unfold bind. destruct (Hm w) as [H1 H2].
  destruct (m w) as [w1 [a|]]; cbn [fst snd] in *.
  - destruct (Hk a (H2 a eq_refl) w1) as [H3 H4]. split; [|exact H4].
    eapply R_trans; eassumption.
  - split; [exact H1 | discriminate].
Qed.

Lemma triple_load a i (Q : Z -> Prop) : (forall x, Q x) -> triple R (load a i) Q.
Proof.
  intros HQ. unfold load. destruct (i <? 0); [apply triple_fault|].
  destruct (a !! Z.to_nat i); [apply triple_ret, HQ | apply triple_fault].
Qed.

Lemma triple_store a i x (Q : list Z -> Prop) :
  (forall b, Q b) -> triple R (store a i x) Q.
Proof.
  intros HQ. unfold store.
  destruct ((0 <=? i) && (i <? Z.of_nat (length a)));
    [apply triple_ret, HQ | apply triple_fault].
Qed.

Lemma triple_iterate {S} (body : Z -> S -> M S) (n : nat) :
  forall (i : Z) (s : S),
    (forall j s, i <= j < i + Z.of_nat n -> triple R (body j s) (fun _ => True)) ->
    triple R (iterate n i body s) (fun r => fst r = i + Z.of_nat n).
Proof.
  induction n as [|n IH]; intros i s Hbody.
  - cbn [iterate]. apply triple_ret. cbn. lia.
  - cbn [iterate]. eapply triple_bind.
    + apply Hbody. lia.
    + intros s' _. eapply triple_weaken.
      * apply IH. intros j s0 Hj. apply Hbody. lia.
      * cbn beta. intros r ->. lia.
Qed.
End Triples.

(** ** The user-segment writer stays in the user segment (C5) *)

Lemma user_segment_only_refl w : user_segment_only w w.
Proof.
  split; [|reflexivity]. exists []. rewrite app_nil_r. split; [reflexivity|constructor].
Qed.

Lemma user_segment_only_trans a b c :
  user_segment_only a b -> user_segment_only b c -> user_segment_only a c.
Proof.
  intros [(n1 & H1 & F1) E1] [(n2 & H2 & F2) E2]. split.
  - exists (n1 ++ n2). rewrite H2, H1, app_assoc. split; [reflexivity|].
    apply Forall_app; split; assumption.
  - intros k Hk. rewrite E2, E1 by assumption. reflexivity.
Qed.

Lemma usleep_user_segment_only us :
  triple user_segment_only (usleep us) (fun _ => True).
Proof.
  intros w. split; [|trivial]. cbn. split; [|reflexivity].
  exists []. rewrite app_nil_r. split; [reflexivity|constructor].
Qed.

(** The effect of one word write, whatever the transfer's outcome. *)
Lemma write_eeprom_effect addr data w :
  let a := Z.land addr 0x3f in
  exists t,
    written_address t = Some a /\
    snd (write_eeprom addr data w) = Some tt /\
    transfers (fst (write_eeprom addr data w)) = transfers w ++ [t] /\
    faults (fst (write_eeprom addr data w)) = tl (faults w) /\
    eeprom (fst (write_eeprom addr data w))
    = if hd false (faults w) then eeprom w
      else <[Z.to_nat a := u16 data]> (eeprom w).
Proof.
  intros a. pose proof (land_3f_range addr) as Ha. fold a in Ha.
  destruct (command_byte 0xc0 a) as (Hb & H7 & H6 & Hl); [cbn; auto | lia |].
  destruct (data_bytes data) as (H1 & H2 & H3).
  unfold write_eeprom. fold a. rewrite Hb, H1, H2.
  autorewrite with step. rewrite set_outputs_eq. cbn [fst snd].
  rewrite after_set_transfers, after_set_faults. cbn [faults transfers with_clock].
  eexists. split; [|split; [reflexivity|split; [reflexivity|split; [reflexivity|]]]].
  - cbn [written_address byte0 byte3]. rewrite H7, H6, Hl. reflexivity.
  - unfold after_set_report. cbn [faults with_clock].
    destruct (hd false (faults w)); [reflexivity|].
    unfold chip_set_report. cbn [byte0 byte1 byte2 byte3].
    rewrite H7, H6, Hl. change (Z.testbit 128 7) with true.
    change (Z.testbit 192 6) with true. cbn [eeprom with_eeprom with_transfers with_faults with_clock].
    rewrite H3. reflexivity.
Qed.

Lemma write_eeprom_user_segment_only addr data :
  51 <= addr <= 63 ->
  triple user_segment_only (write_eeprom addr data) (fun _ => True).
Proof.
  intros Haddr w. split; [|trivial].
  destruct (write_eeprom_effect addr data w) as (t & Ht & _ & Htr & _ & He).
  assert (Z.land addr 0x3f = addr) as Ha by (rewrite land_3f; apply Z.mod_small; lia).
  rewrite Ha in *. split.
  - exists [t]. split; [exact Htr|]. constructor; [|constructor]. exists addr. auto.
  - intros k Hk. rewrite He. destruct (hd false (faults w)); [reflexivity|].
    apply list_lookup_insert_ne. lia.
Qed.

Ltac user_step tac :=
  eapply (triple_bind _ user_segment_only_trans _ _ (fun _ => True));
  [ tac | intros ? _ ].

(** C5: from any world and for any image, of any extent, [put_eeprom] adds
    to the transfers only EEPROM write commands whose address lies in 51..63,
    and the words at addresses 0..50 are afterwards what they were; this holds
    also for the part of a run that ends in an access outside the image. *)
Theorem put_eeprom_user_segment_only (buf : list Z) (w : world) :
  (exists new,
     transfers (fst (put_eeprom buf w)) = transfers w ++ new /\
     Forall (fun t => exists a, written_address t = Some a /\ 51 <= a <= 63) new) /\
  forall a : nat, (a < 51)%nat -> eeprom (fst (put_eeprom buf w)) !! a = eeprom w !! a.
Proof.
  assert (triple user_segment_only (put_eeprom buf) (fun _ => True)) as H.
  { unfold put_eeprom.
    user_step ltac:(apply (triple_store _ user_segment_only_refl); trivial).
    eapply (triple_bind _ user_segment_only_trans).
    - apply (triple_iterate _ user_segment_only_refl user_segment_only_trans).
      intros j cs Hj. unfold EEPROM_START_ADDR, EEPROM_USER_CS_ADDR in Hj. cbn in Hj.
      user_step ltac:(apply (triple_load _ user_segment_only_refl); trivial).
      user_step ltac:(apply write_eeprom_user_segment_only; lia).
      user_step ltac:(apply (triple_load _ user_segment_only_refl); trivial).
      apply (triple_ret _ user_segment_only_refl). trivial.
    - intros [i cs] Hi. cbn in Hi. vm_compute in Hi.
      user_step ltac:(apply (triple_store _ user_segment_only_refl); trivial).
      user_step ltac:(apply usleep_user_segment_only).
      user_step ltac:(apply (triple_load _ user_segment_only_refl); trivial).
      user_step ltac:(apply write_eeprom_user_segment_only; lia).
      apply (triple_ret _ user_segment_only_refl). trivial. }
  exact (proj1 (H w)).
Qed.

(** ** Decoding the GPIO inputs (C9) *)

Lemma getin_bits_checked :
  forallb (fun d => forallb (fun b0 => forallb (fun b1 =>
    let buf := Report b0 b1 0 0 in
    let c := u16 (Z.land (byte1 buf) 0xf) in
    let c := u16 (c + Z.shiftl (Z.land (byte0 buf) 3) 4) in
    let c := if devtype_eqb d DEV_C119
             then u16 (c + Z.land (byte1 buf) 0xc0) else c in
    let c := if devtype_eqb d DEV_C108AH
             then let c := u16 (Z.land c 0xfd) in
                  if Z.land (byte0 buf) 0x10 =? 0 then u16 (c + 2) else c
             else c in
    (u8 c <? 256)
    && forallb (fun i => Bool.eqb (Z.testbit (u8 c) i) (decoded_bit d buf i)) (seqZ 0 8))
    (seqZ 0 256)) (seqZ 0 256)) all_devtypes = true.
Proof. vm_compute. reflexivity. Qed.

Lemma decoded_bit_bytes d buf i :
  decoded_bit d buf i
  = decoded_bit d (Report (byte0 buf) (byte1 buf) 0 0) i.
Proof. reflexivity. Qed.

(** C9: for every input report the chip holds, [getin] returns the value
    whose bits are those the specification names, taken from the report as
    received; when the request fails they are taken from the zeroed buffer. *)
Theorem getin_decode (devtype : devtype_t) (w : world) :
  let buf := if hd false (faults w) then Report 0 0 0 0
             else report_u8 (input_report w) in
  exists v,
    snd (getin devtype w) = Some v /\
    0 <= v < 256 /\
    forall i, Z.testbit v i = decoded_bit devtype buf i.
Proof.
  intros buf0.
  assert (buf0 = default (Report 0 0 0 0) (answer w)) as ->
    by (subst buf0; unfold answer; destruct (hd false (faults w)); reflexivity).
  unfold getin. autorewrite with step. cbn [snd ret].
  set (buf := default (Report 0 0 0 0) (answer w)).
  assert (0 <= byte0 buf < 256 /\ 0 <= byte1 buf < 256) as [H0 H1].
  { subst buf. destruct (answer w) as [r|] eqn:Hr; cbn [default].
    - apply answer_bytes in Hr. tauto.
    - cbn. lia. }
  eexists. split; [reflexivity|]. split; [apply u8_range|]. intros i.
  pose proof getin_bits_checked as H. rewrite forallb_forall in H.
  specialize (H devtype). cbv beta in H.
  assert (In devtype all_devtypes) as Hd by (destruct devtype; cbn; auto).
  pose proof (seqZ_forallb _ _ (H Hd) _ H0) as Hb0. cbv beta in Hb0.
  pose proof (seqZ_forallb _ _ Hb0 _ H1) as Hb1. cbv beta zeta in Hb1.
  cbn [byte0 byte1] in Hb1.
  apply andb_true_iff in Hb1. destruct Hb1 as [Hlt Hbits].
  rewrite decoded_bit_bytes.
  destruct (Z_lt_le_dec i 0) as [Hneg|Hnn].
  - rewrite Z.testbit_neg_r by assumption. unfold decoded_bit.
    repeat match goal with
           | |- context [?a =? ?b] => destruct (Z.eqb_spec a b); try lia
           | |- context [?a <=? ?b] => destruct (Z.leb_spec a b); try lia
           | |- context [?a <? ?b] => destruct (Z.ltb_spec a b); try lia
           end; reflexivity.
  - destruct (Z_lt_le_dec i 8) as [Hlo|Hhi].
    + pose proof (seqZ_forallb _ _ Hbits i (conj Hnn Hlo)) as Hi. cbv beta in Hi.
      apply eqb_prop in Hi. exact Hi.
    + unfold u8 at 1. change 256 with (2 ^ 8).
      rewrite Z.mod_pow2_bits_high by lia. unfold decoded_bit.
      repeat match goal with
             | |- context [?a =? ?b] => destruct (Z.eqb_spec a b); try lia
             | |- context [?a <=? ?b] => destruct (Z.leb_spec a b); try lia
             | |- context [?a <? ?b] => destruct (Z.ltb_spec a b); try lia
             end; reflexivity.
Qed.

(** ** The digital loopback test (C3) *)

Lemma popcount_of_tests :
  forallb (fun err =>
      (if negb (Z.land err 0x2 =? 0) then 1 else 0)
      + (if negb (Z.land err 0x10 =? 0) then 1 else 0)
      + (if negb (Z.land err 0x40 =? 0) then 1 else 0)
      + (if negb (Z.land err 0x80 =? 0) then 1 else 0)
      =? popcount8 (Z.land err 0xd2)) (seqZ 0 256) = true.
Proof. vm_compute. reflexivity. Qed.

Lemma u8_lxor a b : u8 (Z.lxor (u8 a) (u8 b)) = Z.lxor (u8 a) (u8 b).
Proof.
  unfold u8. change 256 with (2 ^ 8). rewrite <- !Z.land_ones by lia.
  apply Z.bits_inj'. intros n Hn.
  rewrite !Z.land_spec, !Z.lxor_spec, !Z.land_spec.
  destruct (Z.testbit (Z.ones 8) n); rewrite ?andb_true_r, ?andb_false_r; reflexivity.
Qed.

(** What [dioerror] counts: the differing bits among bits 1, 4, 6 and 7. *)
Lemma dioerror_count got should w :
  snd (dioerror got should w) = Some (mismatches 0xd2 got should).
Proof.
  unfold mismatches.
  pose proof (u8_range (Z.lxor (u8 got) (u8 should))) as Hr.
  pose proof (seqZ_forallb _ _ popcount_of_tests _ Hr) as H. cbv beta in H.
  apply Z.eqb_eq in H. rewrite !u8_lxor in *. rewrite <- H.
  unfold dioerror. rewrite !u8_lxor.
  set (err := Z.lxor (u8 got) (u8 should)).
  destruct (Z.land err 2 =? 0), (Z.land err 16 =? 0), (Z.land err 64 =? 0),
    (Z.land err 128 =? 0); reflexivity.
Qed.

Lemma setout_returns devtype c w : snd (setout devtype c w) = Some tt.
Proof. unfold setout. rewrite bind_set_outputs. reflexivity. Qed.

Lemma getin_returns devtype w : exists v, snd (getin devtype w) = Some v.
Proof. unfold getin. rewrite bind_get_inputs. eexists. reflexivity. Qed.

(** What one step of the test counts, for any pattern driven, any pattern
    expected and anything read back. *)
Lemma testio_count devtype toout toexpect w :
  exists c,
    snd (getin devtype (fst (setout devtype toout w))) = Some c /\
    snd (testio devtype toout toexpect w)
    = Some (mismatches 0xd2 (Z.land c 0xf2) toexpect).
Proof.
  destruct (getin_returns devtype (fst (setout devtype toout w))) as [c Hc].
  exists c. split; [exact Hc|]. unfold testio.
  rewrite (bind_some _ _ _ _ (setout_returns devtype toout w)).
  rewrite (bind_some _ _ _ _ Hc).
  rewrite dioerror_count. unfold mismatches. unfold u8 at 1 2. rewrite Z.mod_mod by lia.
  reflexivity.
Qed.

(** C3, at the inputs where it fails: [dioerror] counts the differing bits
    of mask 0xd2 only, so a difference in bit 0x20, the COR input, which the
    mask 0xf2 of [testio] keeps and the step [testio 0 0x20] expects, is
    neither counted nor printed: reading 0x22 where 0x02 is expected is no
    error, a board whose COR input is dead passes [digital_test], and a
    difference in bit 0x80 is printed under the name of bit 0x40. *)
Theorem dioerror_ignores_cor :
  (forall got should w,
     snd (dioerror got should w) = Some (mismatches 0xd2 got should)) /\
  (forall devtype toout toexpect w,
     exists c,
       snd (getin devtype (fst (setout devtype toout w))) = Some c /\
       snd (testio devtype toout toexpect w)
       = Some (mismatches 0xd2 (Z.land c 0xf2) toexpect)) /\
  mismatches 0xf2 0x22 0x02 = 1 /\
  (forall w, dioerror 0x22 0x02 w = (w, Some 0)) /\
  (forall w, dioerror 0x00 0x20 w = (w, Some 0)) /\
  (let r := digital_test DEV_C108 dead_cor_world in
   snd r = Some 0 /\
   stdout (fst r) = [ ("Testing digital I/O (PTT,COR,TONE and GPIO)...." ++ nl)%string;
                      ("Digital I/O passed!!" ++ nl)%string ]) /\
  (forall w, stdout (fst (dioerror 0x80 0 w))
             = stdout w ++ [("Error on GPIO5/GPIO7, got 1, should be 0" ++ nl)%string]) /\
  (forall w, stdout (fst (dioerror 0x40 0 w))
             = stdout w ++ [("Error on GPIO5/GPIO7, got 1, should be 0" ++ nl)%string]).
Proof.
  split; [exact dioerror_count|]. split; [exact testio_count|].
  repeat split; try reflexivity.
Qed.

(** ** Reading and writing words when every transfer completes *)

Lemma write_eeprom_healthy addr data w :
  faults w = [] ->
  exists w',
    write_eeprom addr data w = (w', Some tt) /\
    eeprom w' = <[Z.to_nat (Z.land addr 0x3f) := u16 data]> (eeprom w) /\
    faults w' = [].
Proof.
  intros Hf. destruct (write_eeprom_effect addr data w) as (t & _ & Hs & _ & Hfa & He).
  rewrite Hf in *. cbn in He, Hfa.
  exists (fst (write_eeprom addr data w)). split; [|auto].
  destruct (write_eeprom addr data w) as [w1 r]. cbn in *. subst r. reflexivity.
Qed.

Lemma read_eeprom_healthy addr w :
  faults w = [] ->
  exists w',
    read_eeprom addr w = (w', Some (eeprom_word (eeprom w) (Z.land addr 0x3f))) /\
    eeprom w' = eeprom w /\
    faults w' = [].
Proof.
  intros Hf. pose proof (land_3f_range addr) as Ha.
  destruct (command_byte 0x80 (Z.land addr 0x3f)) as (Hb & H7 & H6 & Hl);
    [cbn; auto | lia |].
  unfold read_eeprom. rewrite Hb. autorewrite with step. rewrite answer_with_clock.
  unfold ret. eexists. split; [|split].
  - f_equal. f_equal.
    unfold answer, after_set_report. cbn [faults with_clock]. rewrite Hf.
    cbn [hd tl faults with_faults with_transfers with_clock].
    rewrite chip_faults. cbn [faults hd default].
    unfold chip_set_report. cbn [byte0 byte1 byte2 byte3].
    rewrite H7, H6, Hl. change (Z.testbit 128 7) with true.
    change (Z.testbit 128 6) with false.
    cbn [input_report with_input_report report_u8 byte1 byte2 eeprom with_clock
         with_faults with_transfers].
    apply word_of_bytes.
  - unfold after_get_report, after_set_report. cbn [faults with_clock]. rewrite Hf.
    cbn [hd eeprom with_transfers with_faults with_clock].
    unfold chip_set_report. cbn [byte0 byte3].
    rewrite H7, H6. change (Z.testbit 128 7) with true.
    change (Z.testbit 128 6) with false. reflexivity.
  - unfold after_get_report. cbn [faults with_transfers with_faults with_clock].
    rewrite after_set_faults. cbn [faults with_clock]. rewrite Hf. reflexivity.
Qed.

Lemma store_in_range (a : list Z) i x w :
  0 <= i < Z.of_nat (length a) -> store a i x w = (w, Some (<[Z.to_nat i := x]> a)).
Proof.
  intros H. unfold store.
  destruct (Z.leb_spec 0 i); [|lia]. destruct (Z.ltb_spec i (Z.of_nat (length a))); [|lia].
  reflexivity.
Qed.

(** The loop of [get_eeprom], from address [i] for [n] turns. *)
Lemma get_eeprom_loop (n : nat) :
  forall i cs buf w,
    faults w = [] -> EEPROM_START_ADDR <= i -> i + Z.of_nat n <= 64 ->
    (13 <= length buf)%nat -> 0 <= cs < 65536 ->
    exists w' buf',
      iterate n i
        (fun i st =>
           let '(cs, buf) := st in
           x <- read_eeprom i ;;
           buf <- store buf (i - EEPROM_START_ADDR) x ;;
           ret (u16 (cs + x), buf)) (cs, buf) w
      = (w', Some (i + Z.of_nat n, (u16 (cs + word_sum (eeprom w) i n), buf'))) /\
      eeprom w' = eeprom w /\ faults w' = [] /\
      length buf' = length buf /\
      forall k : nat,
        buf' !! k
        = if (Z.to_nat (i - EEPROM_START_ADDR) <=? k)%nat
             && (k <? Z.to_nat (i - EEPROM_START_ADDR) + n)%nat
          then Some (eeprom_word (eeprom w) (EEPROM_START_ADDR + Z.of_nat k))
          else buf !! k.
Proof.
  unfold EEPROM_START_ADDR.
  induction n as [|n IH]; intros i cs buf w Hf Hi Hn Hlen Hcs.
  - cbn [iterate word_sum]. exists w, buf. unfold ret.
    rewrite !Z.add_0_r. rewrite u16_small by assumption.
    repeat split; try reflexivity; try assumption.
    intros k. destruct (Z.to_nat (i - 51) <=? k)%nat eqn:E1; cbn [andb]; [|reflexivity].
    destruct (Nat.ltb_spec k (Z.to_nat (i - 51) + 0)); [|reflexivity].
    apply Nat.leb_le in E1. lia.
  - cbn [iterate word_sum].
    destruct (read_eeprom_healthy i w Hf) as (w1 & Hr & He1 & Hf1).
    assert (Z.land i 0x3f = i) as Hland by (rewrite land_3f; apply Z.mod_small; lia).
    rewrite Hland in Hr.
    rewrite bind_bind.
    rewrite (bind_some _ _ _ _ (f_equal snd Hr)). rewrite Hr. cbn [fst].
    rewrite bind_bind. unfold bind at 1. rewrite store_in_range by lia. rewrite bind_ret.
    set (buf1 := <[Z.to_nat (i - 51) := eeprom_word (eeprom w) i]> buf).
    destruct (IH (i + 1) (u16 (cs + eeprom_word (eeprom w) i)) buf1 w1 Hf1)
      as (w2 & buf2 & Hit & He2 & Hf2 & Hl2 & Hb2); try lia.
    { subst buf1. rewrite length_insert. exact Hlen. }
    { apply u16_range. }
    rewrite Hit. exists w2, buf2. rewrite He1 in *.
    split; [|split; [congruence|split; [assumption|split]]].
    + f_equal. f_equal. f_equal; [lia|]. f_equal.
      rewrite u16_add_l. f_equal. lia.
    + rewrite Hl2. subst buf1. apply length_insert.
    + intros k. rewrite Hb2. subst buf1.
      replace (Z.to_nat (i + 1 - 51)) with (Datatypes.S (Z.to_nat (i - 51))) by lia.
      destruct (Nat.eq_dec k (Z.to_nat (i - 51))) as [->|Hne].
      * rewrite list_lookup_insert_eq by lia.
        replace (51 + Z.of_nat (Z.to_nat (i - 51))) with i by lia.
        destruct (Nat.leb_spec (Datatypes.S (Z.to_nat (i - 51))) (Z.to_nat (i - 51))); [lia|].
        cbn [andb]. rewrite Nat.leb_refl.
        destruct (Nat.ltb_spec (Z.to_nat (i - 51)) (Z.to_nat (i - 51) + Datatypes.S n)); [|lia].
        reflexivity.
      * rewrite list_lookup_insert_ne by lia.
        destruct (Nat.leb_spec (Datatypes.S (Z.to_nat (i - 51))) k),
          (Nat.leb_spec (Z.to_nat (i - 51)) k),
          (Nat.ltb_spec k (Datatypes.S (Z.to_nat (i - 51)) + n)),
          (Nat.ltb_spec k (Z.to_nat (i - 51) + Datatypes.S n));
          cbn [andb]; try reflexivity; lia.
Qed.

(** [get_eeprom] returns the checksum of the user segment and its words. *)
Lemma get_eeprom_healthy buf w :
  faults w = [] -> (13 <= length buf)%nat ->
  exists w' buf',
    get_eeprom buf w = (w', Some (user_checksum (eeprom w), buf')) /\
    eeprom w' = eeprom w /\ faults w' = [] /\
    forall k : nat, (k < 13)%nat ->
      buf' !! k = Some (eeprom_word (eeprom w) (EEPROM_START_ADDR + Z.of_nat k)).
Proof.
  intros Hf Hlen. unfold get_eeprom, for_lt.
  destruct (get_eeprom_loop 13 EEPROM_START_ADDR 0xffff buf w Hf)
    as (w' & buf' & Hit & He & Hf' & _ & Hb);
    [unfold EEPROM_START_ADDR; lia | unfold EEPROM_START_ADDR; lia | exact Hlen | lia |].
  unfold user_checksum. change (Z.to_nat EEPROM_USER_LEN) with 13%nat.
  change (Z.to_nat (EEPROM_START_ADDR + EEPROM_USER_CS_ADDR + 1 - EEPROM_START_ADDR))
    with 13%nat.
  rewrite (bind_some _ _ _ _ (f_equal snd Hit)). rewrite Hit. cbn [fst snd ret].
  exists w', buf'. split; [reflexivity|]. split; [assumption|]. split; [assumption|].
  intros k Hk. rewrite Hb. change (Z.to_nat (EEPROM_START_ADDR - EEPROM_START_ADDR)) with 0%nat.
  destruct (Nat.ltb_spec k (0 + 13)); [reflexivity | lia].
Qed.

(** ** The self-test and the checksum (C10) *)

Lemma word_sum_insert_outside e (k : nat) v (n : nat) :
  forall a, 0 <= a -> (Z.of_nat k < a \/ a + Z.of_nat n <= Z.of_nat k) ->
            word_sum (<[k := v]> e) a n = word_sum e a n.
Proof.
  induction n as [|n IH]; intros a Ha Hk; [reflexivity|].
  cbn [word_sum]. rewrite IH by lia. f_equal.
  unfold eeprom_word. rewrite list_lookup_insert_ne by lia. reflexivity.
Qed.

Lemma word_sum_insert e (k : nat) v (n : nat) :
  forall a, 0 <= a <= Z.of_nat k -> Z.of_nat k < a + Z.of_nat n -> (k < length e)%nat ->
            word_sum (<[k := v]> e) a n = word_sum e a n - eeprom_word e (Z.of_nat k) + u16 v.
Proof.
  induction n as [|n IH]; intros a Ha Hk Hlen; [lia|].
  cbn [word_sum]. destruct (Z.eq_dec a (Z.of_nat k)) as [->|Hne].
  - rewrite word_sum_insert_outside by lia.
    unfold eeprom_word at 1. rewrite Nat2Z.id, list_lookup_insert_eq by assumption.
    change (default 0 (Some v)) with v. lia.
  - rewrite IH by lia. unfold eeprom_word at 1.
    rewrite list_lookup_insert_ne by lia. fold (eeprom_word e a). lia.
Qed.

(** C10: where every transfer completes, [eeprom_test] passes, having issued
    one write command, for address 62, one read command and one input request;
    the EEPROM afterwards is the one before with 0x6942 at address 62, every
    other address unchanged; and when [get_eeprom] returned checksum 0 before
    and word 62 was not 0x6942, it returns a checksum other than 0 after. *)
Theorem eeprom_test_invalidates_checksum (w : world) :
  healthy w ->
  let w' := fst (eeprom_test w) in
  snd (eeprom_test w) = Some 0 /\
  (exists t1 t2 t3,
     transfers w' = transfers w ++ [t1; t2; t3] /\
     written_address t1 = Some 62 /\
     written_address t2 = None /\ written_address t3 = None) /\
  eeprom w' = <[62%nat := 0x6942]> (eeprom w) /\
  (forall a : nat, a <> 62%nat -> eeprom w' !! a = eeprom w !! a) /\
  (forall buf : list Z,
     (13 <= length buf)%nat ->
     (exists b, snd (get_eeprom buf w) = Some (0, b)) ->
     eeprom w !! 62%nat <> Some 0x6942 ->
     exists cs b', snd (get_eeprom buf w') = Some (cs, b') /\ cs <> 0).
Proof.
  intros (Hf & Hlen & Hrange) w'.
  change (Z.to_nat EEPROM_PHYSICAL_LEN) with 64%nat in Hlen.
  destruct (write_eeprom_healthy (EEPROM_START_ADDR + EEPROM_USER_SPARE) 0x6942 w Hf)
    as (w1 & Hw & He1 & Hf1).
  destruct (write_eeprom_effect (EEPROM_START_ADDR + EEPROM_USER_SPARE) 0x6942 w)
    as (t1 & Ht1 & _ & Htr1 & _).
  rewrite Hw in Htr1. cbn [fst] in Htr1.
  change (Z.land (EEPROM_START_ADDR + EEPROM_USER_SPARE) 63) with 62 in *.
  change (Z.to_nat 62) with 62%nat in He1. change (u16 26946) with 26946 in He1.
  destruct (read_eeprom_healthy (EEPROM_START_ADDR + EEPROM_USER_SPARE) w1 Hf1)
    as (w2 & Hr & He2 & Hf2).
  destruct (read_eeprom_transfers (EEPROM_START_ADDR + EEPROM_USER_SPARE) w1)
    as (ok & ins & Htr2 & _).
  rewrite Hr in Htr2. cbn [fst] in Htr2.
  change (Z.land (EEPROM_START_ADDR + EEPROM_USER_SPARE) 63) with 62 in *.
  assert (eeprom_word (eeprom w1) 62 = 0x6942) as Hword.
  { unfold eeprom_word. rewrite He1. change (Z.to_nat 62) with 62%nat.
    rewrite list_lookup_insert_eq by lia. reflexivity. }
  rewrite Hword in Hr.
  assert (eeprom_test w
          = (with_stdout (stdout w2 ++ [("Success - EEPROM wrote 6942 hex, read "
                                          ++ hex04 0x6942 ++ " hex" ++ nl)%string]) w2,
             Some 0)) as Hrun.
  { unfold eeprom_test.
    rewrite (bind_some _ _ _ _ (f_equal snd Hw)). rewrite Hw. cbn [fst].
    rewrite (bind_some _ _ _ _ (f_equal snd Hr)). rewrite Hr. cbn [fst].
    reflexivity. }
  subst w'. rewrite Hrun. cbn [fst snd eeprom transfers with_stdout].
  assert (eeprom w2 = <[62%nat := 0x6942]> (eeprom w)) as He by congruence.
  split; [reflexivity|]. split; [|split; [exact He|split]].
  - exists t1, (SET_REPORT (Report 0x80 0 0 (Z.lor 0x80 62)) ok), (GET_REPORT ins).
    rewrite Htr2, Htr1, <- app_assoc. repeat split; [exact Ht1].
  - intros a Ha. rewrite He. apply list_lookup_insert_ne. congruence.
  - intros buf Hbuf [b Hb] Hspare.
    destruct (get_eeprom_healthy buf w Hf Hbuf) as (w3 & b3 & Hg & _).
    rewrite Hg in Hb. cbn [snd] in Hb. injection Hb as Hcs _.
    assert (faults (with_stdout
                      (stdout w2 ++ [("Success - EEPROM wrote 6942 hex, read "
                                      ++ hex04 0x6942 ++ " hex" ++ nl)%string]) w2) = [])
      as Hf3 by exact Hf2.
    destruct (get_eeprom_healthy buf _ Hf3 Hbuf) as (w4 & b4 & Hg4 & _).
    rewrite Hg4. cbn [snd eeprom with_stdout]. eexists _, _. split; [reflexivity|].
    rewrite He. unfold user_checksum in *.
    change (Z.to_nat EEPROM_USER_LEN) with 13%nat in *.
    rewrite word_sum_insert by (unfold EEPROM_START_ADDR; lia).
    destruct (eeprom w !! 62%nat) as [old|] eqn:Hold.
    + assert (0 <= old < 65536) as Hold_range.
      { rewrite Forall_forall in Hrange. apply Hrange.
        apply list_elem_of_lookup. eauto. }
      assert (old <> 0x6942) by congruence.
      unfold eeprom_word. change (Z.to_nat (Z.of_nat 62)) with 62%nat.
      rewrite Hold. change (default 0 (Some old)) with old.
      rewrite (u16_small old) by assumption.
      change (u16 26946) with 26946.
      unfold u16 in *. Z.div_mod_to_equations. lia.
    + apply lookup_ge_None in Hold. lia.
Qed.

(** ** The user-segment round trip (C1) *)

Lemma load_in_range (a : list Z) i w :
  0 <= i < Z.of_nat (length a) -> exists x, load a i w = (w, Some x).
Proof.
  intros H. unfold load. destruct (Z.ltb_spec i 0); [lia|].
  destruct (a !! Z.to_nat i) as [x|] eqn:E; [eexists; reflexivity|].
  apply lookup_ge_None in E. lia.
Qed.

Lemma load_out_of_range (a : list Z) i w :
  Z.of_nat (length a) <= i -> load a i w = (w, None).
Proof.
  intros H. unfold load. destruct (Z.ltb_spec i 0); [reflexivity|].
  destruct (a !! Z.to_nat i) as [x|] eqn:E; [|reflexivity].
  apply lookup_lt_Some in E. lia.
Qed.

(** With an image of the 13 words its comment asks for, [put_eeprom] reads
    [buf[51]] in its first turn, outside the image. *)
Lemma put_eeprom_13_words buf w : length buf = 13%nat -> snd (put_eeprom buf w) = None.
Proof.
  intros Hlen. unfold put_eeprom, for_lt.
  unfold bind at 1. rewrite store_in_range by (unfold EEPROM_USER_MAGIC_ADDR; lia).
  apply bind_none.
  change (Z.to_nat (EEPROM_START_ADDR + EEPROM_USER_CS_ADDR - EEPROM_START_ADDR))
    with 12%nat.
  cbn [iterate]. apply bind_none.
  set (buf1 := <[Z.to_nat EEPROM_USER_MAGIC_ADDR:=EEPROM_MAGIC]> buf).
  assert (length buf1 = 13%nat) as Hlen1 by (subst buf1; rewrite length_insert; exact Hlen).
  destruct (load_in_range buf1 (EEPROM_START_ADDR - EEPROM_START_ADDR) w) as [x Hx];
    [cbn; lia|].
  rewrite (bind_some _ _ _ _ (f_equal snd Hx)). rewrite Hx. cbn [fst].
  destruct (write_eeprom_effect EEPROM_START_ADDR x w) as (_ & _ & Hs & _).
  rewrite (bind_some _ _ _ _ Hs).
  apply bind_none. rewrite load_out_of_range; [reflexivity|].
  unfold EEPROM_START_ADDR. lia.
Qed.

(** C1, where it fails: an image of 13 words makes [put_eeprom] read outside
    it; and on the image [eeprom_init] passes, 64 zeroed words, the checksum
    word written is 1, so that reading the segment back gives checksum 34329,
    not 0, with the magic constant in word 0. *)
Theorem put_eeprom_checksum_wrong :
  (forall buf w, length buf = 13%nat -> snd (put_eeprom buf w) = None) /\
  (forall w, healthy w ->
     snd ((eeprom_init ;; get_eeprom (replicate 13 0)) w)
     = Some (34329, [34329; 0; 0; 0; 0; 0; 0; 0; 0; 0; 0; 0; 1])).
Proof.
  split; [exact put_eeprom_13_words|].
  intros [e ir p f tr c so] (Hf & Hlen & _). cbn in Hf, Hlen. subst f.
  do 64 (destruct e as [|? e]; [discriminate Hlen|]).
  destruct e; [|discriminate Hlen].
  vm_compute. reflexivity.
Qed.

(** ** Writing the manufacturer segment (C2) *)

(** The loop of [put_eeprom_mfg_data] runs into the end of whatever object
    is shorter than its bound. *)
Lemma mfg_loop_overruns (object : list Z) (n : nat) :
  forall i w,
    0 <= i <= Z.of_nat (length object) -> Z.of_nat (length object) < i + Z.of_nat n ->
    snd (iterate n i (fun i (_ : unit) => x <- load object i ;; write_eeprom i x) tt w)
    = None.
Proof.
  induction n as [|n IH]; intros i w Hi Hn; [lia|].
  cbn [iterate].
  destruct (Z.eq_dec i (Z.of_nat (length object))) as [->|Hne].
  - apply bind_none, bind_none. rewrite load_out_of_range by lia. reflexivity.
  - destruct (load_in_range object i w) as [x Hx]; [lia|].
    destruct (write_eeprom_effect i x w) as (_ & _ & Hs & _).
    assert (snd ((x <- load object i ;; write_eeprom i x) w) = Some tt) as Hbody.
    { rewrite (bind_some _ _ _ _ (f_equal snd Hx)). rewrite Hx. exact Hs. }
    rewrite (bind_some _ _ _ _ Hbody). apply IH; lia.
Qed.

(** The same loop inside a longer object, every transfer completing. *)
Lemma mfg_loop_healthy (object : list Z) (n : nat) :
  forall i w,
    faults w = [] -> 0 <= i -> i + Z.of_nat n <= Z.of_nat (length object) ->
    exists w',
      iterate n i (fun i (_ : unit) => x <- load object i ;; write_eeprom i x) tt w
      = (w', Some (i + Z.of_nat n, tt)) /\
      faults w' = [] /\
      eeprom w'
      = fold_left (fun e j => <[Z.to_nat (Z.land j 0x3f)
                                := u16 (default 0 (object !! Z.to_nat j))]> e)
                  (seqZ i (Z.of_nat n)) (eeprom w) /\
      length (transfers w') = (length (transfers w) + n)%nat.
Proof.
  induction n as [|n IH]; intros i w Hf Hi Hn.
  - exists w. cbn [iterate]. unfold ret. rewrite Z.add_0_r, Nat.add_0_r. auto.
  - cbn [iterate].
    assert (exists x, object !! Z.to_nat i = Some x) as [x Hx].
    { apply lookup_lt_is_Some. lia. }
    assert (load object i w = (w, Some x)) as Hload.
    { unfold load. destruct (Z.ltb_spec i 0); [lia|]. rewrite Hx. reflexivity. }
    destruct (write_eeprom_healthy i x w Hf) as (w1 & Hw & He1 & Hf1).
    destruct (write_eeprom_effect i x w) as (t & _ & _ & Htr & _).
    rewrite Hw in Htr. cbn [fst] in Htr.
    rewrite bind_bind. rewrite (bind_some _ _ _ _ (f_equal snd Hload)).
    rewrite Hload. cbn [fst].
    rewrite (bind_some _ _ _ _ (f_equal snd Hw)). rewrite Hw. cbn [fst].
    destruct (IH (i + 1) w1 Hf1) as (w2 & Hit & Hf2 & He2 & Htr2); [lia | lia |].
    exists w2. rewrite Hit. split; [f_equal; f_equal; f_equal; lia|].
    split; [exact Hf2|]. split.
    + rewrite He2, He1. rewrite (seqZ_cons i) by lia. cbn [fold_left].
      rewrite Hx. replace (Z.pred (Z.of_nat (S n))) with (Z.of_nat n) by lia.
      reflexivity.
    + rewrite Htr2, Htr, length_app. cbn [length]. lia.
Qed.

Lemma main_switch_never_writes devproductid str0 :
  main_switch devproductid str0 <> ManufacturerWrite.
Proof.
  unfold main_switch.
  set (c := if isupper str0 then tolower str0 else str0).
  assert ((c =? chr "M") = false) as HM.
  { apply Z.eqb_neq. subst c. unfold tolower, isupper.
    change (chr "A") with 65. change (chr "Z") with 90. change (chr "M") with 77.
    destruct (Z.leb_spec 65 str0), (Z.leb_spec str0 90); cbn [andb]; lia. }
  rewrite HM. repeat case_match; discriminate.
Qed.

(** C2, where it fails: the bound of the loop is the size of the table in
    bytes, 102, not its 51 words.  Within the table object the run ends in a
    read of [cm119b_manufacturer_data[51]]; with 51 more words [adj] lying
    behind the table it completes after 102 writes, which leave [adj]'s first
    13 words in the user segment 51..63 and its other 38 over the words 0..37
    of the table.  The only call, under the menu letter M, is never reached:
    the letter is lowered before the [switch]. *)
Theorem put_eeprom_mfg_data_overruns :
  sizeof_cm119b_manufacturer_data = 102 /\
  (forall w, snd (put_eeprom_mfg_data w) = None) /\
  (forall adj w,
     length adj = 51%nat -> healthy w ->
     let r := put_eeprom_mfg_data_from (cm119b_manufacturer_data ++ adj) w in
     snd r = Some tt /\
     length (transfers (fst r)) = (length (transfers w) + 102)%nat /\
     eeprom (fst r)
     = map u16 (drop 13 adj ++ drop 38 cm119b_manufacturer_data ++ take 13 adj)) /\
  (forall devproductid str0, main_switch devproductid str0 <> ManufacturerWrite).
Proof.
  split; [reflexivity|]. split; [|split].
  - intros w. unfold put_eeprom_mfg_data, put_eeprom_mfg_data_from, for_lt.
    apply bind_none.
    change (Z.to_nat (sizeof_cm119b_manufacturer_data - 0)) with 102%nat.
    apply mfg_loop_overruns; change (Z.of_nat (length cm119b_manufacturer_data)) with 51; lia.
  - intros adj w Hadj (Hf & Hlen & _). cbv zeta.
    change (Z.to_nat EEPROM_PHYSICAL_LEN) with 64%nat in Hlen.
    unfold put_eeprom_mfg_data_from, for_lt.
    change (Z.to_nat (sizeof_cm119b_manufacturer_data - 0)) with 102%nat.
    destruct (mfg_loop_healthy (cm119b_manufacturer_data ++ adj) 102 0 w Hf)
      as (w1 & Hit & _ & He & Htr); [lia | rewrite length_app, Hadj; cbn; lia |].
    rewrite (bind_some _ _ _ _ (f_equal snd Hit)). rewrite Hit.
    cbn [fst snd printf transfers eeprom with_stdout].
    split; [reflexivity|]. split; [exact Htr|].
    rewrite He. clear Hit He Htr w1 Hf.
    destruct (eeprom w) as [|? e]; [discriminate Hlen|].
    do 63 (destruct e as [|? e]; [discriminate Hlen|]).
    destruct e; [|discriminate Hlen]. clear Hlen.
    do 51 (destruct adj as [|? adj]; [discriminate Hadj|]).
    destruct adj; [|discriminate Hadj]. clear Hadj.
    cbv -[u16]. reflexivity.
  - exact main_switch_never_writes.
Qed.

(** ** The amplitude of the synthesiser's samples (C6) *)

Lemma SFltb_irrefl x : SFltb x x = false.
Proof.
  unfold SFltb, SFcompare. destruct x as [s|s| |s m e].
  - reflexivity.
  - destruct s; reflexivity.
  - reflexivity.
  - assert (IntDef.Z.compare e e = Eq) as -> by apply Z.compare_refl.
    assert (PosDef.Pos.compare_cont Eq m m = Eq) as -> by apply Pos.compare_refl.
    destruct s; reflexivity.
Qed.

(** The sample, from the rotor [get_tonesample] leaves. *)
Lemma get_tonesample_sample devtype tvars ddr ddi :
  snd (get_tonesample devtype tvars ddr ddi)
  = let cr := mycr (fst (get_tonesample devtype tvars ddr ddi)) in
    match devtype with
    | DEV_C108 => F32.of_double (F64.mul (F64.of_float cr) (F64.literal 9092 10000))
    | _ => cr
    end.
Proof. destruct devtype; reflexivity. Qed.

Lemma get_tonesample_rotor devtype tvars ddr ddi :
  fst (get_tonesample devtype tvars ddr ddi)
  = fst (get_tonesample DEV_C108 tvars ddr ddi).
Proof. destruct devtype; reflexivity. Qed.

Lemma reduces_iff devtype : reduces devtype <-> devtype = DEV_C108.
Proof.
  split.
  - intros (tv & ddr & ddi & H). unfold reduced in H.
    rewrite (surjective_pairing (get_tonesample devtype tv ddr ddi)) in H.
    rewrite get_tonesample_sample in H. cbv zeta in H.
    destruct devtype; [reflexivity| |]; rewrite SFltb_irrefl in H; discriminate H.
  - intros ->. exists (Tonevars (F32.of_Z 1) (S754_zero false)), (F32.of_Z 1), (S754_zero false).
    vm_compute. reflexivity.
Qed.

(** C6, as the code has it: every sample is the real component of the rotor
    just advanced, multiplied by 0.9092 on DEV_C108 and by nothing on
    DEV_C108AH and DEV_C119, so that DEV_C108 is the one variant whose samples
    are reduced; the rotor does not depend on the variant; and the word
    [outaudio] stores for a frequency above zero is the sample times 32765,
    converted to 16 bits. *)
Theorem tonesample_amplitude (devtype : devtype_t) (tvars : tonevars)
    (freq ddr ddi : spec_float) :
  let tvars' := fst (get_tonesample devtype tvars ddr ddi) in
  let f := snd (get_tonesample devtype tvars ddr ddi) in
  f = match devtype with
      | DEV_C108 =>
          F32.of_double (F64.mul (F64.of_float (mycr tvars')) (F64.literal 9092 10000))
      | DEV_C108AH | DEV_C119 => mycr tvars'
      end /\
  tvars' = fst (get_tonesample DEV_C108 tvars ddr ddi) /\
  SFltb (F64.literal 9092 10000) (F64.of_Z 1) = true /\
  (reduces devtype <-> devtype = DEV_C108) /\
  outaudio_word devtype freq tvars ddr ddi
  = if SFltb (F64.of_Z 0) (F64.of_float freq)
    then (tvars', float_to_u16 (F32.mul f (F32.of_Z 32765)))
    else (tvars, 0).
Proof.
  cbv zeta. split; [|split; [|split; [|split]]].
  - rewrite get_tonesample_sample. destruct devtype; reflexivity.
  - apply get_tonesample_rotor.
  - vm_compute. reflexivity.
  - apply reduces_iff.
  - unfold outaudio_word. destruct (get_tonesample devtype tvars ddr ddi). reflexivity.
Qed.

(** C6 fails as stated: from the rotor (1, 0) and the step (1, 0) the three
    variants give the samples 0.9092, 1 and 1, and no two variants have
    reduced samples. *)
Lemma amplitude_reduced_on_one_variant :
  let one := F32.of_Z 1 in
  let zero := S754_zero false in
  map (fun d => snd (get_tonesample d (Tonevars one zero) one zero)) all_devtypes
  = [F32.of_double (F64.literal 9092 10000); one; one] /\
  ~ two_variants_reduce.
Proof.
  split; [vm_compute; reflexivity|].
  intros (d1 & d2 & Hne & H1 & H2).
  apply reduces_iff in H1, H2. congruence.
Qed.

(** ** The band energies of the analyser (C7) *)











(** ** The model at work *)

(** With the test plug fitted the digital test passes on both kinds of
    board, and the self-test passes on an erased EEPROM. *)
Example digital_test_passes :
  snd (digital_test DEV_C108 erased_world) = Some 0 /\
  snd (digital_test DEV_C119 erased_world) = Some 0 /\
  snd (eeprom_test erased_world) = Some 0.
Proof. repeat split; reflexivity. Qed.

(** A user segment with the right checksum word, 31208 for zero settings,
    reads back with checksum 0. *)
Example valid_segment_reads_zero :
  snd (get_eeprom (replicate 13 0) programmed_world)
  = Some (0, [34329; 0; 0; 0; 0; 0; 0; 0; 0; 0; 0; 0; 31208]).
Proof. vm_compute. reflexivity. Qed.

(** The bins of the 1004 Hz and 5004 Hz targets. *)
Example bins_of_1004_and_5004 :
  List.filter (selected (F32.of_Z 1004)) bins = [20; 21; 22] /\
  List.filter (selected (F32.of_Z 5004)) bins = [106; 107; 108].
Proof. split; vm_compute; reflexivity. Qed.

(** ** The statements at concrete worlds *)

Lemma erased_world_healthy : healthy erased_world.
Proof.
  split; [reflexivity|]. split; [reflexivity|].
  apply Forall_forall. intros x Hx. apply elem_of_replicate in Hx as [-> _]. lia.
Qed.

Lemma programmed_world_healthy : healthy programmed_world.
Proof.
  split; [reflexivity|]. split; [reflexivity|].
  apply Forall_forall. intros x Hx. cbn in Hx.
  repeat (apply elem_of_cons in Hx as [->|Hx]; [lia|]).
  apply elem_of_nil in Hx. contradiction.
Qed.

(** The round trip on the erased adapter. *)
Lemma put_eeprom_checksum_wrong_witness :
  healthy erased_world /\
  length (replicate 13 0) = 13%nat /\
  snd (put_eeprom (replicate 13 0) erased_world) = None /\
  snd ((eeprom_init ;; get_eeprom (replicate 13 0)) erased_world)
  = Some (34329, [34329; 0; 0; 0; 0; 0; 0; 0; 0; 0; 0; 0; 1]).
Proof.
  pose proof erased_world_healthy as H.
  destruct put_eeprom_checksum_wrong as [H1 H2].
  split; [exact H|]. split; [reflexivity|]. split.
  - apply H1. reflexivity.
  - apply H2. exact H.
Defined.

(** The manufacturer write on the erased adapter, with 51 words of 0xAAAA
    behind the table. *)
Lemma put_eeprom_mfg_data_overruns_witness :
  length (replicate 51 0xaaaa) = 51%nat /\ healthy erased_world /\
  eeprom (fst (put_eeprom_mfg_data_from
                 (cm119b_manufacturer_data ++ replicate 51 0xaaaa) erased_world))
  = map u16 (drop 13 (replicate 51 0xaaaa) ++ drop 38 cm119b_manufacturer_data
             ++ take 13 (replicate 51 0xaaaa)).
Proof.
  pose proof erased_world_healthy as H.
  destruct put_eeprom_mfg_data_overruns as (_ & _ & H3 & _).
  split; [reflexivity|]. split; [exact H|].
  apply (H3 (replicate 51 0xaaaa) erased_world eq_refl H).
Defined.

(** A failing transfer on the erased adapter. *)
Lemma transfer_outcome_dropped_witness :
  let w := with_faults [true] erased_world in
  let r := Report 0 8 0xd 0 in
  next_transfer_fails w /\
  eeprom (fst (set_outputs r w)) = eeprom w /\
  input_report (fst (set_outputs r w)) = input_report w /\
  snd (get_inputs r w) = Some r.
Proof.
  cbv zeta. split; [reflexivity|].
  apply (transfer_outcome_dropped (Report 0 8 0xd 0) (with_faults [true] erased_world)).
  reflexivity.
Defined.

(** Word 0 of the programmed adapter across [eeprom_init]'s write. *)
Lemma put_eeprom_user_segment_only_witness :
  (0 < 51)%nat /\
  eeprom (fst (put_eeprom (replicate 64 0) programmed_world)) !! 0%nat
  = eeprom programmed_world !! 0%nat.
Proof.
  split; [lia|].
  apply (put_eeprom_user_segment_only (replicate 64 0) programmed_world). lia.
Defined.

(** The CM108 reduces the sample made from the rotor (1, 0). *)
Lemma tonesample_amplitude_witness :
  DEV_C108 = DEV_C108 /\ reduces DEV_C108.
Proof.
  split; [reflexivity|].
  apply (tonesample_amplitude DEV_C108 (Tonevars (F32.of_Z 1) (S754_zero false))
           (F32.of_Z 1004) (F32.of_Z 1) (S754_zero false)).
  reflexivity.
Defined.

(** The self-test on the programmed adapter, whose user segment is valid. *)
Lemma eeprom_test_invalidates_checksum_witness :
  healthy programmed_world /\
  (13 <= length (replicate 13 0))%nat /\
  (exists b, snd (get_eeprom (replicate 13 0) programmed_world) = Some (0, b)) /\
  eeprom programmed_world !! 62%nat <> Some 0x6942 /\
  exists cs b',
    snd (get_eeprom (replicate 13 0) (fst (eeprom_test programmed_world))) = Some (cs, b')
    /\ cs <> 0.
Proof.
  pose proof programmed_world_healthy as H.
  assert (13 <= length (replicate 13 0))%nat as Hlen by (cbn; lia).
  assert (exists b, snd (get_eeprom (replicate 13 0) programmed_world) = Some (0, b))
    as Hvalid by (eexists; vm_compute; reflexivity).
  assert (eeprom programmed_world !! 62%nat <> Some 0x6942) as Hspare
    by (cbn; discriminate).
  repeat (split; [assumption|]).
  apply (eeprom_test_invalidates_checksum programmed_world H); assumption.
Defined.


(** * Further properties *)

(** ** Single words *)

Lemma land_3f_wrap addr k : Z.land (addr + 64 * k) 0x3f = Z.land addr 0x3f.
Proof.
  rewrite !land_3f. rewrite (Z.mul_comm 64 k). apply Z.mod_add. lia.
Qed.

(** X1: where the transfers complete, [write_eeprom] followed by
    [read_eeprom] returns the word written, reduced to 16 bits, when the two
    addresses agree in their low six bits, so also for an address 64 higher,
    which is not refused; otherwise it returns the word already at the address
    read. *)
Theorem write_then_read (addr addr' data : Z) (w : world) :
  faults w = [] ->
  (Z.to_nat (Z.land addr 0x3f) < length (eeprom w))%nat ->
  snd ((write_eeprom addr data ;; read_eeprom addr') w)
  = Some (if Z.land addr 0x3f =? Z.land addr' 0x3f then u16 data
          else eeprom_word (eeprom w) (Z.land addr' 0x3f)).
Proof.
  intros Hf Hlen.
  destruct (write_eeprom_healthy addr data w Hf) as (w1 & Hw & He1 & Hf1).
  destruct (read_eeprom_healthy addr' w1 Hf1) as (w2 & Hr & He2 & Hf2).
  rewrite (bind_some _ _ _ _ (f_equal snd Hw)). rewrite Hw. cbn [fst]. rewrite Hr.
  cbn [snd]. f_equal. unfold eeprom_word. rewrite He1.
  pose proof (land_3f_range addr). pose proof (land_3f_range addr').
  destruct (Z.eqb_spec (Z.land addr 63) (Z.land addr' 63)) as [<-|Hne].
  - rewrite list_lookup_insert_eq by exact Hlen.
    change (default 0 (Some (u16 data))) with (u16 data).
    unfold u16. apply Z.mod_mod. lia.
  - rewrite list_lookup_insert_ne by lia. reflexivity.
Qed.

Lemma write_then_read_witness :
  faults erased_world = [] /\
  (Z.to_nat (Z.land 126 0x3f) < length (eeprom erased_world))%nat /\
  snd ((write_eeprom 126 0x1234 ;; read_eeprom 62) erased_world) = Some 0x1234.
Proof.
  assert (faults erased_world = []) as Hf by reflexivity.
  assert (Z.to_nat (Z.land 126 0x3f) < length (eeprom erased_world))%nat as Hl
    by (vm_compute; lia).
  split; [exact Hf|]. split; [exact Hl|].
  apply (write_then_read 126 62 0x1234 erased_world Hf Hl).
Defined.

(** ** Code that only reads *)

Lemma reads_only_refl w : reads_only w w.
Proof.
  split; [reflexivity|]. exists []. rewrite app_nil_r. split; [reflexivity|constructor].
Qed.

Lemma reads_only_trans a b c : reads_only a b -> reads_only b c -> reads_only a c.
Proof.
  intros [E1 (n1 & H1 & F1)] [E2 (n2 & H2 & F2)]. split; [congruence|].
  exists (n1 ++ n2). rewrite H2, H1, app_assoc. split; [reflexivity|].
  apply Forall_app; split; assumption.
Qed.

Lemma read_eeprom_eeprom addr w : eeprom (fst (read_eeprom addr w)) = eeprom w.
Proof.
  pose proof (land_3f_range addr) as Ha.
  destruct (command_byte 0x80 (Z.land addr 0x3f)) as (Hb & H7 & H6 & _);
    [cbn; auto | lia |].
  unfold read_eeprom. rewrite Hb. autorewrite with step. cbn [fst ret].
  unfold after_get_report, after_set_report.
  cbn [eeprom faults with_transfers with_faults with_clock].
  destruct (hd false (faults w)); [reflexivity|].
  unfold chip_set_report. cbn [byte0 byte3]. rewrite H7, H6.
  change (Z.testbit 128 7) with true. change (Z.testbit 128 6) with false.
  reflexivity.
Qed.

Lemma read_eeprom_reads_only addr : triple reads_only (read_eeprom addr) (fun _ => True).
Proof.
  intros w. split; [|trivial]. split; [apply read_eeprom_eeprom|].
  destruct (read_eeprom_transfers addr w) as (ok & ins & Htr & _).
  eexists. split; [exact Htr|].
  pose proof (land_3f_range addr) as Ha.
  destruct (command_byte 0x80 (Z.land addr 0x3f)) as (_ & H7 & H6 & _);
    [cbn; auto | lia |].
  repeat constructor. cbn [written_address byte0 byte3]. rewrite H7, H6.
  change (Z.testbit 128 6) with false. rewrite andb_false_r. reflexivity.
Qed.

Ltac reads_step tac :=
  eapply (triple_bind _ reads_only_trans _ _ (fun _ => True));
  [ tac | intros ? _ ].

(** X2: whatever the world and the buffer passed, the readers [read_eeprom],
    [get_eeprom] and [get_eeprom_dump] leave every EEPROM word as it was and
    send no write command. *)
Theorem readers_never_write (addr : Z) (buf : list Z) (w : world) :
  reads_only w (fst (read_eeprom addr w)) /\
  reads_only w (fst (get_eeprom buf w)) /\
  reads_only w (fst (get_eeprom_dump buf w)).
Proof.
  split; [apply read_eeprom_reads_only|]. split.
  - assert (triple reads_only (get_eeprom buf) (fun _ => True)) as H.
    { unfold get_eeprom, for_lt.
      eapply (triple_bind _ reads_only_trans).
      - apply (triple_iterate _ reads_only_refl reads_only_trans).
        intros j [cs b] _.
        reads_step ltac:(apply read_eeprom_reads_only).
        reads_step ltac:(apply (triple_store _ reads_only_refl); trivial).
        apply (triple_ret _ reads_only_refl). trivial.
      - intros r _. apply (triple_ret _ reads_only_refl). trivial. }
    exact (proj1 (H w)).
  - assert (triple reads_only (get_eeprom_dump buf) (fun _ => True)) as H.
    { unfold get_eeprom_dump, for_lt.
      eapply (triple_bind _ reads_only_trans).
      - apply (triple_iterate _ reads_only_refl reads_only_trans).
        intros j b _.
        reads_step ltac:(apply read_eeprom_reads_only).
        apply (triple_store _ reads_only_refl). trivial.
      - intros r _. apply (triple_ret _ reads_only_refl). trivial. }
    exact (proj1 (H w)).
Qed.

(** ** Whole-memory reads *)

Lemma get_eeprom_dump_loop (n : nat) :
  forall i buf w,
    faults w = [] -> 0 <= i -> i + Z.of_nat n <= 64 ->
    (64 <= length buf)%nat ->
    exists w' buf',
      iterate n i (fun i buf => x <- read_eeprom i ;; store buf i x) buf w
      = (w', Some (i + Z.of_nat n, buf')) /\
      eeprom w' = eeprom w /\ faults w' = [] /\
      length buf' = length buf /\
      forall k : nat,
        buf' !! k
        = if (Z.to_nat i <=? k)%nat && (k <? Z.to_nat i + n)%nat
          then Some (eeprom_word (eeprom w) (Z.of_nat k))
          else buf !! k.
Proof.
  induction n as [|n IH]; intros i buf w Hf Hi Hn Hlen.
  - cbn [iterate]. exists w, buf. unfold ret. rewrite Z.add_0_r.
    repeat split; try reflexivity; try assumption.
    intros k. destruct (Nat.leb_spec (Z.to_nat i) k); cbn [andb]; [|reflexivity].
    destruct (Nat.ltb_spec k (Z.to_nat i + 0)); [lia | reflexivity].
  - cbn [iterate].
    destruct (read_eeprom_healthy i w Hf) as (w1 & Hr & He1 & Hf1).
    assert (Z.land i 0x3f = i) as Hland by (rewrite land_3f; apply Z.mod_small; lia).
    rewrite Hland in Hr.
    rewrite bind_bind.
    rewrite (bind_some _ _ _ _ (f_equal snd Hr)). rewrite Hr. cbn [fst].
    unfold bind at 1. rewrite store_in_range by lia.
    set (buf1 := <[Z.to_nat i := eeprom_word (eeprom w) i]> buf).
    destruct (IH (i + 1) buf1 w1 Hf1) as (w2 & buf2 & Hit & He2 & Hf2 & Hl2 & Hb2);
      try lia.
    { subst buf1. rewrite length_insert. exact Hlen. }
    rewrite Hit. exists w2, buf2. rewrite He1 in *.
    split; [|split; [congruence|split; [assumption|split]]].
    + f_equal. f_equal. f_equal. lia.
    + rewrite Hl2. subst buf1. apply length_insert.
    + intros k. rewrite Hb2. subst buf1.
      replace (Z.to_nat (i + 1)) with (Datatypes.S (Z.to_nat i)) by lia.
      destruct (Nat.eq_dec k (Z.to_nat i)) as [->|Hne].
      * rewrite list_lookup_insert_eq by lia.
        replace (Z.of_nat (Z.to_nat i)) with i by lia.
        destruct (Nat.leb_spec (Datatypes.S (Z.to_nat i)) (Z.to_nat i)); [lia|].
        cbn [andb]. rewrite Nat.leb_refl.
        destruct (Nat.ltb_spec (Z.to_nat i) (Z.to_nat i + Datatypes.S n)); [|lia].
        reflexivity.
      * rewrite list_lookup_insert_ne by lia.
        destruct (Nat.leb_spec (Datatypes.S (Z.to_nat i)) k),
          (Nat.leb_spec (Z.to_nat i) k),
          (Nat.ltb_spec k (Datatypes.S (Z.to_nat i) + n)),
          (Nat.ltb_spec k (Z.to_nat i + Datatypes.S n));
          cbn [andb]; try reflexivity; lia.
Qed.

(** X3: where the transfers complete and the buffer has the 64 words
    [eeprom_dump] gives it, [get_eeprom_dump] returns the buffer with its
    first 64 words replaced by the words at addresses 0..63, in order, the
    rest of the buffer and the EEPROM as they were. *)
Theorem get_eeprom_dump_image (buf : list Z) (w : world) :
  faults w = [] -> (64 <= length buf)%nat ->
  exists buf',
    snd (get_eeprom_dump buf w) = Some buf' /\
    eeprom (fst (get_eeprom_dump buf w)) = eeprom w /\
    length buf' = length buf /\
    (forall k : nat, (k < 64)%nat ->
       buf' !! k = Some (eeprom_word (eeprom w) (Z.of_nat k))) /\
    (forall k : nat, (64 <= k)%nat -> buf' !! k = buf !! k).
Proof.
  intros Hf Hlen. unfold get_eeprom_dump, for_lt.
  destruct (get_eeprom_dump_loop 64 0 buf w Hf) as (w' & buf' & Hit & He & _ & Hl & Hb);
    [lia | lia | exact Hlen |].
  change (Z.to_nat (64 - 0)) with 64%nat.
  rewrite (bind_some _ _ _ _ (f_equal snd Hit)). rewrite Hit. cbn [fst snd ret].
  exists buf'. split; [reflexivity|]. split; [assumption|]. split; [assumption|].
  split; intros k Hk; rewrite Hb; change (Z.to_nat 0) with 0%nat; cbn [Nat.leb andb].
  - destruct (Nat.ltb_spec k (0 + 64)); [reflexivity | lia].
  - destruct (Nat.ltb_spec k (0 + 64)); [lia | reflexivity].
Qed.

Lemma get_eeprom_dump_image_witness :
  faults programmed_world = [] /\ (64 <= length (replicate 65 7))%nat /\
  exists buf',
    snd (get_eeprom_dump (replicate 65 7) programmed_world) = Some buf' /\
    buf' !! 2%nat = Some 0x0013 /\ buf' !! 64%nat = Some 7.
Proof.
  assert (faults programmed_world = []) as Hf by reflexivity.
  assert (64 <= length (replicate 65 7))%nat as Hl by (vm_compute; lia).
  split; [exact Hf|]. split; [exact Hl|].
  destruct (get_eeprom_dump_image (replicate 65 7) programmed_world Hf Hl)
    as (buf' & Hs & _ & _ & Hlow & Hhigh).
  exists buf'. split; [exact Hs|]. split.
  - rewrite (Hlow 2%nat) by lia. reflexivity.
  - rewrite (Hhigh 64%nat) by lia. reflexivity.
Defined.

(** ** The extent the readers need *)

Lemma read_eeprom_returns addr w : exists x, snd (read_eeprom addr w) = Some x.
Proof.
  destruct (read_eeprom_transfers addr w) as (ok & ins & _ & Hs).
  eexists. exact Hs.
Qed.

Lemma store_length (a : list Z) i x w b :
  snd (store a i x w) = Some b -> length b = length a /\ 0 <= i < Z.of_nat (length a).
Proof.
  unfold store.
  destruct (Z.leb_spec 0 i), (Z.ltb_spec i (Z.of_nat (length a))); cbn;
    try discriminate.
  intros [= <-]. rewrite length_insert. split; [reflexivity | lia].
Qed.

Lemma store_out_of_range (a : list Z) i x w :
  Z.of_nat (length a) <= i -> store a i x w = (w, None).
Proof.
  intros H. unfold store.
  destruct (Z.ltb_spec i (Z.of_nat (length a))); [lia|].
  rewrite andb_false_r. reflexivity.
Qed.

Lemma get_eeprom_dump_loop_returns (n : nat) :
  forall i buf w,
    0 <= i ->
    is_Some (snd (iterate n i (fun i buf => x <- read_eeprom i ;; store buf i x) buf w))
    <-> (n = 0%nat \/ i + Z.of_nat n <= Z.of_nat (length buf)).
Proof.
  induction n as [|n IH]; intros i buf w Hi.
  - cbn. split; [auto | intros _; eexists; reflexivity].
  - cbn [iterate]. destruct (read_eeprom_returns i w) as [x Hx].
    rewrite bind_bind. rewrite (bind_some _ _ _ _ Hx).
    set (w1 := fst (read_eeprom i w)).
    destruct (Z.lt_ge_cases i (Z.of_nat (length buf))) as [Hlt|Hge].
    + unfold bind at 1. rewrite store_in_range by lia.
      rewrite IH by lia. rewrite length_insert. lia.
    + unfold bind at 1. rewrite store_out_of_range by lia. cbn [snd].
      split; [intros [? [=]] | lia].
Qed.

Lemma get_eeprom_loop_returns (n : nat) :
  forall i cs buf w,
    EEPROM_START_ADDR <= i ->
    is_Some (snd (iterate n i
        (fun i st =>
           let '(cs, buf) := st in
           x <- read_eeprom i ;;
           buf <- store buf (i - EEPROM_START_ADDR) x ;;
           ret (u16 (cs + x), buf)) (cs, buf) w))
    <-> (n = 0%nat \/ i - EEPROM_START_ADDR + Z.of_nat n <= Z.of_nat (length buf)).
Proof.
  unfold EEPROM_START_ADDR.
  induction n as [|n IH]; intros i cs buf w Hi.
  - cbn. split; [auto | intros _; eexists; reflexivity].
  - cbn [iterate]. destruct (read_eeprom_returns i w) as [x Hx].
    rewrite bind_bind. rewrite (bind_some _ _ _ _ Hx).
    set (w1 := fst (read_eeprom i w)).
    rewrite bind_bind.
    destruct (Z.lt_ge_cases (i - 51) (Z.of_nat (length buf))) as [Hlt|Hge].
    + unfold bind at 1. rewrite store_in_range by lia. rewrite bind_ret.
      rewrite IH by lia. rewrite length_insert. lia.
    + unfold bind at 1. rewrite store_out_of_range by lia. cbn [snd].
      split; [intros [? [=]] | lia].
Qed.

(** X4: whatever the adapter does, [get_eeprom] returns exactly when the
    caller's buffer has room for 13 words and [get_eeprom_dump] exactly when
    it has room for 64; with less they store past its end. *)
Theorem readers_need_room (buf : list Z) (w : world) :
  (is_Some (snd (get_eeprom buf w)) <-> (13 <= length buf)%nat) /\
  (is_Some (snd (get_eeprom_dump buf w)) <-> (64 <= length buf)%nat).
Proof.
  split.
  - unfold get_eeprom, for_lt.
    change (Z.to_nat (EEPROM_START_ADDR + EEPROM_USER_CS_ADDR + 1 - EEPROM_START_ADDR))
      with 13%nat.
    pose proof (get_eeprom_loop_returns 13 EEPROM_START_ADDR 0xffff buf w
                  ltac:(reflexivity)) as H.
    unfold EEPROM_START_ADDR in *.
    destruct (iterate 13 51 _ (65535, buf) w) as [w' [r|]] eqn:E.
    + rewrite (bind_some _ _ r _) by (rewrite E; reflexivity). cbn [snd ret].
      cbn [snd] in H. split; [intros _ | intros _; eexists; reflexivity].
      assert (is_Some (Some r)) as Hs by (eexists; reflexivity).
      apply H in Hs. lia.
    + rewrite bind_none by (rewrite E; reflexivity). cbn [snd] in H.
      split; [intros [? [=]] |]. intros Hl.
      assert (is_Some (@None (Z * (Z * list Z)))) as [? [=]]. apply H. lia.
  - unfold get_eeprom_dump, for_lt. change (Z.to_nat (64 - 0)) with 64%nat.
    pose proof (get_eeprom_dump_loop_returns 64 0 buf w ltac:(lia)) as H.
    destruct (iterate 64 0 _ buf w) as [w' [r|]] eqn:E.
    + rewrite (bind_some _ _ r _) by (rewrite E; reflexivity). cbn [snd ret].
      cbn [snd] in H. split; [intros _ | intros _; eexists; reflexivity].
      assert (is_Some (Some r)) as Hs by (eexists; reflexivity).
      apply H in Hs. lia.
    + rewrite bind_none by (rewrite E; reflexivity). cbn [snd] in H.
      split; [intros [? [=]] |]. intros Hl.
      assert (is_Some (@None (Z * list Z))) as [? [=]]. apply H. lia.
Qed.

(** ** Reads over a failing transport *)

Lemma read_eeprom_unanswered addr w s rest :
  faults w = s :: true :: rest ->
  snd (read_eeprom addr w) = Some 0 /\
  faults (fst (read_eeprom addr w)) = rest.
Proof.
  intros Hf. unfold read_eeprom. autorewrite with step. cbn [fst snd ret].
  rewrite answer_with_clock. unfold answer, after_get_report.
  cbn [faults with_transfers with_faults with_clock].
  rewrite after_set_faults. cbn [faults with_clock]. rewrite Hf. cbn [tl hd default].
  split; reflexivity.
Qed.

(** X5: a read whose input request fails returns 0, whatever the cell
    holds; a read whose command fails while the input request completes
    returns the word left in the chip's input report by whatever came
    before, not the cell addressed. *)
Theorem read_eeprom_failed_transfers (addr : Z) (w : world) (s : bool) (rest : list bool) :
  snd (read_eeprom addr (with_faults (s :: true :: rest) w)) = Some 0 /\
  snd (read_eeprom addr (with_faults (true :: false :: rest) w))
  = Some (u8 (byte1 (input_report w)) + 256 * u8 (byte2 (input_report w))).
Proof.
  split.
  - apply (read_eeprom_unanswered addr _ s rest). reflexivity.
  - unfold read_eeprom. autorewrite with step. cbn [fst snd ret].
    rewrite answer_with_clock. unfold answer, after_set_report.
    cbn [faults with_transfers with_faults with_clock hd tl default input_report
         report_u8 byte1 byte2].
    f_equal. pose proof (u8_range (byte1 (input_report w))).
    pose proof (u8_range (byte2 (input_report w))).
    rewrite Z.shiftl_mul_pow2 by lia. unfold id. cbn [report_u8 byte1 byte2].
    rewrite u16_small by lia. lia.
Qed.

Lemma get_eeprom_unanswered_loop (n : nat) :
  forall i buf w rest,
    faults w = replicate (2 * n) true ++ rest ->
    EEPROM_START_ADDR <= i ->
    i - EEPROM_START_ADDR + Z.of_nat n <= Z.of_nat (length buf) ->
    exists w' buf',
      iterate n i
        (fun i st =>
           let '(cs, buf) := st in
           x <- read_eeprom i ;;
           buf <- store buf (i - EEPROM_START_ADDR) x ;;
           ret (u16 (cs + x), buf)) (0xffff, buf) w
      = (w', Some (i + Z.of_nat n, (0xffff, buf'))) /\
      eeprom w' = eeprom w /\
      length buf' = length buf /\
      forall k : nat,
        buf' !! k
        = if (Z.to_nat (i - EEPROM_START_ADDR) <=? k)%nat
             && (k <? Z.to_nat (i - EEPROM_START_ADDR) + n)%nat
          then Some 0 else buf !! k.
Proof.
  unfold EEPROM_START_ADDR.
  induction n as [|n IH]; intros i buf w rest Hf Hi Hn.
  - cbn [iterate]. exists w, buf. unfold ret. rewrite Z.add_0_r.
    repeat split; try reflexivity.
    intros k. destruct (Nat.leb_spec (Z.to_nat (i - 51)) k); cbn [andb]; [|reflexivity].
    destruct (Nat.ltb_spec k (Z.to_nat (i - 51) + 0)); [lia | reflexivity].
  - cbn [iterate].
    replace (2 * Datatypes.S n)%nat with (Datatypes.S (Datatypes.S (2 * n))) in Hf by lia.
    cbn [replicate app] in Hf.
    destruct (read_eeprom_unanswered i w _ _ Hf) as [Hr Hf1].
    rewrite bind_bind. rewrite (bind_some _ _ _ _ Hr).
    pose proof (read_eeprom_eeprom i w) as He1.
    set (w1 := fst (read_eeprom i w)) in *.
    rewrite bind_bind. unfold bind at 1. rewrite store_in_range by lia. rewrite bind_ret.
    change (u16 (65535 + 0)) with 65535.
    set (buf1 := <[Z.to_nat (i - 51) := 0]> buf).
    destruct (IH (i + 1) buf1 w1 rest Hf1) as (w2 & buf2 & Hit & He2 & Hl2 & Hb2);
      try lia.
    { subst buf1. rewrite length_insert. lia. }
    rewrite Hit. exists w2, buf2.
    split; [|split; [congruence|split]].
    + f_equal. f_equal. f_equal. lia.
    + rewrite Hl2. subst buf1. apply length_insert.
    + intros k. rewrite Hb2. subst buf1.
      replace (Z.to_nat (i + 1 - 51)) with (Datatypes.S (Z.to_nat (i - 51))) by lia.
      destruct (Nat.eq_dec k (Z.to_nat (i - 51))) as [->|Hne].
      * rewrite list_lookup_insert_eq by lia.
        destruct (Nat.leb_spec (Datatypes.S (Z.to_nat (i - 51))) (Z.to_nat (i - 51))); [lia|].
        cbn [andb]. rewrite Nat.leb_refl.
        destruct (Nat.ltb_spec (Z.to_nat (i - 51)) (Z.to_nat (i - 51) + Datatypes.S n)); [|lia].
        reflexivity.
      * rewrite list_lookup_insert_ne by lia.
        destruct (Nat.leb_spec (Datatypes.S (Z.to_nat (i - 51))) k),
          (Nat.leb_spec (Z.to_nat (i - 51)) k),
          (Nat.ltb_spec k (Datatypes.S (Z.to_nat (i - 51)) + n)),
          (Nat.ltb_spec k (Z.to_nat (i - 51) + Datatypes.S n));
          cbn [andb]; try reflexivity; lia.
Qed.

(** X6: with an adapter that answers none of the 26 transfers,
    [get_eeprom] returns the checksum 0xFFFF, which is not the 0 of a valid
    segment, hands back thirteen zero words and leaves the EEPROM alone. *)
Theorem get_eeprom_unanswered (buf : list Z) (w : world) (rest : list bool) :
  (13 <= length buf)%nat ->
  exists buf',
    snd (get_eeprom buf (with_faults (replicate 26 true ++ rest) w)) = Some (0xffff, buf') /\
    eeprom (fst (get_eeprom buf (with_faults (replicate 26 true ++ rest) w))) = eeprom w /\
    length buf' = length buf /\
    (forall k : nat, (k < 13)%nat -> buf' !! k = Some 0) /\
    (forall k : nat, (13 <= k)%nat -> buf' !! k = buf !! k).
Proof.
  intros Hlen. unfold get_eeprom, for_lt.
  change (Z.to_nat (EEPROM_START_ADDR + EEPROM_USER_CS_ADDR + 1 - EEPROM_START_ADDR))
    with 13%nat.
  destruct (get_eeprom_unanswered_loop 13 EEPROM_START_ADDR buf
              (with_faults (replicate 26 true ++ rest) w) rest)
    as (w' & buf' & Hit & He & Hl & Hb);
    [reflexivity | reflexivity | unfold EEPROM_START_ADDR; lia |].
  rewrite (bind_some _ _ _ _ (f_equal snd Hit)). rewrite Hit. cbn [fst snd ret].
  exists buf'. split; [reflexivity|]. split; [exact He|]. split; [exact Hl|].
  change (Z.to_nat (EEPROM_START_ADDR - EEPROM_START_ADDR)) with 0%nat in Hb.
  split; intros k Hk; rewrite Hb; cbn [Nat.leb andb].
  - destruct (Nat.ltb_spec k (0 + 13)); [reflexivity | lia].
  - destruct (Nat.ltb_spec k (0 + 13)); [lia | reflexivity].
Qed.

Lemma get_eeprom_unanswered_witness :
  (13 <= length (replicate 13 7))%nat /\
  exists buf',
    snd (get_eeprom (replicate 13 7)
           (with_faults (replicate 26 true ++ []) programmed_world)) = Some (0xffff, buf') /\
    buf' !! 12%nat = Some 0.
Proof.
  assert (13 <= length (replicate 13 7))%nat as Hl by (vm_compute; lia).
  split; [exact Hl|].
  destruct (get_eeprom_unanswered (replicate 13 7) programmed_world [] Hl)
    as (buf' & Hs & _ & _ & Hlow & _).
  exists buf'. split; [exact Hs|]. apply Hlow. lia.
Defined.

(** ** Writing the user segment and reading it back *)

Lemma load_lookup (a : list Z) i w :
  0 <= i < Z.of_nat (length a) ->
  load a i w = (w, Some (default 0 (a !! Z.to_nat i))).
Proof.
  intros H. unfold load. destruct (Z.ltb_spec i 0); [lia|].
  destruct (a !! Z.to_nat i) as [x|] eqn:E; [reflexivity|].
  apply lookup_ge_None in E. lia.
Qed.

Lemma word_sum_snoc e (n : nat) :
  forall a, word_sum e a (Datatypes.S n) = word_sum e a n + eeprom_word e (a + Z.of_nat n).
Proof.
  induction n as [|n IH]; intros a.
  - cbn [word_sum Z.of_nat]. rewrite !Z.add_0_r. lia.
  - change (word_sum e a (Datatypes.S (Datatypes.S n)))
      with (eeprom_word e a + word_sum e (a + 1) (Datatypes.S n)).
    rewrite IH. cbn [word_sum].
    replace (a + 1 + Z.of_nat n) with (a + Z.of_nat (Datatypes.S n)) by lia. lia.
Qed.

Lemma word_sum_ext e e' (n : nat) :
  forall a b,
    (forall k : nat, (k < n)%nat ->
       eeprom_word e (a + Z.of_nat k) = eeprom_word e' (b + Z.of_nat k)) ->
    word_sum e a n = word_sum e' b n.
Proof.
  induction n as [|n IH]; intros a b H; [reflexivity|].
  cbn [word_sum]. f_equal.
  - specialize (H 0%nat ltac:(lia)). rewrite !Z.add_0_r in H. exact H.
  - apply IH. intros k Hk. specialize (H (Datatypes.S k) ltac:(lia)).
    replace (a + 1 + Z.of_nat k) with (a + Z.of_nat (Datatypes.S k)) by lia.
    replace (b + 1 + Z.of_nat k) with (b + Z.of_nat (Datatypes.S k)) by lia.
    exact H.
Qed.

Lemma u16_add_r a b : u16 (a + u16 b) = u16 (a + b).
Proof. unfold u16. apply Zplus_mod_idemp_r. Qed.

(** The loop of [put_eeprom], from address [i] for [n] turns. *)
Lemma put_eeprom_loop (buf : list Z) (n : nat) :
  forall i cs w,
    faults w = [] -> EEPROM_START_ADDR <= i -> i + Z.of_nat n <= 63 ->
    (63 <= length buf)%nat -> 0 <= cs < 65536 ->
    exists w',
      iterate n i
        (fun i cs =>
           x <- load buf (i - EEPROM_START_ADDR) ;;
           write_eeprom i x ;;
           y <- load buf i ;;
           ret (u16 (cs + y))) cs w
      = (w', Some (i + Z.of_nat n, u16 (cs + word_sum buf i n))) /\
      faults w' = [] /\
      length (eeprom w') = length (eeprom w) /\
      forall a : nat,
        eeprom w' !! a
        = if (Z.to_nat i <=? a)%nat && (a <? Z.to_nat i + n)%nat && (a <? length (eeprom w))%nat
          then Some (eeprom_word buf (Z.of_nat a - EEPROM_START_ADDR))
          else eeprom w !! a.
Proof.
  unfold EEPROM_START_ADDR.
  induction n as [|n IH]; intros i cs w Hf Hi Hn Hlen Hcs.
  - cbn [iterate word_sum]. exists w. unfold ret.
    rewrite !Z.add_0_r. rewrite u16_small by assumption.
    repeat split; try reflexivity; try assumption.
    intros a. destruct (Nat.leb_spec (Z.to_nat i) a); cbn [andb]; [|reflexivity].
    destruct (Nat.ltb_spec a (Z.to_nat i + 0)); [lia | reflexivity].
  - cbn [iterate word_sum].
    rewrite bind_bind. unfold bind at 1. rewrite load_lookup by lia.
    fold (eeprom_word buf (i - 51)).
    set (x := default 0 (buf !! Z.to_nat (i - 51))).
    destruct (write_eeprom_healthy i x w Hf) as (w1 & Hw & He1 & Hf1).
    assert (Z.land i 0x3f = i) as Hland by (rewrite land_3f; apply Z.mod_small; lia).
    rewrite Hland in He1.
    rewrite bind_bind. rewrite (bind_some _ _ _ _ (f_equal snd Hw)). rewrite Hw. cbn [fst].
    rewrite bind_bind. unfold bind at 1. rewrite load_lookup by lia. rewrite bind_ret.
    destruct (IH (i + 1) (u16 (cs + default 0 (buf !! Z.to_nat i))) w1 Hf1)
      as (w2 & Hit & Hf2 & Hl2 & Hb2); try lia.
    { apply u16_range. }
    rewrite Hit. exists w2.
    split; [|split; [assumption|split]].
    + f_equal. f_equal. f_equal; [lia|].
      unfold eeprom_word. set (d := default 0 (buf !! Z.to_nat i)).
      rewrite u16_add_l.
      replace (cs + (u16 d + word_sum buf (i + 1) n))
        with (u16 d + (cs + word_sum buf (i + 1) n)) by lia.
      rewrite u16_add_l. f_equal. lia.
    + rewrite Hl2, He1. apply length_insert.
    + intros a. rewrite Hb2, He1. rewrite length_insert.
      replace (Z.to_nat (i + 1)) with (Datatypes.S (Z.to_nat i)) by lia.
      destruct (Nat.eq_dec a (Z.to_nat i)) as [->|Hne].
      * destruct (Nat.leb_spec (Datatypes.S (Z.to_nat i)) (Z.to_nat i)); [lia|].
        cbn [andb]. rewrite Nat.leb_refl.
        destruct (Nat.ltb_spec (Z.to_nat i) (Z.to_nat i + Datatypes.S n)); [|lia].
        cbn [andb].
        destruct (Nat.ltb_spec (Z.to_nat i) (length (eeprom w))).
        -- rewrite list_lookup_insert_eq by lia. f_equal.
           unfold eeprom_word. subst x. f_equal. f_equal. f_equal. lia.
        -- rewrite list_insert_ge by lia. reflexivity.
      * rewrite list_lookup_insert_ne by lia.
        destruct (Nat.leb_spec (Datatypes.S (Z.to_nat i)) a),
          (Nat.leb_spec (Z.to_nat i) a),
          (Nat.ltb_spec a (Datatypes.S (Z.to_nat i) + n)),
          (Nat.ltb_spec a (Z.to_nat i + Datatypes.S n));
          cbn [andb]; try reflexivity; lia.
Qed.

Lemma eeprom_word_u16 e a : u16 (eeprom_word e a) = eeprom_word e a.
Proof. unfold eeprom_word, u16. apply Z.mod_mod. lia. Qed.

Lemma checksum_difference s0 s51 :
  u16 (0xffff + (s0 + u16 (65535 - u16 (0xffff + s51) + 1))) = u16 (s0 - s51).
Proof. unfold u16. Z.div_mod_to_equations. lia. Qed.

(** What [put_eeprom] leaves in the EEPROM and hands back. *)
Lemma put_eeprom_healthy buf w :
  faults w = [] -> (63 <= length buf)%nat ->
  let image := <[0%nat := EEPROM_MAGIC]> buf in
  let csword := u16 (65535 - u16 (0xffff + word_sum image 51 12) + 1) in
  exists w',
    put_eeprom buf w = (w', Some (<[12%nat := csword]> image)) /\
    faults w' = [] /\
    length (eeprom w') = length (eeprom w) /\
    forall a : nat,
      (a < length (eeprom w))%nat ->
      eeprom w' !! a
      = if (51 <=? a)%nat && (a <? 63)%nat
        then Some (eeprom_word image (Z.of_nat a - 51))
        else if (a =? 63)%nat then Some csword else eeprom w !! a.
Proof.
  intros Hf Hlen image csword. unfold put_eeprom, for_lt.
  unfold bind at 1. rewrite store_in_range by (unfold EEPROM_USER_MAGIC_ADDR; lia).
  change (<[Z.to_nat EEPROM_USER_MAGIC_ADDR:=EEPROM_MAGIC]> buf) with image.
  assert (length image = length buf) as Hli by apply length_insert.
  change (Z.to_nat (EEPROM_START_ADDR + EEPROM_USER_CS_ADDR - EEPROM_START_ADDR))
    with 12%nat.
  destruct (put_eeprom_loop image 12 EEPROM_START_ADDR 0xffff w Hf)
    as (w1 & Hit & Hf1 & Hl1 & Hb1);
    [reflexivity | unfold EEPROM_START_ADDR; lia | lia | lia |].
  rewrite (bind_some _ _ _ _ (f_equal snd Hit)). rewrite Hit. cbn [fst].
  change (EEPROM_START_ADDR + Z.of_nat 12) with 63.
  change EEPROM_START_ADDR with 51 in *. change EEPROM_USER_CS_ADDR with 12.
  fold csword.
  unfold bind at 1. rewrite store_in_range by lia.
  change (Z.to_nat 12) with 12%nat.
  rewrite bind_usleep.
  unfold bind at 1. rewrite load_lookup by (rewrite length_insert; lia).
  change (Z.to_nat 12) with 12%nat.
  rewrite list_lookup_insert_eq by lia. change (default 0 (Some csword)) with csword.
  set (w1' := with_clock (clock w1 + 2000) w1).
  destruct (write_eeprom_healthy 63 csword w1' Hf1) as (w2 & Hw & He2 & Hf2).
  change (Z.to_nat (Z.land 63 63)) with 63%nat in He2.
  change (eeprom w1') with (eeprom w1) in He2.
  rewrite (bind_some _ _ _ _ (f_equal snd Hw)). rewrite Hw. cbn [fst].
  exists w2. split; [reflexivity|]. split; [assumption|].
  split; [rewrite He2, length_insert; exact Hl1|].
  intros a Ha. rewrite He2.
  destruct (Nat.eq_dec a 63%nat) as [->|Hne].
  - rewrite list_lookup_insert_eq by lia. cbn [Nat.leb Nat.ltb andb Nat.eqb].
    f_equal. subst csword. unfold u16 at 1. apply Z.mod_mod. lia.
  - rewrite list_lookup_insert_ne by lia. rewrite Hb1.
    change (Z.to_nat 51) with 51%nat. change (51 + 12)%nat with 63%nat.
    destruct (Nat.ltb_spec a (length (eeprom w))); [|lia].
    rewrite andb_true_r.
    destruct ((51 <=? a)%nat && (a <? 63)%nat); [reflexivity|].
    destruct (Nat.eqb_spec a 63%nat); [lia | reflexivity].
Qed.

(** X7: where the transfers complete and the caller's buffer has at least
    63 words, the segment [put_eeprom] writes reads back through [get_eeprom]
    as the magic number, the caller's words 1..11 and a checksum word made
    from words 51..62 of the buffer; the checksum [get_eeprom] returns is the
    sum of the twelve words written less the sum of words 51..62, modulo
    65536, so it is 0 only when the two sums agree. *)
Theorem put_then_get (buf buf2 : list Z) (w : world) :
  faults w = [] -> (64 <= length (eeprom w))%nat ->
  (63 <= length buf)%nat -> (13 <= length buf2)%nat ->
  let image := <[0%nat := EEPROM_MAGIC]> buf in
  exists got,
    snd ((put_eeprom buf ;; get_eeprom buf2) w)
    = Some (u16 (word_sum image 0 12 - word_sum image 51 12), got) /\
    got !! 0%nat = Some EEPROM_MAGIC /\
    (forall k : nat, (1 <= k < 12)%nat -> got !! k = Some (eeprom_word buf (Z.of_nat k))) /\
    got !! 12%nat = Some (u16 (65535 - u16 (0xffff + word_sum image 51 12) + 1)).
Proof.
  intros Hf He Hlen Hlen2 image.
  destruct (put_eeprom_healthy buf w Hf Hlen) as (w1 & Hp & Hf1 & Hl1 & Hc).
  fold image in Hp, Hc.
  set (csword := u16 (65535 - u16 (0xffff + word_sum image 51 12) + 1)) in *.
  destruct (get_eeprom_healthy buf2 w1 Hf1 Hlen2) as (w2 & got & Hg & _ & _ & Hgot).
  rewrite (bind_some _ _ _ _ (f_equal snd Hp)). rewrite Hp. cbn [fst]. rewrite Hg.
  cbn [snd]. exists got.
  assert (forall k : nat, (k < 12)%nat ->
            eeprom_word (eeprom w1) (51 + Z.of_nat k) = eeprom_word image (Z.of_nat k)) as Hw.
  { intros k Hk. unfold eeprom_word at 1.
    replace (Z.to_nat (51 + Z.of_nat k)) with (51 + k)%nat by lia.
    rewrite Hc by lia.
    destruct (Nat.leb_spec 51 (51 + k)); [|lia].
    destruct (Nat.ltb_spec (51 + k) 63); [|lia]. cbn [andb].
    change (default 0 (Some ?v)) with v. rewrite eeprom_word_u16.
    f_equal. lia. }
  assert (eeprom_word (eeprom w1) 63 = csword) as Hcs.
  { unfold eeprom_word. change (Z.to_nat 63) with 63%nat. rewrite Hc by lia.
    cbn [Nat.leb Nat.ltb andb Nat.eqb]. change (default 0 (Some ?v)) with v.
    subst csword. unfold u16 at 1. apply Z.mod_mod. lia. }
  split; [|split; [|split]].
  - f_equal. f_equal. unfold user_checksum.
    change (Z.to_nat EEPROM_USER_LEN) with 13%nat. change EEPROM_START_ADDR with 51.
    rewrite word_sum_snoc. change (51 + Z.of_nat 12) with 63. rewrite Hcs.
    rewrite (word_sum_ext (eeprom w1) image 12 51 0).
    + apply checksum_difference.
    + intros k Hk. rewrite Hw by lia. f_equal.
  - rewrite (Hgot 0%nat) by lia. change (EEPROM_START_ADDR + Z.of_nat 0) with (51 + Z.of_nat 0).
    rewrite Hw by lia. unfold eeprom_word, image. cbn [Z.of_nat Z.to_nat].
    rewrite list_lookup_insert_eq by lia. reflexivity.
  - intros k Hk. rewrite (Hgot k) by lia. change EEPROM_START_ADDR with 51.
    rewrite Hw by lia. unfold eeprom_word, image.
    rewrite list_lookup_insert_ne by lia. reflexivity.
  - rewrite (Hgot 12%nat) by lia. change (EEPROM_START_ADDR + Z.of_nat 12) with 63.
    rewrite Hcs. reflexivity.
Qed.

Lemma put_then_get_witness :
  faults erased_world = [] /\ (64 <= length (eeprom erased_world))%nat /\
  (63 <= length (seqZ 0 64))%nat /\ (13 <= length (replicate 13 0))%nat /\
  exists got,
    snd ((put_eeprom (seqZ 0 64) ;; get_eeprom (replicate 13 0)) erased_world)
    = Some (33717, got) /\
    got !! 11%nat = Some 11.
Proof.
  assert (faults erased_world = []) as Hf by reflexivity.
  assert (64 <= length (eeprom erased_world))%nat as He by (vm_compute; lia).
  assert (63 <= length (seqZ 0 64))%nat as Hl by (vm_compute; lia).
  assert (13 <= length (replicate 13 0))%nat as Hl2 by (vm_compute; lia).
  split; [exact Hf|]. split; [exact He|]. split; [exact Hl|]. split; [exact Hl2|].
  destruct (put_then_get (seqZ 0 64) (replicate 13 0) erased_world Hf He Hl Hl2)
    as (got & Hs & _ & Hk & _).
  exists got. split; [exact Hs|]. apply (Hk 11%nat). lia.
Defined.

(** ** The self-test over a failing transport *)

(** X8: when the write command of [eeprom_test] is lost and the read
    completes, the test reports one error and leaves the EEPROM as it was,
    unless the cell already held 0x6942, in which case it reports success;
    when the write completes and the answer to the read is lost, it reports
    one error although the cell has been written. *)
Theorem eeprom_test_failed_transfers (w : world) :
  let lost := with_faults [true] w in
  let unanswered := with_faults [false; false; true] w in
  snd (eeprom_test lost)
  = Some (if eeprom_word (eeprom w) 62 =? 0x6942 then 0 else 1) /\
  eeprom (fst (eeprom_test lost)) = eeprom w /\
  snd (eeprom_test unanswered) = Some 1 /\
  eeprom (fst (eeprom_test unanswered)) = <[62%nat := 0x6942]> (eeprom w).
Proof.
  intros lost unanswered.
  change (EEPROM_START_ADDR + EEPROM_USER_SPARE) with 62 in *.
  assert (forall v w0,
            snd ((if negb (v =? 0x6942)
                  then printf ("Error!! EEPROM wrote 6942 hex, read " ++ hex04 v
                               ++ " hex" ++ nl)%string ;; ret (0 + 1)
                  else printf ("Success - EEPROM wrote 6942 hex, read " ++ hex04 v
                               ++ " hex" ++ nl)%string ;; ret 0) w0)
            = Some (if v =? 0x6942 then 0 else 1) /\
            eeprom (fst ((if negb (v =? 0x6942)
                  then printf ("Error!! EEPROM wrote 6942 hex, read " ++ hex04 v
                               ++ " hex" ++ nl)%string ;; ret (0 + 1)
                  else printf ("Success - EEPROM wrote 6942 hex, read " ++ hex04 v
                               ++ " hex" ++ nl)%string ;; ret 0) w0))
            = eeprom w0) as Hreport.
  { intros v w0. destruct (v =? 0x6942); cbn [negb]; rewrite bind_printf; split; reflexivity. }
  unfold eeprom_test. change (EEPROM_START_ADDR + EEPROM_USER_SPARE) with 62.
  split; [|split; [|split; reflexivity]].
  - destruct (write_eeprom_effect 62 0x6942 lost) as (t & _ & Hs & _ & Hfa & He).
    rewrite (bind_some _ _ _ _ Hs).
    remember (fst (write_eeprom 62 0x6942 lost)) as w1 eqn:Hw1. clear Hw1.
    cbn in Hfa, He.
    destruct (read_eeprom_healthy 62 w1 Hfa) as (w2 & Hr & He2 & _).
    rewrite (bind_some _ _ _ _ (f_equal snd Hr)). rewrite Hr. cbn [fst].
    rewrite He. change (Z.land 62 63) with 62. apply Hreport.
  - destruct (write_eeprom_effect 62 0x6942 lost) as (t & _ & Hs & _ & Hfa & He).
    rewrite (bind_some _ _ _ _ Hs).
    remember (fst (write_eeprom 62 0x6942 lost)) as w1 eqn:Hw1. clear Hw1.
    cbn in Hfa, He.
    destruct (read_eeprom_healthy 62 w1 Hfa) as (w2 & Hr & He2 & _).
    rewrite (bind_some _ _ _ _ (f_equal snd Hr)). rewrite Hr. cbn [fst].
    etransitivity; [apply Hreport|]. congruence.
Qed.

(** ** The digital test on the wire *)

Lemma dioerror_prints got should w :
  exists lines n,
    dioerror got should w = (with_stdout (stdout w ++ lines) w, Some n) /\
    n = Z.of_nat (length lines) /\ 0 <= n <= 4.
Proof.
  unfold dioerror.
  set (err := u8 (Z.lxor (u8 got) (u8 should))).
  destruct w as [e ir p f tr c so].
  destruct (Z.land err 2 =? 0), (Z.land err 16 =? 0), (Z.land err 64 =? 0),
    (Z.land err 128 =? 0);
    cbv [negb bind printf ret with_stdout stdout eeprom input_report pins faults
         transfers clock];
    rewrite <- ?app_assoc; cbn [app];
    first [ eexists _, _; (split; [unfold ret; reflexivity|]); cbn; split;
            [reflexivity | lia]
          | exists [], 0; rewrite app_nil_r; repeat split; lia ].
Qed.

(** X9: [dioerror] prints one line for each error it counts, the count
    being the number of differing bits among bits 1, 4, 6 and 7, at most
    four, and changes nothing else. *)
Theorem dioerror_one_line_per_error (got should : Z) (w : world) :
  exists lines,
    dioerror got should w
    = (with_stdout (stdout w ++ lines) w, Some (mismatches 0xd2 got should)) /\
    Z.of_nat (length lines) = mismatches 0xd2 got should /\
    0 <= mismatches 0xd2 got should <= 4.
Proof.
  destruct (dioerror_prints got should w) as (lines & n & E & Hn & Hr).
  pose proof (dioerror_count got should w) as Hc. rewrite E in Hc. cbn [snd] in Hc.
  injection Hc as Hc. exists lines. rewrite E, <- Hc. repeat split; try lia.
Qed.

Lemma setout_effect devtype c w :
  exists w' ok,
    setout devtype c w = (w', Some tt) /\
    eeprom w' = eeprom w /\
    transfers w'
    = transfers w
      ++ [SET_REPORT (Report 0 (u8 c) (if devtype_eqb devtype DEV_C119 then 0x3d else 0xd) 0)
            ok].
Proof.
  unfold setout. rewrite bind_set_outputs. unfold usleep.
  eexists _, _. split; [reflexivity|].
  cbn [eeprom transfers with_clock]. rewrite after_set_transfers. split; [|reflexivity].
  unfold after_set_report. destruct (hd false (faults (with_clock (clock w + 1500) w)));
    reflexivity.
Qed.

Lemma getin_effect devtype w :
  exists w' v ins,
    getin devtype w = (w', Some v) /\
    eeprom w' = eeprom w /\
    transfers w' = transfers w ++ [GET_REPORT ins].
Proof.
  unfold getin. rewrite bind_get_inputs. unfold ret.
  eexists _, _, _. split; [reflexivity|]. split; reflexivity.
Qed.

Lemma testio_effect devtype toout toexpect w :
  exists w' n ok ins,
    testio devtype toout toexpect w = (w', Some n) /\
    0 <= n <= 4 /\
    eeprom w' = eeprom w /\
    transfers w'
    = transfers w
      ++ [SET_REPORT (Report 0 (u8 toout)
                        (if devtype_eqb devtype DEV_C119 then 0x3d else 0xd) 0) ok;
          GET_REPORT ins].
Proof.
  destruct (setout_effect devtype toout w) as (w1 & ok & E1 & He1 & Ht1).
  destruct (getin_effect devtype w1) as (w2 & v & ins & E2 & He2 & Ht2).
  destruct (dioerror_prints (u8 (Z.land v 0xf2)) toexpect w2) as (lines & n & E3 & _ & Hn).
  unfold testio.
  rewrite (bind_some _ _ _ _ (f_equal snd E1)). rewrite E1. cbn [fst].
  rewrite (bind_some _ _ _ _ (f_equal snd E2)). rewrite E2. cbn [fst].
  rewrite E3. eexists _, n, ok, ins. split; [reflexivity|]. split; [exact Hn|].
  cbn [eeprom transfers with_stdout]. split; [congruence|].
  rewrite Ht2, Ht1, <- app_assoc. reflexivity.
Qed.

Lemma cons_app_split {A} (x : A) (l new tail : list A) :
  l = new ++ tail -> x :: l = (x :: new) ++ tail.
Proof. intros ->. reflexivity. Qed.

Ltac testio_step E :=
  rewrite ?bind_bind in E;
  match type of E with
  | context [bind (testio ?d ?o ?e) _ ?w] =>
      let w1 := fresh "w" in
      let n := fresh "n" in
      let ok := fresh "ok" in
      let ins := fresh "ins" in
      let E1 := fresh "E" in
      let R := fresh "R" in
      let Ee := fresh "Ee" in
      let T := fresh "T" in
      destruct (testio_effect d o e w) as (w1 & n & ok & ins & E1 & R & Ee & T);
      rewrite (bind_some _ _ _ _ (f_equal snd E1)) in E; rewrite E1 in E;
      cbn [fst] in E; clear E1
  end.

Lemma and_second_first (A B C : Prop) : B -> A -> C -> A /\ B /\ C.
Proof. auto. Qed.

Lemma gpio_trace_cons mask pattern completed ins steps l :
  l = gpio_trace mask steps ->
  SET_REPORT (Report 0 pattern mask 0) completed :: GET_REPORT ins :: l
  = gpio_trace mask ((pattern, completed, ins) :: steps).
Proof. intros ->. reflexivity. Qed.

(** X10: whatever the adapter answers, the transfers [digital_test] issues
    are exactly these: for each of the patterns 8, 9, 12, 0, then 24 and 40 on
    the CM119 only, then 8 again, one GPIO output report driving the pattern
    under the variant's output-enable mask, followed by one request for the
    input report.  So it sends no EEPROM command, and it leaves the EEPROM as
    it was.  It returns a count of at most four errors for each step, and it
    ends by printing the pass line exactly when the count is 0. *)
Theorem digital_test_on_the_wire (devtype : devtype_t) (w : world) :
  let mask := if devtype_eqb devtype DEV_C119 then 0x3d else 0xd in
  let patterns :=
    [8; 9; 0xc; 0] ++ (if devtype_eqb devtype DEV_C119 then [0x18; 0x28] else []) ++ [8] in
  exists n steps,
    snd (digital_test devtype w) = Some n /\
    0 <= n <= 4 * Z.of_nat (length patterns) /\
    eeprom (fst (digital_test devtype w)) = eeprom w /\
    map (fun s => fst (fst s)) steps = patterns /\
    transfers (fst (digital_test devtype w)) = transfers w ++ gpio_trace mask steps /\
    Forall (fun t => written_address t = None) (gpio_trace mask steps) /\
    last (stdout (fst (digital_test devtype w)))
    = Some (if n =? 0 then ("Digital I/O passed!!" ++ nl)%string
            else ("Digital I/O had " ++ dec n ++ " errors!!" ++ nl)%string).
Proof.
  intros mask patterns.
  destruct (digital_test devtype w) as [w' r] eqn:E.
  unfold digital_test in E. rewrite bind_printf in E.
  destruct devtype; cbn [devtype_eqb] in *; subst mask patterns;
    repeat testio_step E; rewrite ?bind_ret in E;
    repeat testio_step E;
    match type of E with
    | context [if ?c then _ else _] => destruct c eqn:Hc
    end;
    rewrite bind_printf in E; unfold ret in E; injection E as <- <-;
    cbn [fst snd eeprom transfers stdout with_stdout devtype_eqb] in *;
    repeat match goal with
           | H : transfers ?a = _, H' : transfers _ = ?r |- _ =>
               match r with context [transfers a] => rewrite H in H'; clear H end
           end;
    match goal with
    | H : transfers _ = _ |- _ => rewrite <- ?app_assoc in H; cbn [app] in H; rewrite H
    end;
    (eexists _, _; split; [reflexivity|]);
    rewrite Hc;
    (split; [cbn [app length]; lia|]);
    (split; [congruence|]);
    (apply and_second_first;
     [ f_equal; repeat apply gpio_trace_cons; exact (eq_refl : [] = gpio_trace _ [])
     | reflexivity
     | split; [repeat constructor | apply last_snoc] ]).
Qed.

(** ** The two channels of a block *)

Lemma outaudio_loop_channels devtype (n : nat) freq1 freq2 step1 step2 :
  forall t1 t2,
    outaudio_loop devtype n freq1 freq2 step1 step2 t1 t2
    = (interleave (fst (channel_run devtype n freq1 step1 t1))
                  (fst (channel_run devtype n freq2 step2 t2)),
       (snd (channel_run devtype n freq1 step1 t1),
        snd (channel_run devtype n freq2 step2 t2))).
Proof.
  induction n as [|n IH]; intros t1 t2; [reflexivity|].
  cbn [outaudio_loop channel_run].
  destruct (outaudio_word devtype freq1 t1 (fst step1) (snd step1)) as [t1' x1].
  destruct (outaudio_word devtype freq2 t2 (fst step2) (snd step2)) as [t2' x2].
  rewrite IH.
  destruct (channel_run devtype n freq1 step1 t1') as [l tl].
  destruct (channel_run devtype n freq2 step2 t2') as [r tr].
  reflexivity.
Qed.

Lemma channel_run_length devtype (n : nat) freq step :
  forall t, length (fst (channel_run devtype n freq step t)) = n.
Proof.
  induction n as [|n IH]; intros t; [reflexivity|].
  cbn [channel_run].
  destruct (outaudio_word devtype freq t (fst step) (snd step)) as [t' x].
  specialize (IH t'). destruct (channel_run devtype n freq step t') as [l tl].
  cbn [fst length] in *. congruence.
Qed.

Lemma channel_run_silent devtype (n : nat) freq step :
  SFltb (F64.of_Z 0) (F64.of_float freq) = false ->
  forall t, channel_run devtype n freq step t = (replicate n 0, t).
Proof.
  intros Hs. induction n as [|n IH]; intros t; [reflexivity|].
  cbn [channel_run]. unfold outaudio_word. rewrite Hs. rewrite IH. reflexivity.
Qed.

(** X11: the block [outaudio] builds is the interleaving of two channels
    that do not influence each other: each channel's 1024 words and its rotor
    afterwards are those of that channel run alone from its own frequency,
    phase step and rotor. *)
Theorem outaudio_channels (devtype : devtype_t) (freq1 freq2 : spec_float)
    (step1 step2 : spec_float * spec_float) (t1 t2 : tonevars) :
  let left := channel_run devtype 1024 freq1 step1 (block_start freq1 t1) in
  let right := channel_run devtype 1024 freq2 step2 (block_start freq2 t2) in
  outaudio devtype freq1 freq2 step1 step2 t1 t2
  = (interleave (fst left) (fst right), (snd left, snd right)) /\
  length (fst left) = 1024%nat /\ length (fst right) = 1024%nat.
Proof.
  intros left right. split; [|split; apply channel_run_length].
  unfold outaudio. change (Z.to_nat AUDIO_SAMPLES_PER_BLOCK) with 1024%nat.
  apply outaudio_loop_channels.
Qed.

(** X12: a channel whose frequency is not above zero gets 1024 zero words
    and is left with the unit rotor, whatever its rotor was and whatever the
    other channel plays; this holds for the right channel and for the left. *)
Theorem outaudio_silent_channel (devtype : devtype_t) (freq : spec_float) :
  SFltb (F64.of_Z 0) (F64.of_float freq) = false ->
  forall (other : spec_float) (step1 step2 : spec_float * spec_float) (t1 t2 : tonevars),
    (exists left t1',
       outaudio devtype other freq step1 step2 t1 t2
       = (interleave left (replicate 1024 0),
          (t1', Tonevars (F32.of_Z 1) (S754_zero false))) /\
       length left = 1024%nat) /\
    (exists right t2',
       outaudio devtype freq other step1 step2 t1 t2
       = (interleave (replicate 1024 0) right,
          (Tonevars (F32.of_Z 1) (S754_zero false), t2')) /\
       length right = 1024%nat).
Proof.
  intros Hs other step1 step2 t1 t2. unfold outaudio.
  change (Z.to_nat AUDIO_SAMPLES_PER_BLOCK) with 1024%nat.
  rewrite !outaudio_loop_channels. rewrite Hs.
  rewrite (channel_run_silent devtype 1024 freq step2 Hs).
  rewrite (channel_run_silent devtype 1024 freq step1 Hs).
  split; (eexists _, _; split; [reflexivity|]); apply channel_run_length.
Qed.

Lemma outaudio_silent_channel_witness :
  SFltb (F64.of_Z 0) (F64.of_float (F32.of_Z 0)) = false /\
  exists left t1',
    outaudio DEV_C119 (F32.of_Z 0) (F32.of_Z 0)
      (S754_zero false, S754_zero false) (S754_zero false, S754_zero false)
      (Tonevars (F32.of_Z 5) (F32.of_Z 7)) (Tonevars (F32.of_Z 5) (F32.of_Z 7))
    = (interleave left (replicate 1024 0),
       (t1', Tonevars (F32.of_Z 1) (S754_zero false))) /\
    length left = 1024%nat.
Proof.
  assert (SFltb (F64.of_Z 0) (F64.of_float (F32.of_Z 0)) = false) as Hs by reflexivity.
  split; [exact Hs|].
  apply (outaudio_silent_channel DEV_C119 (F32.of_Z 0) Hs (F32.of_Z 0)
           (S754_zero false, S754_zero false) (S754_zero false, S754_zero false)
           (Tonevars (F32.of_Z 5) (F32.of_Z 7)) (Tonevars (F32.of_Z 5) (F32.of_Z 7))).
Defined.

(** ** The gain stage and the input of the transform *)

Lemma forall_bits_spec (n : nat) (P : Z -> bool) :
  forall acc, forall_bits n P acc = true ->
  forall x, 0 <= x < 2 ^ Z.of_nat n -> P (acc * 2 ^ Z.of_nat n + x) = true.
Proof.
  induction n as [|n IH]; intros acc H x Hx.
  - cbn in Hx. assert (x = 0) as -> by lia. cbn [forall_bits] in H.
    replace (acc * 2 ^ Z.of_nat 0 + 0) with acc by (cbn; lia). exact H.
  - cbn [forall_bits] in H. apply andb_true_iff in H as [H0 H1].
    rewrite Nat2Z.inj_succ, Z.pow_succ_r in * by lia.
    destruct (Z.lt_ge_cases x (2 ^ Z.of_nat n)) as [Hlt|Hge].
    + specialize (IH _ H0 x ltac:(lia)).
      replace (acc * (2 * 2 ^ Z.of_nat n) + x) with (2 * acc * 2 ^ Z.of_nat n + x) by lia.
      exact IH.
    + specialize (IH _ H1 (x - 2 ^ Z.of_nat n) ltac:(lia)).
      replace (acc * (2 * 2 ^ Z.of_nat n) + x)
        with ((2 * acc + 1) * 2 ^ Z.of_nat n + (x - 2 ^ Z.of_nat n)) by lia.
      exact IH.
Qed.

Lemma forall_shorts (P : Z -> bool) :
  forall_bits 16 (fun u => P (u - 32768)) 0 = true ->
  forall s, is_short s -> P s = true.
Proof.
  intros H s Hs. unfold is_short in Hs.
  pose proof (forall_bits_spec 16 _ 0 H (s + 32768)) as H1. cbv beta in H1.
  change (2 ^ Z.of_nat 16) with 65536 in H1.
  replace (0 * 65536 + (s + 32768) - 32768) with s in H1 by lia.
  apply H1. lia.
Qed.

(** Every 16-bit sample, with the constants of the gain stage written out:
    32768 and the two values of [gfac] as [float]s. *)
Lemma gain_samples_checked :
  forall_bits 16
    (fun u =>
       (fun s =>
          (fun x =>
             (s16 (float_to_int (F32.mul x (S754_finite false 8388608 (-23))) - 32768) =? s)
             && (let g :=
                   s16 (float_to_int (F32.mul x (S754_finite false 12581234 (-24)))
                        - 32768) in
                 let e := (s + 32768) * 7499 / 10000 - 32768 in
                 (e <=? g) && (g <=? e + 1)))
            (F32.add (F32.of_Z s) (S754_finite false 8388608 (-8)))) (u - 32768)) 0
  = true.
Proof. vm_cast_no_check (eq_refl true). Qed.

Lemma gain_sample_constants devtype s :
  gain_sample devtype s
  = s16 (float_to_int
           (F32.mul (F32.add (F32.of_Z s) (S754_finite false 8388608 (-8)))
                    (match devtype with
                     | DEV_C108 => S754_finite false 8388608 (-23)
                     | _ => S754_finite false 12581234 (-24)
                     end)) - 32768).
Proof.
  unfold gain_sample.
  assert (F32.of_Z 32768 = S754_finite false 8388608 (-8)) as -> by reflexivity.
  assert (gfac devtype
          = match devtype with
            | DEV_C108 => S754_finite false 8388608 (-23)
            | _ => S754_finite false 12581234 (-24)
            end) as -> by (destruct devtype; reflexivity).
  reflexivity.
Qed.

(** X13: on every 16-bit sample the gain stage of [soundthread] is the
    identity for the CM108; for the CM108AH and the CM119 it gives the sample
    whose offset-binary value is 0.7499 times the one read, rounded down or
    one above that, so the result always fits a [short]. *)
Theorem gain_stage (s : Z) :
  is_short s ->
  gain_sample DEV_C108 s = s /\
  (forall devtype, devtype <> DEV_C108 ->
     let e := (s + 32768) * 7499 / 10000 - 32768 in
     e <= gain_sample devtype s <= e + 1 /\ is_short (gain_sample devtype s)).
Proof.
  intros Hs. pose proof (forall_shorts _ gain_samples_checked s Hs) as H.
  cbv beta zeta in H. rewrite !andb_true_iff in H. destruct H as (H1 & H2 & H3).
  apply Z.eqb_eq in H1. apply Z.leb_le in H2, H3.
  rewrite !gain_sample_constants.
  split; [exact H1|]. intros devtype Hd e. rewrite gain_sample_constants.
  destruct devtype; [congruence | |];
    (subst e; split; [lia|]; unfold is_short in *;
     pose proof (Z.div_pos ((s + 32768) * 7499) 10000 ltac:(lia) ltac:(lia));
     assert ((s + 32768) * 7499 / 10000 < 49145)
       by (apply Z.div_lt_upper_bound; lia);
     lia).
Qed.

Lemma gain_stage_witness :
  is_short 12234 /\
  gain_sample DEV_C108 12234 = 12234 /\
  gain_sample DEV_C119 12234 = 979 /\ (12234 + 32768) * 7499 / 10000 - 32768 = 978.
Proof.
  assert (is_short 12234) as Hs by (unfold is_short; lia).
  split; [exact Hs|].
  destruct (gain_stage 12234 Hs) as [H1 H2]. split; [exact H1|].
  split; reflexivity.
Defined.

Lemma gain_loop (g : Z -> Z) (k : nat) (sbuf : list Z) :
  let r := fold_left (fun s i => <[Z.to_nat i := g (default 0 (s !! Z.to_nat i))]> s)
             (seqZ 0 (Z.of_nat k)) sbuf in
  length r = length sbuf /\
  forall j : nat, r !! j = if (j <? k)%nat then g <$> sbuf !! j else sbuf !! j.
Proof.
  induction k as [|k IH].
  - cbn. split; [reflexivity|]. intros j. reflexivity.
  - rewrite seqZ_S, fold_left_app. cbn [fold_left].
    cbv zeta in IH. destruct IH as [Hl Hj].
    set (r := fold_left _ (seqZ 0 (Z.of_nat k)) sbuf) in *.
    cbv zeta. replace (Z.to_nat (0 + Z.of_nat k)) with k by lia.
    split; [rewrite length_insert; exact Hl|].
    intros j. destruct (Nat.eq_dec j k) as [->|Hne].
    + destruct (Nat.ltb_spec k (Datatypes.S k)); [|lia].
      specialize (Hj k). destruct (Nat.ltb_spec k k); [lia|].
      destruct (sbuf !! k) as [x|] eqn:Ex.
      * rewrite list_lookup_insert_eq by (rewrite Hl; eapply lookup_lt_Some; exact Ex).
        rewrite Hj. reflexivity.
      * rewrite list_insert_ge by (rewrite Hl; apply lookup_ge_None; exact Ex).
        rewrite Hj. reflexivity.
    + rewrite list_lookup_insert_ne by lia. rewrite Hj.
      destruct (Nat.ltb_spec j k), (Nat.ltb_spec j (Datatypes.S k)); try reflexivity; lia.
Qed.

Lemma afft_loop (h : Z -> spec_float) (sb : list Z) (k : nat) (a0 : list spec_float) :
  let r := fold_left
             (fun a k => <[Z.to_nat (2 * k) := h (default 0 (sb !! Z.to_nat (2 * k)))]> a)
             (seqZ 0 (Z.of_nat k)) a0 in
  length r = length a0 /\
  forall j : nat,
    r !! j = if Nat.even j && (j <? 2 * k)%nat && (j <? length a0)%nat
             then Some (h (default 0 (sb !! j))) else a0 !! j.
Proof.
  induction k as [|k IH].
  - cbn [Z.of_nat seqZ fold_left]. split; [reflexivity|]. intros j.
    change (2 * 0)%nat with 0%nat. destruct (Nat.ltb_spec j 0); [lia|].
    rewrite andb_false_r. reflexivity.
  - rewrite seqZ_S, fold_left_app. cbn [fold_left].
    cbv zeta in IH. destruct IH as [Hl Hj].
    set (r := fold_left _ (seqZ 0 (Z.of_nat k)) a0) in *.
    cbv zeta. replace (Z.to_nat (2 * (0 + Z.of_nat k))) with (2 * k)%nat by lia.
    split; [rewrite length_insert; exact Hl|].
    intros j. destruct (Nat.eq_dec j (2 * k)%nat) as [->|Hne].
    + assert (Nat.even (2 * k) = true) as -> by (rewrite Nat.even_mul; reflexivity).
      destruct (Nat.ltb_spec (2 * k) (2 * Datatypes.S k)); [|lia]. cbn [andb].
      destruct (Nat.ltb_spec (2 * k) (length a0)).
      * rewrite list_lookup_insert_eq by lia. reflexivity.
      * rewrite list_insert_ge by lia. rewrite Hj.
        destruct (Nat.ltb_spec (2 * k) (length a0)); [lia|].
        rewrite andb_false_r. reflexivity.
    + rewrite list_lookup_insert_ne by lia. rewrite Hj.
      destruct (Nat.even j) eqn:Ev; cbn [andb]; [|reflexivity].
      assert (j <> Datatypes.S (2 * k)) as Hodd.
      { intros ->. rewrite Nat.even_succ, <- Nat.negb_even, Nat.even_mul in Ev.
        discriminate. }
      destruct (Nat.ltb_spec j (2 * k)), (Nat.ltb_spec j (2 * Datatypes.S k));
        try reflexivity; lia.
Qed.

(** Every 16-bit sample, with 65536 written out as a [double]. *)
Lemma afft_samples_checked :
  forall_bits 16
    (fun u =>
       (fun s =>
          Qeq_bool
            (SF2Q (F64.div (F64.of_Z (s + 32768))
                           (S754_finite false 4503599627370496 (-36))))
            (inject_Z (s + 32768) / 65536)) (u - 32768)) 0
  = true.
Proof. vm_cast_no_check (eq_refl true). Qed.

Lemma afft_sample_exact s :
  is_short s ->
  (SF2Q (afft_sample s) == inject_Z (s + 32768) / 65536)%Q /\
  (0 <= SF2Q (afft_sample s))%Q /\ (SF2Q (afft_sample s) < 1)%Q.
Proof.
  intros Hs. pose proof (forall_shorts _ afft_samples_checked s Hs) as H.
  cbv beta in H. apply Qeq_bool_iff in H.
  assert (afft_sample s
          = F64.div (F64.of_Z (s + 32768)) (S754_finite false 4503599627370496 (-36)))
    as -> by reflexivity.
  split; [exact H|]. rewrite H. unfold is_short in Hs.
  unfold Qle, Qlt, Qdiv, Qmult, Qinv, inject_Z. cbn. lia.
Qed.

Lemma s16_short z : is_short (s16 z).
Proof.
  unfold is_short, s16. pose proof (Z.mod_pos_bound (z + 32768) 65536 ltac:(lia)). lia.
Qed.

(** X14: for a block of 2048 samples, the array [cdft] receives holds, at
    each even index below 2048, the left-channel sample of that index after
    the gain stage, as the exact value (sample + 32768) / 65536, which lies
    in [0, 1); the odd entries, the imaginary parts, are zero, so the
    right-channel samples at the odd indices of the block are never
    analysed. *)
Theorem spectrum_input (devtype : devtype_t) (sbuf : list Z) (afft : list spec_float) :
  length sbuf = 2048%nat -> length afft = 2051%nat ->
  let out := snd (soundthread_afft devtype sbuf afft) in
  length out = 2051%nat /\
  forall k : nat, (k < 1024)%nat ->
    out !! (2 * k + 1)%nat = Some (S754_zero false) /\
    exists s x,
      sbuf !! (2 * k)%nat = Some s /\
      out !! (2 * k)%nat = Some x /\
      (SF2Q x == inject_Z (gain_sample devtype s + 32768) / 65536)%Q /\
      (0 <= SF2Q x)%Q /\ (SF2Q x < 1)%Q.
Proof.
  intros Hls Hla out. subst out. unfold soundthread_afft, pure_for. cbn [snd].
  change (AUDIO_BLOCKSIZE / 2 - 0) with (Z.of_nat 2048).
  change (NFFT - 0) with (Z.of_nat 1024).
  change (Z.to_nat (2 * (NFFT + 1))) with 2050%nat.
  destruct (gain_loop (gain_sample devtype) 2048 sbuf) as [Hl1 Hg]. cbv zeta in Hl1, Hg.
  set (sb := fold_left _ (seqZ 0 (Z.of_nat 2048)) sbuf) in *.
  set (a0 := replicate 2050 (S754_zero false) ++ drop 2050 afft).
  assert (length a0 = 2051%nat) as Hla0.
  { subst a0. rewrite length_app, length_replicate, length_drop. lia. }
  destruct (afft_loop afft_sample sb 1024 a0) as [Hl2 Ha]. cbv zeta in Hl2, Ha.
  split; [congruence|]. intros k Hk. split.
  - rewrite Ha. rewrite Nat.add_1_r, Nat.even_succ, <- Nat.negb_even, Nat.even_mul.
    cbn [Nat.even orb negb andb]. subst a0.
    rewrite lookup_app_l by (rewrite length_replicate; lia).
    apply lookup_replicate_2. lia.
  - destruct (lookup_lt_is_Some_2 sbuf (2 * k)) as [s Es]; [lia|].
    exists s, (afft_sample (gain_sample devtype s)). split; [exact Es|].
    split.
    + rewrite Ha. rewrite Nat.even_mul. cbn [Nat.even orb].
      destruct (Nat.ltb_spec (2 * k) (2 * 1024)); [|lia].
      destruct (Nat.ltb_spec (2 * k) (length a0)); [|lia]. cbn [andb].
      rewrite Hg. destruct (Nat.ltb_spec (2 * k) 2048); [|lia].
      rewrite Es. reflexivity.
    + apply afft_sample_exact, s16_short.
Qed.

Lemma spectrum_input_witness :
  length (replicate 2048 0) = 2048%nat /\
  length (replicate 2051 (F64.of_Z 3)) = 2051%nat /\
  exists x,
    snd (soundthread_afft DEV_C108 (replicate 2048 0) (replicate 2051 (F64.of_Z 3)))
      !! 0%nat = Some x /\
    (SF2Q x == 1 # 2)%Q.
Proof.
  assert (length (replicate 2048 0) = 2048%nat) as H1 by apply length_replicate.
  assert (length (replicate 2051 (F64.of_Z 3)) = 2051%nat) as H2 by apply length_replicate.
  split; [exact H1|]. split; [exact H2|].
  destruct (spectrum_input DEV_C108 (replicate 2048 0) (replicate 2051 (F64.of_Z 3)) H1 H2)
    as [_ H].
  destruct (H 0%nat ltac:(lia)) as (_ & s & x & Es & Ex & Hq & _).
  exists x. split; [exact Ex|].
  change (replicate 2048 0 !! (2 * 0)%nat) with (Some 0) in Es.
  injection Es as <-. rewrite Hq. reflexivity.
Defined.

(** ** Levels of a silent channel *)

Lemma level_of_zero : level (S754_zero false) = S754_zero false.
Proof. vm_compute. reflexivity. Qed.

(** X15: for a target that is not above zero the analyser reports the level
    zero on that channel, whatever the spectrum holds and whatever the other
    target is. *)
Theorem silent_target_level (afft : list spec_float) (freq : spec_float) :
  SFltb (F64.of_Z 0) (F64.of_float freq) = false ->
  forall other : spec_float,
    snd (soundthread_levels afft other freq) = S754_zero false /\
    snd (fst (soundthread_levels afft freq other)) = S754_zero false.
Proof.
  intros Hs other. unfold soundthread_levels, pure_for. rewrite Hs.
  split.
  - match goal with
    | |- context [fold_left ?f ?l ?s] =>
        assert (forall l' st, snd st = S754_zero false ->
                              snd (fold_left f l' st) = S754_zero false) as Hinv
    end.
    { induction l' as [|i l' IH]; intros [[a b] c] Hst; [exact Hst|].
      cbn [fold_left]. apply IH. cbn [snd] in *. exact Hst. }
    match goal with
    | |- context [fold_left ?f ?l ?s] =>
        specialize (Hinv l s eq_refl); destruct (fold_left f l s) as [[a b] c]
    end.
    cbn [snd] in *. subst c. apply level_of_zero.
  - match goal with
    | |- context [fold_left ?f ?l ?s] =>
        assert (forall l' st, snd (fst st) = S754_zero false ->
                              snd (fst (fold_left f l' st)) = S754_zero false) as Hinv
    end.
    { induction l' as [|i l' IH]; intros [[a b] c] Hst; [exact Hst|].
      cbn [fold_left]. apply IH. cbn [fst snd] in *. exact Hst. }
    match goal with
    | |- context [fold_left ?f ?l ?s] =>
        specialize (Hinv l s eq_refl); destruct (fold_left f l s) as [[a b] c]
    end.
    cbn [fst snd] in *. subst b. apply level_of_zero.
Qed.

Lemma silent_target_level_witness :
  SFltb (F64.of_Z 0) (F64.of_float (F32.of_Z 0)) = false /\
  snd (soundthread_levels (replicate 2051 (F64.of_Z 1)) (F32.of_Z 1004) (F32.of_Z 0))
  = S754_zero false.
Proof.
  assert (SFltb (F64.of_Z 0) (F64.of_float (F32.of_Z 0)) = false) as Hs by reflexivity.
  split; [exact Hs|].
  exact (proj1 (silent_target_level (replicate 2051 (F64.of_Z 1)) (F32.of_Z 0) Hs
                  (F32.of_Z 1004))).
Defined.

(** ** The verdict on a level *)

(** Every whole level, with the wanted levels 550 and 117 and a fifth of
    each written out as [float]s and [double]s. *)
Lemma level_windows_checked :
  forall_bits 16
    (fun l =>
       (fun x =>
          Bool.eqb (SFltb (S754_finite false 7740561859543040 (-46))
                          (F64.fabs (F64.of_float
                                       (F32.sub x (S754_finite false 9011200 (-14))))))
                   (negb ((440 <=? l) && (l <=? 660)))
          && Bool.eqb (SFltb (S754_finite false 6586514455029351 (-48))
                             (F64.fabs (F64.of_float
                                          (F32.sub x (S754_finite false 15335424 (-17))))))
                      (negb ((94 <=? l) && (l <=? 140)))) (F32.of_Z l)) 0
  = true.
Proof. vm_cast_no_check (eq_refl true). Qed.

Lemma out_of_range_constants lev :
  out_of_range lev (F32.of_Z PASSBAND_LEVEL)
  = SFltb (S754_finite false 7740561859543040 (-46))
          (F64.fabs (F64.of_float (F32.sub lev (S754_finite false 9011200 (-14))))) /\
  out_of_range lev (F32.of_Z STOPBAND_LEVEL)
  = SFltb (S754_finite false 6586514455029351 (-48))
          (F64.fabs (F64.of_float (F32.sub lev (S754_finite false 15335424 (-17))))).
Proof.
  unfold out_of_range.
  assert (F32.of_Z PASSBAND_LEVEL = S754_finite false 9011200 (-14)) as -> by reflexivity.
  assert (F32.of_Z STOPBAND_LEVEL = S754_finite false 15335424 (-17)) as -> by reflexivity.
  split; reflexivity.
Qed.

(** X16: for a level that is a whole number of the analyser's units,
    [analog_test_one] counts an error on a pass-band channel exactly when the
    level lies outside 440..660, and on the stop-band channel exactly when it
    lies outside 94..140; so the level 0 of a silent channel is an error on
    either. *)
Theorem analog_level_windows (l : Z) :
  0 <= l < 65536 ->
  out_of_range (F32.of_Z l) (F32.of_Z PASSBAND_LEVEL) = negb ((440 <=? l) && (l <=? 660)) /\
  out_of_range (F32.of_Z l) (F32.of_Z STOPBAND_LEVEL) = negb ((94 <=? l) && (l <=? 140)) /\
  forall other dlev,
    analog_test_one (F32.of_Z l) other (F32.of_Z PASSBAND_LEVEL) dlev
    = (if (440 <=? l) && (l <=? 660) then 0 else 1)
      + (if out_of_range other dlev then 1 else 0).
Proof.
  intros Hl.
  pose proof (forall_bits_spec 16 _ 0 level_windows_checked l Hl) as H.
  cbv beta in H. replace (0 * 2 ^ Z.of_nat 16 + l) with l in H by lia.
  apply andb_true_iff in H as [H1 H2]. apply eqb_prop in H1, H2.
  destruct (out_of_range_constants (F32.of_Z l)) as [E1 E2].
  rewrite <- E1 in H1. rewrite <- E2 in H2.
  split; [exact H1|]. split; [exact H2|].
  intros other dlev. unfold analog_test_one. rewrite H1.
  destruct ((440 <=? l) && (l <=? 660)), (out_of_range other dlev); reflexivity.
Qed.

Lemma analog_level_windows_witness :
  0 <= 0 < 65536 /\
  out_of_range (F32.of_Z 0) (F32.of_Z PASSBAND_LEVEL) = true /\
  out_of_range (F32.of_Z 0) (F32.of_Z STOPBAND_LEVEL) = true.
Proof.
  assert (0 <= 0 < 65536) as H by lia.
  split; [exact H|].
  destruct (analog_level_windows 0 H) as (H1 & H2 & _).
  split; [exact H1 | exact H2].
Defined.

(** ** The menu *)

(** X17: the menu initialises the EEPROM for the upper-case letter E and
    for no other character; every other upper-case letter but T acts as its
    lower-case letter does. *)
Theorem menu_letters (devproductid str0 : Z) :
  (main_switch devproductid str0 = EepromInit <-> str0 = chr "E") /\
  (isupper str0 = true -> str0 <> chr "E" -> str0 <> chr "T" ->
   main_switch devproductid str0 = main_switch devproductid (tolower str0)).
Proof.
  split; [split|].
  - unfold main_switch.
    set (c := if isupper str0 then tolower str0 else str0).
    repeat match goal with
           | |- (if ?b then _ else _) = _ -> _ =>
               let E := fresh "E" in
               destruct b eqn:E; [try discriminate|]
           end; try discriminate.
    intros _. apply Z.eqb_eq. assumption.
  - intros ->. reflexivity.
  - intros Hup HE HT. unfold tolower. rewrite Hup.
    unfold isupper in Hup. apply andb_true_iff in Hup as [Ha Hz].
    apply Z.leb_le in Ha, Hz. change (chr "A") with 65 in Ha. change (chr "Z") with 90 in Hz.
    change (chr "E") with 69 in HE. change (chr "T") with 84 in HT.
    assert (In str0 (seqZ 65 26)) as Hin by (apply list_elem_of_In, elem_of_seqZ; lia).
    vm_compute in Hin.
    repeat (destruct Hin as [<-|Hin]; [first [reflexivity | contradiction] |]).
    contradiction.
Qed.

Lemma menu_letters_witness :
  isupper (chr "I") = true /\ chr "I" <> chr "E" /\ chr "I" <> chr "T" /\
  main_switch C119B_PRODUCT_ID (chr "I") = DigitalTest.
Proof.
  assert (isupper (chr "I") = true) as H1 by reflexivity.
  assert (chr "I" <> chr "E") as H2 by (vm_compute; discriminate).
  assert (chr "I" <> chr "T") as H3 by (vm_compute; discriminate).
  split; [exact H1|]. split; [exact H2|]. split; [exact H3|].
  rewrite (proj2 (menu_letters C119B_PRODUCT_ID (chr "I")) H1 H2 H3). reflexivity.
Defined.

(** ** Writing over a transport that fails *)

(** The loop of [put_eeprom] in any world: what it returns does not depend
    on the transfers, and transfers that all fail leave the EEPROM alone. *)
Lemma put_eeprom_loop_any (buf : list Z) (n : nat) :
  forall i cs w,
    EEPROM_START_ADDR <= i -> i + Z.of_nat n <= 63 ->
    (63 <= length buf)%nat -> 0 <= cs < 65536 ->
    exists w',
      iterate n i
        (fun i cs =>
           x <- load buf (i - EEPROM_START_ADDR) ;;
           write_eeprom i x ;;
           y <- load buf i ;;
           ret (u16 (cs + y))) cs w
      = (w', Some (i + Z.of_nat n, u16 (cs + word_sum buf i n))) /\
      forall rest, faults w = replicate n true ++ rest ->
                   eeprom w' = eeprom w /\ faults w' = rest.
Proof.
  unfold EEPROM_START_ADDR.
  induction n as [|n IH]; intros i cs w Hi Hn Hlen Hcs.
  - cbn [iterate word_sum]. exists w. unfold ret.
    rewrite !Z.add_0_r. rewrite u16_small by assumption.
    split; [reflexivity|]. intros rest Hf. cbn in Hf. auto.
  - cbn [iterate word_sum].
    rewrite bind_bind. unfold bind at 1. rewrite load_lookup by lia.
    set (x := default 0 (buf !! Z.to_nat (i - 51))).
    destruct (write_eeprom_effect i x w) as (t & _ & Hs & _ & Hfa & He).
    rewrite bind_bind. rewrite (bind_some _ _ _ _ Hs).
    set (w1 := fst (write_eeprom i x w)) in *.
    rewrite bind_bind. unfold bind at 1. rewrite load_lookup by lia. rewrite bind_ret.
    destruct (IH (i + 1) (u16 (cs + default 0 (buf !! Z.to_nat i))) w1)
      as (w2 & Hit & Hrest); try lia.
    { apply u16_range. }
    rewrite Hit. exists w2. split.
    + f_equal. f_equal. f_equal; [lia|].
      unfold eeprom_word. set (d := default 0 (buf !! Z.to_nat i)).
      rewrite u16_add_l.
      replace (cs + (u16 d + word_sum buf (i + 1) n))
        with (u16 d + (cs + word_sum buf (i + 1) n)) by lia.
      rewrite u16_add_l. f_equal. lia.
    + intros rest Hf. cbn [replicate app] in Hf. rewrite Hf in Hfa, He.
      cbn [hd tl] in Hfa, He.
      destruct (Hrest rest Hfa) as [He2 Hf2]. split; [congruence | exact Hf2].
Qed.

(** X18: whatever the transfers do, [put_eeprom] returns, and returns the
    same image, so the caller cannot tell a failure; when all 13 of its
    transfers fail the EEPROM is left as it was. *)
Theorem put_eeprom_unanswered (buf : list Z) (w : world) :
  (63 <= length buf)%nat ->
  let image := <[0%nat := EEPROM_MAGIC]> buf in
  let csword := u16 (65535 - u16 (0xffff + word_sum image 51 12) + 1) in
  snd (put_eeprom buf w) = Some (<[12%nat := csword]> image) /\
  forall rest, faults w = replicate 13 true ++ rest ->
               eeprom (fst (put_eeprom buf w)) = eeprom w.
Proof.
  intros Hlen image csword.
  assert (exists w',
            put_eeprom buf w = (w', Some (<[12%nat := csword]> image)) /\
            forall rest, faults w = replicate 13 true ++ rest -> eeprom w' = eeprom w)
    as (w' & E & Hrest).
  {
    unfold put_eeprom, for_lt.
    unfold bind at 1. rewrite store_in_range by (unfold EEPROM_USER_MAGIC_ADDR; lia).
    change (<[Z.to_nat EEPROM_USER_MAGIC_ADDR:=EEPROM_MAGIC]> buf) with image.
    assert (length image = length buf) as Hli by apply length_insert.
    change (Z.to_nat (EEPROM_START_ADDR + EEPROM_USER_CS_ADDR - EEPROM_START_ADDR))
      with 12%nat.
    destruct (put_eeprom_loop_any image 12 EEPROM_START_ADDR 0xffff w)
      as (w1 & Hit & Hrest); [reflexivity | unfold EEPROM_START_ADDR; lia | lia | lia |].
    rewrite (bind_some _ _ _ _ (f_equal snd Hit)). rewrite Hit. cbn [fst].
    change (EEPROM_START_ADDR + Z.of_nat 12) with 63.
    change EEPROM_START_ADDR with 51 in *. change EEPROM_USER_CS_ADDR with 12.
    fold csword.
    unfold bind at 1. rewrite store_in_range by lia.
    change (Z.to_nat 12) with 12%nat.
    rewrite bind_usleep.
    unfold bind at 1. rewrite load_lookup by (rewrite length_insert; lia).
    change (Z.to_nat 12) with 12%nat.
    rewrite list_lookup_insert_eq by lia. change (default 0 (Some csword)) with csword.
    set (w1' := with_clock (clock w1 + 2000) w1).
    destruct (write_eeprom_effect 63 csword w1') as (t & _ & Hs & _ & Hfa & He).
    rewrite (bind_some _ _ _ _ Hs). unfold ret.
    eexists. split; [reflexivity|].
    intros rest Hf.
    change (replicate 13 true ++ rest) with (replicate 12 true ++ true :: rest) in Hf.
    destruct (Hrest _ Hf) as [He1 Hf1].
    change (faults w1') with (faults w1) in He. rewrite Hf1 in He. cbn [hd] in He.
    rewrite He. exact He1.
  }
  rewrite E. split; [reflexivity | exact Hrest].
Qed.

Lemma put_eeprom_unanswered_witness :
  (63 <= length (replicate 64 0))%nat /\
  snd (put_eeprom (replicate 64 0) (with_faults (replicate 13 true) programmed_world))
  = snd (put_eeprom (replicate 64 0) programmed_world) /\
  eeprom (fst (put_eeprom (replicate 64 0)
                 (with_faults (replicate 13 true) programmed_world)))
  = eeprom programmed_world.
Proof.
  assert (63 <= length (replicate 64 0))%nat as Hl by (vm_compute; lia).
  split; [exact Hl|].
  destruct (put_eeprom_unanswered (replicate 64 0)
              (with_faults (replicate 13 true) programmed_world) Hl) as [H1 H2].
  split.
  - rewrite H1. reflexivity.
  - apply (H2 []). reflexivity.
Defined.

(** ** The digital test without an adapter *)

(** X19: when none of its transfers is answered, [digital_test] does not
    pass: it counts 2 errors on the CM108, 5 on the CM108AH and 4 on the
    CM119, whatever the board and the plug are. *)
Theorem digital_test_unanswered (devtype : devtype_t) (w : world) (rest : list bool) :
  snd (digital_test devtype (with_faults (replicate 14 true ++ rest) w))
  = Some (match devtype with
          | DEV_C108 => 2
          | DEV_C108AH => 5
          | DEV_C119 => 4
          end).
Proof. destruct devtype; reflexivity. Qed.

(** ** The dump *)

Lemma read_eeprom_stdout addr w : stdout (fst (read_eeprom addr w)) = stdout w.
Proof.
  unfold read_eeprom. autorewrite with step. cbn [fst ret].
  unfold after_get_report, after_set_report.
  cbn [stdout faults with_transfers with_faults with_clock].
  destruct (hd false (faults w)); [reflexivity|].
  unfold chip_set_report. repeat case_match; reflexivity.
Qed.

Lemma get_eeprom_dump_stdout buf w : stdout (fst (get_eeprom_dump buf w)) = stdout w.
Proof.
  assert (triple (fun w w' => stdout w' = stdout w) (get_eeprom_dump buf) (fun _ => True))
    as H.
  { assert (forall w0 : world, stdout w0 = stdout w0) as Hrefl by reflexivity.
    assert (forall a b c : world, stdout b = stdout a -> stdout c = stdout b ->
                                  stdout c = stdout a) as Htrans by (intros; congruence).
    unfold get_eeprom_dump, for_lt.
    eapply (triple_bind _ Htrans).
    - apply (triple_iterate _ Hrefl Htrans). intros j b _.
      eapply (triple_bind _ Htrans _ _ (fun _ => True)).
      + intros w0. split; [apply read_eeprom_stdout | trivial].
      + intros x _. apply (triple_store _ Hrefl). trivial.
    - intros r _. apply (triple_ret _ Hrefl). trivial. }
  exact (proj1 (H w)).
Qed.

Lemma dump_lines_loop (sbuf : list Z) (n : nat) :
  forall i w,
    0 <= i -> i + Z.of_nat n <= Z.of_nat (length sbuf) ->
    iterate n i
      (fun i (_ : unit) =>
         x <- load sbuf i ;;
         printf (dec02 i ++ " - " ++ hex04 x ++ " - " ++ dec x ++ nl)%string) tt w
    = (with_stdout
         (stdout w
          ++ map (fun i => let x := default 0 (sbuf !! Z.to_nat i) in
                           (dec02 i ++ " - " ++ hex04 x ++ " - " ++ dec x ++ nl)%string)
                 (seqZ i (Z.of_nat n))) w,
       Some (i + Z.of_nat n, tt)).
Proof.
  induction n as [|n IH]; intros i w Hi Hn.
  - cbn [iterate Z.of_nat seqZ]. rewrite seqZ_nil by lia. cbn [map]. unfold ret.
    rewrite app_nil_r, Z.add_0_r. destruct w. reflexivity.
  - cbn [iterate]. rewrite bind_bind. unfold bind at 1. rewrite load_lookup by lia.
    rewrite bind_printf. rewrite IH by lia.
    rewrite (seqZ_cons i (Z.of_nat (Datatypes.S n))) by lia. cbn [map].
    replace (Z.pred (Z.of_nat (Datatypes.S n))) with (Z.of_nat n) by lia.
    replace (Z.succ i) with (i + 1) by lia.
    cbn [stdout with_stdout]. rewrite <- app_assoc. cbn [app].
    f_equal. f_equal. f_equal. lia.
Qed.

(** X20: where the transfers complete, [eeprom_dump] returns 0 and prints
    the heading, then one line for each address 0..63 in order, showing the
    address in two digits and the word at that address in hexadecimal and in
    decimal, then an empty line; it leaves the EEPROM as it was. *)
Theorem eeprom_dump_lines (sbuf : list Z) (w : world) :
  faults w = [] -> length sbuf = 64%nat ->
  snd (eeprom_dump sbuf w) = Some 0 /\
  eeprom (fst (eeprom_dump sbuf w)) = eeprom w /\
  stdout (fst (eeprom_dump sbuf w))
  = stdout w
    ++ ["EEPROM dump" ++ nl]%string
    ++ map (fun i => let x := eeprom_word (eeprom w) i in
                     (dec02 i ++ " - " ++ hex04 x ++ " - " ++ dec x ++ nl)%string)
           (seqZ 0 64)
    ++ [nl].
Proof.
  intros Hf Hlen.
  destruct (get_eeprom_dump_loop 64 0 sbuf w Hf) as (w1 & buf' & Hit & He & _ & Hl & Hb);
    [lia | lia | lia |].
  assert (get_eeprom_dump sbuf w = (w1, Some buf')) as Hd.
  { unfold get_eeprom_dump, for_lt. change (Z.to_nat (64 - 0)) with 64%nat.
    rewrite (bind_some _ _ _ _ (f_equal snd Hit)). rewrite Hit. reflexivity. }
  pose proof (get_eeprom_dump_stdout sbuf w) as Hso. rewrite Hd in Hso. cbn [fst] in Hso.
  assert (exists lines,
            eeprom_dump sbuf w = (with_stdout lines w1, Some 0) /\
            lines = ((stdout w1 ++ ["EEPROM dump" ++ nl]%string)
                     ++ map (fun i => let x := default 0 (buf' !! Z.to_nat i) in
                                      (dec02 i ++ " - " ++ hex04 x ++ " - " ++ dec x
                                       ++ nl)%string)
                            (seqZ 0 (Z.of_nat 64)))
                    ++ [nl]) as (lines & E & Hlines).
  { eexists. split; [|reflexivity]. unfold eeprom_dump.
    rewrite (bind_some _ _ _ _ (f_equal snd Hd)). rewrite Hd. cbn [fst].
    rewrite bind_printf. unfold for_lt. change (Z.to_nat (64 - 0)) with 64%nat.
    unfold bind at 1. rewrite dump_lines_loop by lia.
    rewrite bind_printf. destruct w1. reflexivity. }
  rewrite E. cbn [fst snd eeprom stdout with_stdout]. subst lines.
  change (Z.of_nat 64) with 64.
  split; [reflexivity|]. split; [exact He|].
  rewrite Hso. rewrite <- !app_assoc. f_equal. cbn [app]. f_equal. f_equal.
  apply map_ext_in. intros i Hi. apply list_elem_of_In, elem_of_seqZ in Hi.
  cbv zeta. rewrite Hb. change (Z.to_nat 0) with 0%nat. cbn [Nat.leb andb].
  destruct (Nat.ltb_spec (Z.to_nat i) (0 + 64)); [|lia].
  change (default 0 (Some ?v)) with v. rewrite Z2Nat.id by lia. reflexivity.
Qed.

Lemma eeprom_dump_lines_witness :
  faults programmed_world = [] /\ length (replicate 64 0) = 64%nat /\
  snd (eeprom_dump (replicate 64 0) programmed_world) = Some 0 /\
  stdout (fst (eeprom_dump (replicate 64 0) programmed_world)) !! 3%nat
  = Some ("02 - 0013 - 19" ++ nl)%string.
Proof.
  assert (faults programmed_world = []) as Hf by reflexivity.
  assert (length (replicate 64 0) = 64%nat) as Hl by reflexivity.
  split; [exact Hf|]. split; [exact Hl|].
  destruct (eeprom_dump_lines (replicate 64 0) programmed_world Hf Hl) as (H1 & _ & H3).
  split; [exact H1|]. rewrite H3. reflexivity.
Defined.
